(** * ATC training environment and its analysis pipeline: a shallow embedding

    The development follows the Python sources under [ATC/st_env] and
    [ATC/visualization].  Python floats are read as real numbers (rounding,
    NaN and infinities are outside the model), Python ints as [Z] or [nat],
    dictionaries with a fixed key set as records, [collections.deque] with a
    [maxlen] as a bounded list, and clock readings ([time.time()]) as explicit
    arguments of the operations that take them. *)

From Stdlib Require Import String Ascii DecimalString DecimalNat.
From Stdlib Require Import Reals Lra Lia ZArith Bool Arith List Permutation.
Import ListNotations.

Local Open Scope R_scope.

(** ** Python numerics on the reals *)

Module Py.

(** Comparisons of floats, as booleans. *)
Definition ltb (x y : R) : bool := if Rlt_dec x y then true else false.
Definition leb (x y : R) : bool := if Rle_dec x y then true else false.
Definition eqb (x y : R) : bool := if Req_dec_T x y then true else false.

(** [np.hypot]. *)
Definition hypot (x y : R) : R := sqrt (x * x + y * y).

(** The builtin [min(a, b)] and [max(a, b)] on two floats: the first
    argument is kept unless the second is strictly smaller (larger). *)
Definition min (a b : R) : R := if ltb b a then b else a.
Definition max (a b : R) : R := if ltb a b then b else a.

(** [np.clip(r, lo, hi)], that is [np.minimum(np.maximum(r, lo), hi)]. *)
Definition clip (r lo hi : R) : R := Rmin (Rmax r lo) hi.

(** The builtin [sum] over a list of floats: a left fold from [0]. *)
Definition sum (l : list R) : R := fold_left Rplus l 0.

(** [np.mean], [np.var], [np.std] and [np.linalg.norm] of a vector. *)
Definition mean (l : list R) : R := sum l / INR (length l).
Definition var (l : list R) : R :=
  mean (map (fun x => (x - mean l) * (x - mean l)) l).
Definition std (l : list R) : R := sqrt (var l).
Definition norm (v : list R) : R := sqrt (sum (map (fun x => x * x) v)).

(** [int(x)] on a float: truncation towards zero. *)
Definition int (x : R) : Z :=
  if Rle_dec 0 x then Int_part x else (- Int_part (- x))%Z.

(** [collections.deque(maxlen=n).append(x)]: the item goes to the right end
    and, when the length then exceeds [maxlen], the leftmost item is
    dropped. *)
Definition deque_append {A : Type} (maxlen : nat) (d : list A) (x : A) : list A :=
  let d' := d ++ [x] in
  if (maxlen <? length d')%nat then tl d' else d'.

(** A slice [l[-n:]] for [n > 0]: the last [n] items. *)
Definition last_n {A : Type} (n : nat) (l : list A) : list A :=
  skipn (length l - n) l.

End Py.

(** ** [st_env/utils.py] and [st_env/reward.py] *)

(** One aircraft state dictionary.  The keys read with [ac["..."]] are
    fields; ["alive"] is read with [ac.get("alive", True)] and may be
    absent. *)
Record AcState : Type := mkAc {
  ac_id : string;
  x_nm : R;
  y_nm : R;
  alt_ft : R;
  v_kt : R;
  hdg_rad : R;
  goal_x_nm : R;
  goal_y_nm : R;
  alive : option bool
}.

(** [ac.get("alive", True)] *)
Definition get_alive (a : AcState) : bool :=
  match alive a with Some b => b | None => true end.

Module Utils.

(** Body of the inner loop of [pairwise_min_separation_nm] for the pair
    [(ai, aj)], on the accumulator [(min_sep, los_count)]. *)
Definition pair_step (ai aj : AcState) (acc : R * nat) : R * nat :=
  let '(min_sep, los_count) := acc in
  if negb (get_alive ai && get_alive aj) then acc
  else
    let d_nm := Py.hypot (x_nm ai - x_nm aj) (y_nm ai - y_nm aj) in
    let d_ft := Rabs (alt_ft ai - alt_ft aj) in
    let min_sep := Py.min min_sep d_nm in
    if Py.ltb d_nm 5 && Py.ltb d_ft 1000
    then (min_sep, S los_count)
    else (min_sep, los_count).

(** [for j in range(i + 1, len(states))] *)
Fixpoint inner_loop (ai : AcState) (rest : list AcState) (acc : R * nat) : R * nat :=
  match rest with
  | [] => acc
  | aj :: rest' => inner_loop ai rest' (pair_step ai aj acc)
  end.

(** [for i in range(len(states))] *)
Fixpoint outer_loop (states : list AcState) (acc : R * nat) : R * nat :=
  match states with
  | [] => acc
  | ai :: rest => outer_loop rest (inner_loop ai rest acc)
  end.

Definition pairwise_min_separation_nm (states : list AcState) : R * nat :=
  let '(min_sep, los_count) := outer_loop states (1e9, 0%nat) in
  ((if Py.ltb min_sep 1e9 then min_sep else 999), los_count).

(** The unordered pairs [(states[i], states[j])], [i < j], in loop order. *)
Fixpoint unordered_pairs (states : list AcState) : list (AcState * AcState) :=
  match states with
  | [] => []
  | ai :: rest => map (fun aj => (ai, aj)) rest ++ unordered_pairs rest
  end.

(** What one pair adds to [los_count]. *)
Definition contribution (p : AcState * AcState) : nat :=
  snd (pair_step (fst p) (snd p) (0, 0%nat)).

(** The stated condition for a pair to be a loss of separation: both
    aircraft live, Euclidean horizontal distance under 5 NM and absolute
    altitude difference under 1000 ft. *)
Definition is_los (a b : AcState) : Prop :=
  get_alive a = true /\ get_alive b = true /\
  sqrt ((x_nm a - x_nm b) ^ 2 + (y_nm a - y_nm b) ^ 2) < 5 /\
  Rabs (alt_ft a - alt_ft b) < 1000.

End Utils.

Module Reward.

Definition SEP_NM : R := 5.
Definition NEAR_NM : R := 6.
Definition SEP_FT : R := 1000.
Definition NEAR_FT : R := 1200.

(** The [comps] dictionary: its seven keys, in insertion order. *)
Record Components : Type := mkComps {
  los : R;
  near : R;
  progress : R;
  smooth : R;
  fuel : R;
  terminal : R;
  catastrophe : R
}.

(** [comps.values()] *)
Definition values (c : Components) : list R :=
  [los c; near c; progress c; smooth c; fuel c; terminal c; catastrophe c].

(** The seven reported components, added up. *)
Definition raw_sum (c : Components) : R :=
  los c + near c + progress c + smooth c + fuel c + terminal c + catastrophe c.

(** One iteration of [for i, (a_prev, a_cur) in enumerate(zip(...))] on the
    accumulator [(prog, terminal_bonus)]. *)
Definition loop_body (a_prev a_cur : AcState) (acc : R * R) : R * R :=
  let '(prog, terminal_bonus) := acc in
  if negb (get_alive a_cur) then
    if get_alive a_prev then
      let gx := goal_x_nm a_cur in
      let gy := goal_y_nm a_cur in
      let final_range := Py.hypot (gx - x_nm a_cur) (gy - y_nm a_cur) in
      if Py.ltb final_range 5 then (prog, terminal_bonus + 5)
      else (prog, terminal_bonus)
    else (prog, terminal_bonus)
  else
    let gx := goal_x_nm a_cur in
    let gy := goal_y_nm a_cur in
    let prev_range := Py.hypot (gx - x_nm a_prev) (gy - y_nm a_prev) in
    let cur_range := Py.hypot (gx - x_nm a_cur) (gy - y_nm a_cur) in
    let delta_range := prev_range - cur_range in
    (prog + delta_range, terminal_bonus).

(** The loop itself; [n_cur] is [len(cur_states)] and [i] the index that
    [enumerate] yields, with the [break] of the source. *)
Fixpoint reward_loop (n_cur i : nat) (zipped : list (AcState * AcState))
  (acc : R * R) : R * R :=
  match zipped with
  | [] => acc
  | (a_prev, a_cur) :: rest =>
      if (n_cur <=? i)%nat then acc
      else reward_loop n_cur (S i) rest (loop_body a_prev a_cur acc)
  end.

(** [compute_reward].  The [alive_mask] argument is the float array the
    environment passes. *)
Definition compute_reward (prev_states cur_states : list AcState)
  (min_sep_nm : R) (los_count : Z) (alive_mask : list R) : R * Components :=
  let c_los := -10 * IZR los_count in
  let c_near := if Py.ltb min_sep_nm NEAR_NM then -2 else 0 in
  let '(prog, terminal_bonus) :=
    reward_loop (length cur_states) 0 (combine prev_states cur_states) (0, 0) in
  let c_cat := if (2 <=? los_count)%Z then -10 else 0 in
  let comps := mkComps c_los c_near (0.05 * prog) 0 0 terminal_bonus c_cat in
  let r := Py.sum (values comps) in
  (Py.clip r (-20) 5, comps).

End Reward.

(** ** [st_env/env.py] *)

Module Env.

Definition MAX_AC : nat := 16.
Definition PER_AC_FEATS : nat := 18.

(** A command dictionary sent to the simulator. *)
Record Cmd : Type := mkCmd {
  cmd_id : string;
  delta_hdg : R;
  delta_vs : R
}.

(** The [info] dictionary of [step]. *)
Record Info : Type := mkInfo {
  r_components : Reward.Components;
  info_min_sep_nm : R;
  info_los : nat;
  num_alive : Z;
  info_step_count : Z
}.

Section Environment.

(** [bluesky_adapter.adapter.BlueSkySim] is an external simulator: its state
    and its [step] are parameters.  So is the per-aircraft feature block of
    [_encode_obs] (numpy trigonometry on float32), which no property below
    reads. *)
Variable SimState : Type.
Variable sim_step : SimState -> list Cmd -> list AcState * SimState.
Variable Feats : Type.
Variable encode_feats : list AcState -> Feats.

Record Obs : Type := mkObs {
  feats : Feats;
  global_feats : list R
}.

(** The fields of [SyntheticTowerEnv] that [step] reads or writes. *)
Record EnvState : Type := mkEnv {
  sim : SimState;
  horizon : Z;
  alive_mask : list R;
  last_states : option (list AcState);
  step_count : Z
}.

(** The [alive] array of [_encode_obs]: one slot per aircraft of
    [states[:MAX_AC]], the remaining slots zero. *)
Definition alive_array (states : list AcState) : list R :=
  let live := map (fun ac => if get_alive ac then 1 else 0) (firstn MAX_AC states) in
  live ++ repeat 0 (MAX_AC - length live)%nat.

(** [_encode_obs]; [self._step_count / self._horizon] raises
    [ZeroDivisionError] on a zero horizon ([None]). *)
Definition encode_obs (step_count horizon : Z) (states : list AcState)
  : option (Obs * list R) :=
  let alive := alive_array states in
  if (horizon =? 0)%Z then None
  else
    Some (mkObs (encode_feats states)
            [Py.sum alive / INR MAX_AC; 0; 0;
             IZR step_count / IZR horizon; 0; 0; 0; 0],
          alive).

(** The command list of [step]: one command per live aircraft of
    [self._last_states[:MAX_AC]], from rows of the reshaped action. *)
Fixpoint build_cmds (i : nat) (states : list AcState) (actions : list R) : list Cmd :=
  match states with
  | [] => []
  | ac :: rest =>
      if negb (get_alive ac) then build_cmds (S i) rest actions
      else
        mkCmd (ac_id ac) (nth (2 * i) actions 0) (nth (2 * i + 1) actions 0 * 1000)
        :: build_cmds (S i) rest actions
  end.

(** What [step] returns besides the new state. *)
Record StepResult : Type := mkStep {
  observation : Obs;
  reward : R;
  terminated : bool;
  truncated : bool;
  info : Info
}.

(** [SyntheticTowerEnv.step].  [None] stands for a raised exception: the
    action does not reshape to [(MAX_AC, 2)], [reset] was never called
    ([self._last_states] is [None]), or the horizon is zero. *)
Definition step (env : EnvState) (action : list R) : option (StepResult * EnvState) :=
  let step_count := (step_count env + 1)%Z in
  if negb (length action =? MAX_AC * 2)%nat then None
  else
    match last_states env with
    | None => None
    | Some last =>
        let cmds := build_cmds 0 (firstn MAX_AC last) action in
        let '(states, sim') := sim_step (sim env) cmds in
        match encode_obs step_count (horizon env) states with
        | None => None
        | Some (obs, alive) =>
            let '(min_sep_nm, los_count) := Utils.pairwise_min_separation_nm states in
            let '(reward, r_components) :=
              Reward.compute_reward last states min_sep_nm (Z.of_nat los_count) alive in
            let terminated := false in
            let truncated := false in
            let terminated :=
              if Py.ltb (Reward.catastrophe r_components) 0 then true else terminated in
            let truncated :=
              if (horizon env <=? step_count)%Z then true else truncated in
            let terminated :=
              if Py.eqb (Py.sum alive) 0 then true else terminated in
            let info :=
              mkInfo r_components min_sep_nm los_count (Py.int (Py.sum alive)) step_count in
            Some (mkStep obs reward terminated truncated info,
                  mkEnv sim' (horizon env) alive (Some states) step_count)
        end
    end.

End Environment.

Arguments mkObs {Feats} _ _.
Arguments feats {Feats} _.
Arguments global_feats {Feats} _.
Arguments mkEnv {SimState} _ _ _ _ _.
Arguments sim {SimState} _.
Arguments horizon {SimState} _.
Arguments alive_mask {SimState} _.
Arguments last_states {SimState} _.
Arguments step_count {SimState} _.
Arguments mkStep {Feats} _ _ _ _ _.
Arguments observation {Feats} _.
Arguments reward {Feats} _.
Arguments terminated {Feats} _.
Arguments truncated {Feats} _.
Arguments info {Feats} _.
Arguments encode_obs {Feats} _ _ _ _.
Arguments step {SimState} _ {Feats} _ _ _.

End Env.

(** ** [visualization/events]: event data and the event bus *)

(** Python dictionaries whose key order matters ([dict] keeps insertion
    order): association lists without repeated keys. *)
Module Dict.

Section Ops.

Context {K V : Type}.
Variable eqb : K -> K -> bool.

(** [d.get(k)] *)
Fixpoint get (k : K) (d : list (K * V)) : option V :=
  match d with
  | [] => None
  | (k', v) :: d' => if eqb k k' then Some v else get k d'
  end.

(** [d[k] = v]: an existing key keeps its place. *)
Fixpoint set (k : K) (v : V) (d : list (K * V)) : list (K * V) :=
  match d with
  | [] => [(k, v)]
  | (k', v') :: d' => if eqb k k' then (k, v) :: d' else (k', v') :: set k v d'
  end.

(** [del d[k]] *)
Fixpoint del (k : K) (d : list (K * V)) : list (K * V) :=
  match d with
  | [] => []
  | (k', v') :: d' => if eqb k k' then d' else (k', v') :: del k d'
  end.

(** [k in d] *)
Definition mem (k : K) (d : list (K * V)) : bool :=
  match get k d with Some _ => true | None => false end.

(** [d.values()] *)
Definition values (d : list (K * V)) : list V := map snd d.

End Ops.

End Dict.

Module Events.

(** [EventType]; [EPISODE_END] is an alias of [TRAINING_EPISODE_END]. *)
Inductive EventType : Type :=
| ENV_RESET
| ENV_STEP
| POLICY_DECISION
| SAFETY_VIOLATION
| TRAINING_ITERATION
| TRAINING_EPISODE_START
| TRAINING_EPISODE_END
| TRAINING_COMMAND
| SCENARIO_COMMAND.

Definition EventType_eq_dec (a b : EventType) : {a = b} + {a <> b}.
Proof. decide equality. Defined.

Definition EventType_eqb (a b : EventType) : bool :=
  if EventType_eq_dec a b then true else false.

(** The values an event's free-form [data] mapping carries. *)
Inductive Value : Type :=
| VNone
| VBool (b : bool)
| VInt (n : Z)
| VFloat (x : R)
| VStr (s : string)
| VStrs (l : list string)
| VArray (v : list R).

(** [EventData] *)
Record EventData : Type := mkEvent {
  timestamp : R;
  event_type : EventType;
  data : list (string * Value)
}.

(** [event.data.get(key)] *)
Definition data_get (key : string) (ev : EventData) : option Value :=
  Dict.get String.eqb key (data ev).

End Events.

Module Bus.
Import Events.

(** How a call into user code (a subscriber callback, a filter) ends. *)
Inductive Outcome : Type :=
| Returned
| Raised.

Section WithWorld.

(** The state the subscribers' callbacks act on. *)
Variable W : Type.

(** A subscriber callback: it may change the world before it returns or
    raises.  [is_coroutine] is [asyncio.iscoroutinefunction(callback)]. *)
Record Callback : Type := mkCallback {
  is_coroutine : bool;
  call : EventData -> W -> Outcome * W
}.

(** A work item handed to the thread pool with [self._executor.submit]. *)
Inductive Task : Type :=
| SafeCallback (cb : Callback) (ev : EventData)
| SafeAsyncCallback (cb : Callback) (ev : EventData).

(** A filter: [Some b] when it returns a value of truth [b], [None] when it
    raises. *)
Definition Filter : Type := EventData -> option bool.

(** The fields of [EventBus].  [executor] is the queue of work items
    submitted to the pool and not yet run. *)
Record State : Type := mkBus {
  subscribers : list (EventType * list (string * Callback));
  async_subscribers : list (EventType * list (string * Callback));
  event_history : list EventData;
  max_history : nat;
  rate_limit : Z;
  rate_counter : Z;
  rate_window_start : R;
  running : bool;
  filters : list (string * Filter);
  executor : list Task
}.

(** [EventBus(max_history, rate_limit_per_second)], built at time [now]. *)
Definition init (max_history : nat) (rate_limit_per_second : Z) (now : R) : State :=
  mkBus [] [] [] max_history rate_limit_per_second 0 now true [] [].

(** [registry[event_type][subscription_id] = callback] on a
    [defaultdict(dict)]. *)
Definition registry_add (event_type : EventType) (subscription_id : string)
  (cb : Callback) (registry : list (EventType * list (string * Callback)))
  : list (EventType * list (string * Callback)) :=
  let inner :=
    match Dict.get EventType_eqb event_type registry with
    | Some d => d
    | None => []
    end in
  Dict.set EventType_eqb event_type (Dict.set String.eqb subscription_id cb inner)
    registry.

(** [subscribe]; [subscription_id] is the fresh [uuid4] string. *)
Definition subscribe (event_type : EventType) (cb : Callback)
  (subscription_id : string) (b : State) : string * State :=
  if is_coroutine cb then
    (subscription_id,
     mkBus (subscribers b)
       (registry_add event_type subscription_id cb (async_subscribers b))
       (event_history b) (max_history b) (rate_limit b) (rate_counter b)
       (rate_window_start b) (running b) (filters b) (executor b))
  else
    (subscription_id,
     mkBus (registry_add event_type subscription_id cb (subscribers b))
       (async_subscribers b)
       (event_history b) (max_history b) (rate_limit b) (rate_counter b)
       (rate_window_start b) (running b) (filters b) (executor b)).

(** The loop of [unsubscribe] over one registry: the first inner dictionary
    that holds the id loses it. *)
Fixpoint registry_remove (subscription_id : string)
  (registry : list (EventType * list (string * Callback)))
  : option (list (EventType * list (string * Callback))) :=
  match registry with
  | [] => None
  | (et, d) :: rest =>
      if Dict.mem String.eqb subscription_id d
      then Some ((et, Dict.del String.eqb subscription_id d) :: rest)
      else
        match registry_remove subscription_id rest with
        | Some rest' => Some ((et, d) :: rest')
        | None => None
        end
  end.

(** [unsubscribe] *)
Definition unsubscribe (subscription_id : string) (b : State) : bool * State :=
  match registry_remove subscription_id (subscribers b) with
  | Some subs =>
      (true,
       mkBus subs (async_subscribers b) (event_history b) (max_history b)
         (rate_limit b) (rate_counter b) (rate_window_start b) (running b)
         (filters b) (executor b))
  | None =>
      match registry_remove subscription_id (async_subscribers b) with
      | Some asubs =>
          (true,
           mkBus (subscribers b) asubs (event_history b) (max_history b)
             (rate_limit b) (rate_counter b) (rate_window_start b) (running b)
             (filters b) (executor b))
      | None => (false, b)
      end
  end.

(** [add_filter] *)
Definition add_filter (filter_id : string) (f : Filter) (b : State) : State :=
  mkBus (subscribers b) (async_subscribers b) (event_history b) (max_history b)
    (rate_limit b) (rate_counter b) (rate_window_start b) (running b)
    (Dict.set String.eqb filter_id f (filters b)) (executor b).

(** [_check_rate_limit]; [current_time] is the reading of [time.time()].
    Returns the answer with the new counter and window start. *)
Definition check_rate_limit (current_time : R) (b : State) : bool * (Z * R) :=
  let '(counter, window_start) :=
    if Py.leb 1 (current_time - rate_window_start b)
    then (0%Z, current_time)
    else (rate_counter b, rate_window_start b) in
  if (rate_limit b <=? counter)%Z then (false, (counter, window_start))
  else (true, ((counter + 1)%Z, window_start)).

(** [_apply_filters]: a filter that raises is logged and skipped. *)
Fixpoint apply_filters (fs : list Filter) (ev : EventData) : bool :=
  match fs with
  | [] => true
  | f :: fs' =>
      match f ev with
      | Some false => false
      | Some true => apply_filters fs' ev
      | None => apply_filters fs' ev
      end
  end.

(** The work items [_notify_subscribers] submits for an event: one per
    synchronous subscriber of its type, then one per asynchronous one. *)
Definition tasks_for (ev : EventData) (b : State) : list Task :=
  let sync_subscribers :=
    match Dict.get EventType_eqb (event_type ev) (subscribers b) with
    | Some d => d
    | None => []
    end in
  let async_subscribers :=
    match Dict.get EventType_eqb (event_type ev) (async_subscribers b) with
    | Some d => d
    | None => []
    end in
  map (fun cb => SafeCallback cb ev) (Dict.values sync_subscribers)
  ++ map (fun cb => SafeAsyncCallback cb ev) (Dict.values async_subscribers).

(** [_notify_subscribers] *)
Definition notify_subscribers (ev : EventData) (b : State) : State :=
  mkBus (subscribers b) (async_subscribers b) (event_history b) (max_history b)
    (rate_limit b) (rate_counter b) (rate_window_start b) (running b)
    (filters b) (executor b ++ tasks_for ev b).

(** [publish]; [now] is the clock reading taken by the rate check. *)
Definition publish (ev : EventData) (now : R) (b : State) : State :=
  if negb (running b) then b
  else
    let '(ok, (counter, window_start)) := check_rate_limit now b in
    let b1 :=
      mkBus (subscribers b) (async_subscribers b) (event_history b) (max_history b)
        (rate_limit b) counter window_start (running b) (filters b) (executor b) in
    if negb ok then b1
    else if negb (apply_filters (Dict.values (filters b1)) ev) then b1
    else
      let b2 :=
        mkBus (subscribers b1) (async_subscribers b1)
          (Py.deque_append (max_history b1) (event_history b1) ev)
          (max_history b1) (rate_limit b1) (rate_counter b1)
          (rate_window_start b1) (running b1) (filters b1) (executor b1) in
      notify_subscribers ev b2.

(** A sequence of [publish] calls, each with its clock reading. *)
Definition publish_all (calls : list (EventData * R)) (b : State) : State :=
  fold_left (fun b c => publish (fst c) (snd c) b) calls b.

(** [_safe_callback] and [_safe_async_callback] as run by a pool worker:
    the callback is called once; an exception it raises is caught and
    logged.  The result is the world after the call and the number of
    errors logged. *)
Definition run_task (t : Task) (w : W) : W * nat :=
  match t with
  | SafeCallback cb ev | SafeAsyncCallback cb ev =>
      match call cb ev w with
      | (Returned, w') => (w', 0%nat)
      | (Raised, w') => (w', 1%nat)
      end
  end.

(** The pool working through a list of items, one at a time. *)
Fixpoint run_tasks (ts : list Task) (w : W) : W * nat :=
  match ts with
  | [] => (w, 0%nat)
  | t :: ts' =>
      let '(w1, e1) := run_task t w in
      let '(w2, e2) := run_tasks ts' w1 in
      (w2, (e1 + e2)%nat)
  end.

(** The calls a list of work items makes: each item's callback on its
    event, whatever the outcome of the items before it. *)
Definition invoke (t : Task) (w : W) : W :=
  match t with
  | SafeCallback cb ev | SafeAsyncCallback cb ev => snd (call cb ev w)
  end.

(** The pool drained: every queued item is run (in the order [order], a
    rearrangement of the queue) and the queue is left empty. *)
Definition drain (order : list Task) (b : State) (w : W) : State * W :=
  (mkBus (subscribers b) (async_subscribers b) (event_history b) (max_history b)
     (rate_limit b) (rate_counter b) (rate_window_start b) (running b)
     (filters b) [],
   fst (run_tasks order w)).

(** *** What a recording subscriber sees

    [view w] is the list of events a recording subscriber has stored in the
    world [w].  A callback records when it returns after adding the event
    at the end of that list; it keeps clear of the record when it leaves
    the list as it was, whether it returns or raises. *)
Variable view : W -> list EventData.

Definition records (cb : Callback) : Prop :=
  forall ev w, fst (call cb ev w) = Returned /\ view (snd (call cb ev w)) = view w ++ [ev].

Definition keeps_clear (cb : Callback) : Prop :=
  forall ev w, view (snd (call cb ev w)) = view w.

Definition task_callback (t : Task) : Callback :=
  match t with SafeCallback cb _ | SafeAsyncCallback cb _ => cb end.

Definition task_event (t : Task) : EventData :=
  match t with SafeCallback _ ev | SafeAsyncCallback _ ev => ev end.

(** [Deliveries ts evs]: among the work items [ts], those of the recording
    subscriber carry the events [evs], in this order; the others keep clear
    of the record. *)
Inductive Deliveries : list Task -> list EventData -> Prop :=
| Deliveries_nil : Deliveries [] []
| Deliveries_other t ts evs :
    keeps_clear (task_callback t) -> Deliveries ts evs -> Deliveries (t :: ts) evs
| Deliveries_record t ts evs :
    records (task_callback t) -> Deliveries ts evs ->
    Deliveries (t :: ts) (task_event t :: evs).

End WithWorld.

Arguments records {W} _ _.
Arguments keeps_clear {W} _ _.
Arguments task_callback {W} _.
Arguments task_event {W} _.
Arguments Deliveries {W} _ _ _.
Arguments mkCallback {W} _ _.
Arguments is_coroutine {W} _.
Arguments call {W} _ _ _.
Arguments SafeCallback {W} _ _.
Arguments SafeAsyncCallback {W} _ _.
Arguments mkBus {W} _ _ _ _ _ _ _ _ _ _.
Arguments subscribers {W} _.
Arguments async_subscribers {W} _.
Arguments event_history {W} _.
Arguments max_history {W} _.
Arguments rate_limit {W} _.
Arguments rate_counter {W} _.
Arguments rate_window_start {W} _.
Arguments running {W} _.
Arguments filters {W} _.
Arguments executor {W} _.
Arguments init {W} _ _ _.
Arguments subscribe {W} _ _ _ _.
Arguments unsubscribe {W} _ _.
Arguments add_filter {W} _ _ _.
Arguments check_rate_limit {W} _ _.
Arguments tasks_for {W} _ _.
Arguments notify_subscribers {W} _ _.
Arguments publish {W} _ _ _.
Arguments publish_all {W} _ _.
Arguments run_task {W} _ _.
Arguments run_tasks {W} _ _.
Arguments invoke {W} _ _.
Arguments drain {W} _ _ _.

End Bus.

(** ** [visualization/decision/decision_tracker.py] *)

Module Tracker.

(** [str(n)] for a Python int. *)
Definition str_nat (n : nat) : string := NilEmpty.string_of_uint (Nat.to_uint n).
Definition str_int (z : Z) : string := NilZero.string_of_int (Z.to_int z).

(** The strings [str] gives for a natural number: decimal digits only. *)
Definition is_digit (c : ascii) : Prop :=
  In c ["0"; "1"; "2"; "3"; "4"; "5"; "6"; "7"; "8"; "9"]%char.

Fixpoint all_digits (s : string) : Prop :=
  match s with
  | EmptyString => True
  | String c s' => is_digit c /\ all_digits s'
  end.

(** [DecisionRecord].  The derived fields [explanation],
    [predicted_outcomes] and [attention_weights], which the tracker never
    fills, are left out. *)
Record DecisionRecord : Type := mkDecision {
  timestamp : R;
  decision_id : string;
  observation : list R;
  action : list R;
  policy_logits : list R;
  value_estimate : R;
  confidence_scores : list (string * R);
  episode_id : option string;
  step_number : option Z;
  reward : option R
}.

(** The [policy_output] dictionary: each key may be missing. *)
Record PolicyOutput : Type := mkPolicyOutput {
  action_logits : option (list R);
  vf_preds : option (list R);
  po_confidence_scores : option (list (string * R))
}.

(** The [context] dictionary. *)
Record Context : Type := mkContext {
  ctx_episode_id : option string;
  ctx_step_number : option Z;
  ctx_reward : option R
}.

(** The fields of [DecisionTracker]: the capacity, the rolling buffer
    ([deque(maxlen=max_decisions)]) and the counter. *)
Record State : Type := mkTracker {
  max_decisions : nat;
  decisions : list DecisionRecord;
  decision_count : nat
}.

(** [DecisionTracker(max_decisions)] *)
Definition init (max_decisions : nat) : State := mkTracker max_decisions [] 0.

(** [f"decision_{count}_{int(t * 1000)}"] *)
Definition make_id (count : nat) (t : R) : string :=
  ("decision_" ++ str_nat count ++ "_" ++ str_int (Py.int (t * 1000)))%string.

(** The arguments of one [log_decision] call, with the two clock readings
    it takes (for the id, then for the timestamp). *)
Record Call : Type := mkCall {
  c_observation : list R;
  c_action : list R;
  c_policy_output : PolicyOutput;
  c_context : option Context;
  c_time_id : R;
  c_time_stamp : R
}.

(** [log_decision].  The counter is bumped first; indexing an empty
    [vf_preds] array raises [IndexError] ([None]) and leaves the buffer as
    it was. *)
Definition log_decision (c : Call) (tr : State) : option string * State :=
  let count := S (decision_count tr) in
  let decision_id := make_id count (c_time_id c) in
  let policy_logits :=
    match action_logits (c_policy_output c) with Some l => l | None => [] end in
  let vf :=
    match vf_preds (c_policy_output c) with Some l => l | None => [0] end in
  match vf with
  | [] => (None, mkTracker (max_decisions tr) (decisions tr) count)
  | value_estimate :: _ =>
      let confidence_scores :=
        match po_confidence_scores (c_policy_output c) with
        | Some d => d
        | None => []
        end in
      let episode_id :=
        match c_context c with Some ctx => ctx_episode_id ctx | None => None end in
      let step_number :=
        match c_context c with Some ctx => ctx_step_number ctx | None => None end in
      let reward :=
        match c_context c with Some ctx => ctx_reward ctx | None => None end in
      let decision_record :=
        mkDecision (c_time_stamp c) decision_id (c_observation c) (c_action c)
          policy_logits value_estimate confidence_scores
          episode_id step_number reward in
      (Some decision_id,
       mkTracker (max_decisions tr)
         (Py.deque_append (max_decisions tr) (decisions tr) decision_record)
         count)
  end.

(** A sequence of [log_decision] calls, with what each returned. *)
Fixpoint log_all (calls : list Call) (tr : State) : list (option string) * State :=
  match calls with
  | [] => ([], tr)
  | c :: rest =>
      let '(r, tr1) := log_decision c tr in
      let '(rs, tr2) := log_all rest tr1 in
      (r :: rs, tr2)
  end.

(** [get_decision_history(limit)]: most recent first. *)
Definition get_decision_history (limit : option nat) (tr : State) : list DecisionRecord :=
  let decisions := rev (decisions tr) in
  match limit with
  | Some n => firstn n decisions
  | None => decisions
  end.

(** [get_decision_by_id] *)
Definition get_decision_by_id (id : string) (tr : State) : option DecisionRecord :=
  find (fun d => String.eqb (decision_id d) id) (decisions tr).

(** [get_recent_decisions(seconds)], with the clock reading [now]. *)
Definition get_recent_decisions (seconds now : R) (tr : State) : list DecisionRecord :=
  let cutoff_time := now - seconds in
  rev (filter (fun d => Py.leb cutoff_time (timestamp d)) (decisions tr)).

(** The builtin [min] and [max] of a non-empty list. *)
Definition list_min (l : list R) : R :=
  match l with [] => 0 | x :: l' => fold_left Py.min l' x end.
Definition list_max (l : list R) : R :=
  match l with [] => 0 | x :: l' => fold_left Py.max l' x end.

(** The dictionary [get_statistics] returns; [time_range] holds start, end
    and duration. *)
Record Statistics : Type := mkStats {
  total_decisions : nat;
  buffer_size : nat;
  time_range : option (R * R * R);
  average_confidence : option R;
  confidence_std : option R
}.

(** The confidence [get_statistics] collects from one record. *)
Definition confidence_of (d : DecisionRecord) : list R :=
  match Dict.get String.eqb "action_confidence"%string (confidence_scores d) with
  | Some x => [x]
  | None =>
      match Dict.get String.eqb "max_probability"%string (confidence_scores d) with
      | Some x => [x]
      | None => []
      end
  end.

(** [get_statistics] *)
Definition get_statistics (tr : State) : Statistics :=
  match decisions tr with
  | [] => mkStats 0 0 None None None
  | _ :: _ =>
      let decisions := decisions tr in
      let timestamps := map timestamp decisions in
      let confidences := flat_map confidence_of decisions in
      mkStats (decision_count tr) (length decisions)
        (Some (list_min timestamps, list_max timestamps,
               list_max timestamps - list_min timestamps))
        (match confidences with [] => None | _ => Some (Py.mean confidences) end)
        (match confidences with [] => None | _ => Some (Py.std confidences) end)
  end.

(** [clear_history] *)
Definition clear_history (tr : State) : State := mkTracker (max_decisions tr) [] 0.

(** A call is well formed when its [vf_preds] array, if given, is not
    empty. *)
Definition well_formed (c : Call) : Prop :=
  vf_preds (c_policy_output c) <> Some [].

(** The record a well-formed call creates when the counter reaches
    [count], and the records a run of calls creates after [n] earlier
    calls. *)
Definition record_of (count : nat) (c : Call) : DecisionRecord :=
  mkDecision (c_time_stamp c) (make_id count (c_time_id c))
    (c_observation c) (c_action c)
    (match action_logits (c_policy_output c) with Some l => l | None => [] end)
    (hd 0 (match vf_preds (c_policy_output c) with Some l => l | None => [0] end))
    (match po_confidence_scores (c_policy_output c) with Some d => d | None => [] end)
    (match c_context c with Some ctx => ctx_episode_id ctx | None => None end)
    (match c_context c with Some ctx => ctx_step_number ctx | None => None end)
    (match c_context c with Some ctx => ctx_reward ctx | None => None end).

Fixpoint records_from (n : nat) (calls : list Call) : list DecisionRecord :=
  match calls with
  | [] => []
  | c :: rest => record_of (S n) c :: records_from (S n) rest
  end.

End Tracker.

(** ** [visualization/reasoning/safety_analyzer.py] *)

Module Safety.
Import Events.

Local Open Scope string_scope.

Inductive ViolationType : Type :=
| LOSS_OF_SEPARATION
| NEAR_MISS
| ALTITUDE_DEVIATION
| SECTOR_BOUNDARY_VIOLATION.

Inductive ViolationSeverity : Type :=
| LOW
| MEDIUM
| HIGH
| CRITICAL.

(** [ViolationType(s)] and [ViolationSeverity(s)]: [None] is the
    [ValueError] of an unknown value. *)
Definition ViolationType_of_string (s : string) : option ViolationType :=
  if String.eqb s "loss_of_separation" then Some LOSS_OF_SEPARATION
  else if String.eqb s "near_miss" then Some NEAR_MISS
  else if String.eqb s "altitude_deviation" then Some ALTITUDE_DEVIATION
  else if String.eqb s "sector_boundary_violation" then Some SECTOR_BOUNDARY_VIOLATION
  else None.

Definition ViolationSeverity_of_string (s : string) : option ViolationSeverity :=
  if String.eqb s "low" then Some LOW
  else if String.eqb s "medium" then Some MEDIUM
  else if String.eqb s "high" then Some HIGH
  else if String.eqb s "critical" then Some CRITICAL
  else None.

(** The dictionary [_analyze_environmental_factors] builds. *)
Record Factors : Type := mkFactors {
  aircraft_count : nat;
  separation_criticality : option R;
  vertical_separation_insufficient : option bool;
  altitude_separation_ratio : option R
}.

(** [SafetyViolation] *)
Record SafetyViolation : Type := mkViolation {
  violation_id : string;
  timestamp : R;
  violation_type : ViolationType;
  severity : ViolationSeverity;
  aircraft_involved : list string;
  separation_distance : R;
  minimum_separation : Value;
  altitude_separation : R;
  time_to_violation : R;
  preventability_score : R;
  controller_response_time : R;
  episode_id : option string;
  step_number : option Z;
  contributing_decisions : option (list string);
  root_causes : option (list string);
  environmental_factors : option Factors
}.

(** The fields of [SafetyAnalyzer] that change, and its window.  The
    decision tracker it reads is passed to the operations that use it. *)
Record State : Type := mkAnalyzer {
  analysis_window_hours : R;
  violations : list SafetyViolation;
  violation_count : nat
}.

Definition minimum_separation_nm : R := 5.
Definition near_miss_threshold_nm : R := 3.
Definition critical_separation_nm : R := 1.
Definition vertical_separation_ft : R := 1000.
Definition lookback_seconds : R := 300.

(** [SafetyAnalyzer(analysis_window_hours=...)] *)
Definition init (analysis_window_hours : R) : State :=
  mkAnalyzer analysis_window_hours [] 0.

(** *** Root causes *)

(** [list.sort(key=lambda d: d.timestamp)]: a stable sort. *)
Fixpoint insert_by_time (d : Tracker.DecisionRecord) (l : list Tracker.DecisionRecord)
  : list Tracker.DecisionRecord :=
  match l with
  | [] => [d]
  | x :: l' =>
      if Py.ltb (Tracker.timestamp d) (Tracker.timestamp x) then d :: l
      else x :: insert_by_time d l'
  end.

Definition sort_by_time (l : list Tracker.DecisionRecord) : list Tracker.DecisionRecord :=
  fold_left (fun acc d => insert_by_time d acc) l [].

(** [_get_relevant_decisions] *)
Definition get_relevant_decisions (v : SafetyViolation) (tracker : Tracker.State)
  : list Tracker.DecisionRecord :=
  let lookback_start := timestamp v - lookback_seconds in
  let all_decisions := Tracker.get_decision_history None tracker in
  let relevant_decisions :=
    filter (fun d => Py.leb lookback_start (Tracker.timestamp d)
                     && Py.leb (Tracker.timestamp d) (timestamp v))
      all_decisions in
  sort_by_time relevant_decisions.

(** [a - b] on two one-dimensional numpy arrays: elementwise, a
    one-element array being stretched; [None] is the [ValueError] of
    shapes that do not broadcast. *)
Definition array_sub (a b : list R) : option (list R) :=
  if (length a =? length b)%nat then Some (map (fun p => fst p - snd p) (combine a b))
  else
    match a, b with
    | [x], _ => Some (map (fun y => x - y) b)
    | _, [y] => Some (map (fun x => x - y) a)
    | _, _ => None
    end.

(** [[np.linalg.norm(actions[i] - actions[i-1]) for i in range(1, len(actions))]] *)
Fixpoint action_changes (prev : list R) (actions : list (list R)) : option (list R) :=
  match actions with
  | [] => Some []
  | a :: rest =>
      match array_sub a prev with
      | None => None
      | Some diff =>
          match action_changes a rest with
          | None => None
          | Some changes => Some (Py.norm diff :: changes)
          end
      end
  end.

(** The first heuristic, on the last ten decisions: [Some true] when the
    erratic-control finding is made, [None] when the arrays do not
    subtract. *)
Definition erratic_control (recent_decisions : list Tracker.DecisionRecord) : option bool :=
  if (3 <? length recent_decisions)%nat then
    match map Tracker.action recent_decisions with
    | [] => Some false
    | a0 :: rest =>
        match action_changes a0 rest with
        | None => None
        | Some [] => Some false
        | Some changes =>
            let avg_change := Py.mean changes in
            let std_change := Py.std changes in
            Some (Py.ltb (avg_change * 0.8) std_change)
        end
    end
  else Some false.

(** The second heuristic. *)
Definition low_confidence (recent_decisions : list Tracker.DecisionRecord) : bool :=
  let low_confidence_count :=
    length
      (filter
         (fun d =>
            match Dict.get String.eqb "action_confidence" (Tracker.confidence_scores d) with
            | Some c => Py.ltb c 0.5
            | None => false
            end)
         recent_decisions) in
  Py.ltb (INR (length recent_decisions) * 0.5) (INR low_confidence_count).

(** The third heuristic, on all the decisions of the window. *)
Definition delayed_response (decisions : list Tracker.DecisionRecord) : bool :=
  let warning_decisions :=
    filter
      (fun d =>
         match Tracker.reward d with
         | Some r => Py.ltb r (-0.5)
         | None => false
         end)
      decisions in
  match warning_decisions with
  | [] => false
  | _ => (2 <? length warning_decisions)%nat
  end.

(** The fourth heuristic. *)
Definition conflicting_objectives (recent_decisions : list Tracker.DecisionRecord) : bool :=
  if (1 <? length recent_decisions)%nat then
    let value_estimates := map Tracker.value_estimate recent_decisions in
    if (1 <? length value_estimates)%nat then Py.ltb 1 (Py.var value_estimates)
    else false
  else false.

(** [_identify_root_causes]; [None] when the subtraction of two action
    arrays raises. *)
Definition identify_root_causes (v : SafetyViolation)
  (decisions : list Tracker.DecisionRecord) : option (list string) :=
  match decisions with
  | [] => Some ["Insufficient decision history for analysis"]
  | _ :: _ =>
      let recent_decisions := Py.last_n 10 decisions in
      match erratic_control recent_decisions with
      | None => None
      | Some erratic =>
          let root_causes := [] in
          let root_causes :=
            if erratic
            then (root_causes ++ ["Erratic control behavior - high action variability"])%list
            else root_causes in
          let root_causes :=
            if low_confidence recent_decisions
            then (root_causes ++ ["Multiple low-confidence decisions preceding violation"])%list
            else root_causes in
          let root_causes :=
            if delayed_response decisions
            then (root_causes ++ ["Delayed response to safety warnings"])%list
            else root_causes in
          let root_causes :=
            if conflicting_objectives recent_decisions
            then (root_causes ++ ["Conflicting objective priorities"])%list
            else root_causes in
          match root_causes with
          | [] => Some ["Complex multi-factor scenario requiring further analysis"]
          | _ :: _ => Some root_causes
          end
      end
  end.

(** *** The other annotations of [analyze_violation] *)

(** [_calculate_preventability] *)
Definition calculate_preventability (v : SafetyViolation)
  (decisions : list Tracker.DecisionRecord) : R :=
  match decisions with
  | [] => 0
  | _ :: _ =>
      let f1 :=
        if Py.ltb 0 (time_to_violation v)
        then [Py.min (time_to_violation v / 60) 1]
        else [] in
      let recent_decisions := Py.last_n 5 decisions in
      let confidences :=
        flat_map
          (fun d =>
             match Dict.get String.eqb "action_confidence" (Tracker.confidence_scores d) with
             | Some c => [c]
             | None => []
             end)
          recent_decisions in
      let f2 := match confidences with [] => [] | _ => [Py.mean confidences] end in
      let f3 :=
        if (3 <? length decisions)%nat then
          let actions := map Tracker.action (Py.last_n 5 decisions) in
          [1 - Py.min (Py.std (map Py.norm actions) / 2) 1]
        else [] in
      let warnings :=
        filter
          (fun d =>
             match Tracker.reward d with
             | Some r => Py.ltb r (-0.3)
             | None => false
             end)
          decisions in
      let total_warnings := length warnings in
      let warning_responses :=
        length (filter (fun d => Py.ltb 0.1 (Py.norm (Tracker.action d))) warnings) in
      let f4 :=
        if (0 <? total_warnings)%nat
        then [INR warning_responses / INR total_warnings]
        else [] in
      let preventability_factors := (f1 ++ f2 ++ f3 ++ f4)%list in
      match preventability_factors with
      | [] => 0.5
      | _ => Py.mean preventability_factors
      end
  end.

(** The loop of [_analyze_controller_response]: the first warning time seen
    so far, and the response time once found. *)
Fixpoint response_loop (decisions : list Tracker.DecisionRecord)
  (first_warning_time : option R) : option R * option R :=
  match decisions with
  | [] => (first_warning_time, None)
  | d :: rest =>
      let warned :=
        match Tracker.reward d with
        | Some r => Py.ltb r (-0.5)
        | None => false
        end in
      if warned then
        let first_warning_time :=
          match first_warning_time with
          | None => Some (Tracker.timestamp d)
          | Some t => Some t
          end in
        if Py.ltb 0.2 (Py.norm (Tracker.action d))
        then (first_warning_time, Some (Tracker.timestamp d))
        else response_loop rest first_warning_time
      else response_loop rest first_warning_time
  end.

(** [_analyze_controller_response] *)
Definition analyze_controller_response (v : SafetyViolation)
  (decisions : list Tracker.DecisionRecord) : R :=
  match decisions with
  | [] => 0
  | _ :: _ =>
      match response_loop decisions None with
      | (Some first_warning_time, Some first_response_time) =>
          first_response_time - first_warning_time
      | _ => 0
      end
  end.

(** [_analyze_environmental_factors] *)
Definition analyze_environmental_factors (v : SafetyViolation) : Factors :=
  let criticality :=
    if Py.ltb 0 (separation_distance v)
    then Some (Py.max 0 (1 - separation_distance v / minimum_separation_nm))
    else None in
  if Py.ltb (altitude_separation v) vertical_separation_ft
  then mkFactors (length (aircraft_involved v)) criticality (Some true)
         (Some (altitude_separation v / vertical_separation_ft))
  else mkFactors (length (aircraft_involved v)) criticality None None.

(** [analyze_violation]; [None] when the root-cause analysis raises. *)
Definition analyze_violation (v : SafetyViolation) (tracker : Tracker.State)
  : option SafetyViolation :=
  let relevant_decisions := get_relevant_decisions v tracker in
  match identify_root_causes v relevant_decisions with
  | None => None
  | Some causes =>
      let preventability := calculate_preventability v relevant_decisions in
      let response_time := analyze_controller_response v relevant_decisions in
      Some (mkViolation (violation_id v) (timestamp v) (violation_type v) (severity v)
              (aircraft_involved v) (separation_distance v) (minimum_separation v)
              (altitude_separation v) (time_to_violation v)
              preventability response_time
              (episode_id v) (step_number v)
              (Some (map Tracker.decision_id relevant_decisions))
              (Some causes)
              (Some (analyze_environmental_factors v)))
  end.

(** *** The event handler *)

(** [data.get(key, default)] read as a number, a string or a list of
    strings.  A value of another type is [None]: the handler's later use of
    it raises, or stores a value outside this model. *)
Definition get_number (key : string) (default : R) (ev : EventData) : option R :=
  match data_get key ev with
  | None => Some default
  | Some (VFloat x) => Some x
  | Some (VInt n) => Some (IZR n)
  | Some (VBool b) => Some (if b then 1 else 0)
  | Some _ => None
  end.

Definition get_string (key : string) (default : string) (ev : EventData) : option string :=
  match data_get key ev with
  | None => Some default
  | Some (VStr s) => Some s
  | Some _ => None
  end.

Definition get_strings (key : string) (ev : EventData) : option (list string) :=
  match data_get key ev with
  | None => Some []
  | Some (VStrs l) => Some l
  | Some _ => None
  end.

(** [f"violation_{count}_{int(timestamp * 1000)}"] *)
Definition make_violation_id (count : nat) (t : R) : string :=
  "violation_" ++ Tracker.str_nat count ++ "_" ++ Tracker.str_int (Py.int (t * 1000)).

(** The [SafetyViolation] the handler builds from an event; [None] when a
    constructor argument raises. *)
Definition violation_of_event (ev : EventData) (an : State) : option SafetyViolation :=
  match get_string "violation_type" "loss_of_separation" ev with
  | None => None
  | Some ty_s =>
  match ViolationType_of_string ty_s with
  | None => None
  | Some ty =>
  match get_string "severity" "medium" ev with
  | None => None
  | Some sev_s =>
  match ViolationSeverity_of_string sev_s with
  | None => None
  | Some sev =>
  match get_strings "aircraft_involved" ev with
  | None => None
  | Some aircraft =>
  match get_number "separation_distance" 0 ev with
  | None => None
  | Some sep =>
  match get_number "altitude_separation" 0 ev with
  | None => None
  | Some alt =>
      let min_sep :=
        match data_get "minimum_separation" ev with
        | Some x => x
        | None => VFloat minimum_separation_nm
        end in
      Some (mkViolation
              (make_violation_id (violation_count an) (Events.timestamp ev))
              (Events.timestamp ev) ty sev aircraft sep min_sep alt
              0 0 0 None None (Some []) (Some []) (Some (mkFactors 0 None None None)))
  end end end end end end end.

(** [_handle_safety_violation_event]: any exception is caught and the
    analyzer is left as it was. *)
Definition handle_safety_violation_event (ev : EventData) (tracker : Tracker.State)
  (an : State) : State :=
  match violation_of_event ev an with
  | None => an
  | Some violation =>
      match analyze_violation violation tracker with
      | None => an
      | Some analyzed_violation =>
          mkAnalyzer (analysis_window_hours an)
            (Py.deque_append 1000 (violations an) analyzed_violation)
            (S (violation_count an))
      end
  end.

(** [get_violation_history(limit)]: most recent first. *)
Definition get_violation_history (limit : option nat) (an : State) : list SafetyViolation :=
  let violations := rev (violations an) in
  match limit with
  | Some n => firstn n violations
  | None => violations
  end.

(** *** The safety score *)

(** The penalty [_calculate_safety_score] adds for one violation. *)
Definition penalty (s : ViolationSeverity) : R :=
  match s with
  | CRITICAL => 20
  | HIGH => 10
  | MEDIUM => 5
  | LOW => 2
  end.

(** [_calculate_safety_score] *)
Definition calculate_safety_score (violations : list SafetyViolation)
  (duration_hours : R) : R :=
  if Py.leb duration_hours 0 then 100
  else
    let base_score := 100 in
    let violation_penalty :=
      fold_left (fun acc v => acc + penalty (severity v)) violations 0 in
    let normalized_penalty := violation_penalty / Py.max duration_hours 1 in
    Py.max 0 (base_score - normalized_penalty).

(** The [safety_score] field of [calculate_safety_metrics(start_time,
    end_time)], with the clock reading [now] used when [end_time] is
    [None]. *)
Definition metrics_safety_score (start_time end_time : option R) (now : R)
  (an : State) : R :=
  let end_time := match end_time with Some t => t | None => now end in
  let start_time :=
    match start_time with
    | Some t => t
    | None => end_time - analysis_window_hours an * 3600
    end in
  let duration_hours := (end_time - start_time) / 3600 in
  let period_violations :=
    filter (fun v => Py.leb start_time (timestamp v) && Py.leb (timestamp v) end_time)
      (violations an) in
  calculate_safety_score period_violations duration_hours.

(** The same violation with another severity. *)
Definition with_severity (s : ViolationSeverity) (v : SafetyViolation) : SafetyViolation :=
  mkViolation (violation_id v) (timestamp v) (violation_type v) s
    (aircraft_involved v) (separation_distance v) (minimum_separation v)
    (altitude_separation v) (time_to_violation v) (preventability_score v)
    (controller_response_time v) (episode_id v) (step_number v)
    (contributing_decisions v) (root_causes v) (environmental_factors v).

End Safety.

(** ** [visualization/reasoning/pattern_analyzer.py] *)

Module Pattern.

Local Open Scope string_scope.

Inductive PatternType : Type :=
| OSCILLATION
| CONVERGENCE
| DIVERGENCE
| PERIODIC
| ANOMALY
| REGRESSION
| IMPROVEMENT
| STABILITY.

Inductive PatternSeverity : Type :=
| BENIGN
| NOTABLE
| CONCERNING
| CRITICAL.

(** [BehaviorPattern] *)
Record BehaviorPattern : Type := mkPattern {
  pattern_id : string;
  timestamp : R;
  pattern_type : PatternType;
  severity : PatternSeverity;
  duration_seconds : R;
  confidence_score : R;
  statistical_significance : R;
  effect_size : R;
  affected_metrics : list string;
  episode_range : Z * Z;
  decision_count : nat;
  description : string;
  recommendations : list string;
  frequency : option R;
  amplitude : option R;
  trend_slope : option R;
  related_patterns : option (list string)
}.

(** [PerformanceMetrics] *)
Record PerformanceMetrics : Type := mkMetrics {
  start_time : R;
  end_time : R;
  episode_start : Z;
  episode_end : Z;
  mean_reward : R;
  reward_std : R;
  reward_trend : R;
  mean_confidence : R;
  confidence_std : R;
  decision_consistency : R;
  safety_violations : Z;
  mean_separation : R;
  action_magnitude_mean : R;
  action_changes_per_episode : R;
  value_estimate_accuracy : R;
  policy_entropy : R
}.

(** [getattr(metrics, metric_name)] when [hasattr(metrics, metric_name)],
    over the fields of the dataclass.  The names of the object's other
    attributes (its methods and special attributes), for which [hasattr]
    holds too and whose value is no number, are outside this model. *)
Definition metric_value (metric_name : string) (m : PerformanceMetrics) : option R :=
  if String.eqb metric_name "start_time" then Some (start_time m)
  else if String.eqb metric_name "end_time" then Some (end_time m)
  else if String.eqb metric_name "episode_start" then Some (IZR (episode_start m))
  else if String.eqb metric_name "episode_end" then Some (IZR (episode_end m))
  else if String.eqb metric_name "mean_reward" then Some (mean_reward m)
  else if String.eqb metric_name "reward_std" then Some (reward_std m)
  else if String.eqb metric_name "reward_trend" then Some (reward_trend m)
  else if String.eqb metric_name "mean_confidence" then Some (mean_confidence m)
  else if String.eqb metric_name "confidence_std" then Some (confidence_std m)
  else if String.eqb metric_name "decision_consistency" then Some (decision_consistency m)
  else if String.eqb metric_name "safety_violations" then Some (IZR (safety_violations m))
  else if String.eqb metric_name "mean_separation" then Some (mean_separation m)
  else if String.eqb metric_name "action_magnitude_mean" then Some (action_magnitude_mean m)
  else if String.eqb metric_name "action_changes_per_episode"
       then Some (action_changes_per_episode m)
  else if String.eqb metric_name "value_estimate_accuracy"
       then Some (value_estimate_accuracy m)
  else if String.eqb metric_name "policy_entropy" then Some (policy_entropy m)
  else None.

(** The fields of [PatternAnalyzer] that the analysis reads or writes:
    [_patterns] is a [deque(maxlen=500)], [_performance_history] a
    [deque(maxlen=1000)]. *)
Record State : Type := mkAnalyzer {
  analysis_window_episodes : Z;
  patterns : list BehaviorPattern;
  pattern_count : nat;
  performance_history : list PerformanceMetrics
}.

Definition oscillation_threshold : R := 0.3.
Definition anomaly_threshold : R := 2.5.
Definition trend_significance_threshold : R := 0.05.

(** [PatternAnalyzer(analysis_window_episodes=...)] *)
Definition init (analysis_window_episodes : Z) : State :=
  mkAnalyzer analysis_window_episodes [] 0 [].

(** The slice [l[-n:]] for any int [n]: the last [n] items for [n > 0],
    the whole list for [n = 0], the list without its first [-n] items for
    [n < 0]. *)
Definition slice_last {A : Type} (n : Z) (l : list A) : list A :=
  if (n =? 0)%Z then l
  else if (0 <? n)%Z then Py.last_n (Z.to_nat n) l
  else skipn (Z.to_nat (- n)) l.

(** The slice [l[:-10]]. *)
Definition all_but_last_10 {A : Type} (l : list A) : list A :=
  firstn (length l - 10) l.

(** [substring in s] *)
Definition contains (substring s : string) : bool :=
  match String.index 0 substring s with Some _ => true | None => false end.

(** [_classify_anomaly_severity] *)
Definition classify_anomaly_severity (z_score : R) : PatternSeverity :=
  if Py.ltb 4 z_score then CRITICAL
  else if Py.ltb 3 z_score then CONCERNING
  else if Py.ltb 2.5 z_score then NOTABLE
  else BENIGN.

(** [_classify_oscillation_severity] *)
Definition classify_oscillation_severity (relative_amplitude : R) : PatternSeverity :=
  if Py.ltb 0.8 relative_amplitude then CRITICAL
  else if Py.ltb 0.5 relative_amplitude then CONCERNING
  else if Py.ltb 0.3 relative_amplitude then NOTABLE
  else BENIGN.

(** [_classify_trend_severity] *)
Definition classify_trend_severity (slope_magnitude std_err : R) : PatternSeverity :=
  let effect_size := slope_magnitude / Py.max std_err 1e-6 in
  if Py.ltb 5 effect_size then CRITICAL
  else if Py.ltb 3 effect_size then CONCERNING
  else if Py.ltb 2 effect_size then NOTABLE
  else BENIGN.

(** [_generate_trend_recommendations] *)
Definition generate_trend_recommendations (metric_name : string) (slope : R)
  (pattern_type : PatternType) : list string :=
  match pattern_type with
  | IMPROVEMENT =>
      ["Positive trend in " ++ metric_name ++ " - continue current approach";
       "Monitor for potential plateauing";
       "Consider gradual hyperparameter adjustments to maintain progress"]
  | REGRESSION =>
      ["Declining " ++ metric_name ++ " - investigate potential causes";
       "Check for overfitting or catastrophic forgetting";
       "Consider reducing learning rate or adding regularization"]
  | CONVERGENCE =>
      ["Converging " ++ metric_name ++ " - good learning progress";
       "Monitor for convergence to local optima";
       "Consider curriculum learning for continued improvement"]
  | DIVERGENCE =>
      ["Diverging " ++ metric_name ++ " - potential instability";
       "Reduce learning rate or adjust network architecture";
       "Check for gradient explosion or vanishing gradients"]
  | _ => []
  end.

(** [np.diff] of an increasing array of indices. *)
Fixpoint diff (l : list nat) : list R :=
  match l with
  | a :: ((b :: _) as rest) => (INR b - INR a) :: diff rest
  | _ => []
  end.

(** What [scipy.stats.linregress] returns. *)
Record Linregress : Type := mkLinregress {
  slope : R;
  intercept : R;
  rvalue : R;
  pvalue : R;
  stderr : R
}.

Section Analysis.

(** The library functions the analysis calls: [scipy.stats.linregress],
    [scipy.stats.detrend], [scipy.signal.find_peaks(x, height=h)],
    [scipy.stats.norm.sf] and the float formatting of f-strings
    ([f"{x:.3f}"] is [format_float 3 x]). *)
Variable linregress : list R -> list R -> Linregress.
Variable detrend : list R -> list R.
Variable find_peaks : list R -> R -> list nat.
Variable norm_sf : R -> R.
Variable format_float : nat -> R -> string.

(** [f"{prefix}_{count}_{int(now * 1000)}"] *)
Definition make_id (prefix : string) (count : nat) (now : R) : string :=
  prefix ++ "_" ++ Tracker.str_nat count ++ "_" ++ Tracker.str_int (Py.int (now * 1000)).

(** [_detect_oscillation]; [count] is [self._pattern_count] and [now] the
    clock reading. *)
Definition detect_oscillation (count : nat) (now : R) (values : list R)
  (metric_name : string) : option BehaviorPattern :=
  if (length values <? 20)%nat then None
  else
    let detrended := detrend values in
    let peaks := find_peaks detrended (Py.std detrended * 0.5) in
    let troughs := find_peaks (map Ropp detrended) (Py.std detrended * 0.5) in
    if (length peaks <? 3)%nat || (length troughs <? 3)%nat then None
    else
      let peak_intervals := diff peaks in
      let trough_intervals := diff troughs in
      if (0 <? length peak_intervals)%nat && (0 <? length trough_intervals)%nat then
        let avg_period := Py.mean (peak_intervals ++ trough_intervals)%list in
        let amplitude := Py.std detrended in
        let relative_amplitude := amplitude / (Py.mean (map Rabs values) + 1e-6) in
        if Py.ltb oscillation_threshold relative_amplitude then
          Some (mkPattern
                  (make_id "oscillation" count now) now OSCILLATION
                  (classify_oscillation_severity relative_amplitude)
                  (INR (length values) * 30)
                  (Py.min (relative_amplitude * 2) 1)
                  0.05
                  relative_amplitude
                  [metric_name]
                  (0%Z, Z.of_nat (length values))
                  (length values)
                  ("Oscillatory behavior detected in " ++ metric_name
                   ++ " (amplitude: " ++ format_float 3 amplitude
                   ++ ", period: " ++ format_float 1 avg_period ++ ")")
                  ["Consider adjusting learning rate to reduce oscillations";
                   "Check for conflicting objectives in reward function";
                   "Implement experience replay buffer smoothing"]
                  (Some (if Py.ltb 0 avg_period then 1 / avg_period else 0))
                  (Some amplitude)
                  None None)
        else None
      else None.

(** [_detect_trend] *)
Definition detect_trend (count : nat) (now : R) (values : list R)
  (metric_name : string) : option BehaviorPattern :=
  if (length values <? 10)%nat then None
  else
    let lr := linregress (map INR (seq 0 (length values))) values in
    if Py.ltb trend_significance_threshold (pvalue lr) then None
    else
      let on_target := contains "reward" metric_name || contains "consistency" metric_name in
      let '(pattern_type, severity) :=
        if Py.ltb (Rabs (slope lr)) (stderr lr * 2) then (STABILITY, BENIGN)
        else if Py.ltb 0 (slope lr) then
          ((if on_target then IMPROVEMENT else CONVERGENCE),
           classify_trend_severity (Rabs (slope lr)) (stderr lr))
        else
          ((if on_target then REGRESSION else DIVERGENCE),
           classify_trend_severity (Rabs (slope lr)) (stderr lr)) in
      Some (mkPattern
              (make_id "trend" count now) now pattern_type severity
              (INR (length values) * 30)
              (Rabs (rvalue lr))
              (pvalue lr)
              (if Py.ltb 0 (stderr lr) then Rabs (slope lr) / stderr lr else 0)
              [metric_name]
              (0%Z, Z.of_nat (length values))
              (length values)
              ((if Py.ltb 0 (slope lr) then "Improving" else "Declining")
               ++ " trend in " ++ metric_name
               ++ " (slope: " ++ format_float 4 (slope lr)
               ++ ", R2: " ++ format_float 3 (rvalue lr * rvalue lr) ++ ")")
              (generate_trend_recommendations metric_name (slope lr) pattern_type)
              None None (Some (slope lr)) None).

(** [_detect_stability] *)
Definition detect_stability (count : nat) (now : R) (values : list R)
  (metric_name : string) : option BehaviorPattern :=
  if (length values <? 20)%nat then None
  else
    let mean_val := Py.mean values in
    let std_val := Py.std values in
    if Py.eqb mean_val 0 then None
    else
      let coefficient_of_variation := std_val / Rabs mean_val in
      if Py.ltb coefficient_of_variation 0.1 then
        Some (mkPattern
                (make_id "stability" count now) now STABILITY BENIGN
                (INR (length values) * 30)
                (1 - coefficient_of_variation)
                0.01
                coefficient_of_variation
                [metric_name]
                (0%Z, Z.of_nat (length values))
                (length values)
                ("Stable " ++ metric_name ++ " performance (CV: "
                 ++ format_float 3 coefficient_of_variation ++ ")")
                ["Stable " ++ metric_name ++ " indicates good convergence";
                 "Consider increasing exploration to find better solutions";
                 "Monitor for potential local optima"]
                None None None None)
      else None.

(** A detector's result, as the list the caller appends. *)
Definition found (p : option BehaviorPattern) : list BehaviorPattern :=
  match p with Some x => [x] | None => [] end.

(** [_analyze_reward_patterns] *)
Definition analyze_reward_patterns (count : nat) (now : R)
  (metrics : list PerformanceMetrics) : list BehaviorPattern :=
  let rewards := map mean_reward metrics in
  if (length rewards <? 10)%nat then []
  else
    (found (detect_oscillation count now rewards "reward")
     ++ found (detect_trend count now rewards "reward")
     ++ found (detect_stability count now rewards "reward"))%list.

(** [_analyze_decision_patterns] *)
Definition analyze_decision_patterns (count : nat) (now : R)
  (metrics : list PerformanceMetrics) : list BehaviorPattern :=
  let confidence_values := map mean_confidence metrics in
  let consistency_values := map decision_consistency metrics in
  ((if (10 <=? length confidence_values)%nat
    then found (detect_trend count now confidence_values "confidence") else [])
   ++ (if (10 <=? length consistency_values)%nat
       then found (detect_trend count now consistency_values "consistency") else []))%list.

(** [_analyze_safety_patterns] *)
Definition analyze_safety_patterns (count : nat) (now : R)
  (metrics : list PerformanceMetrics) : list BehaviorPattern :=
  let violations := map safety_violations metrics in
  let separations := map mean_separation metrics in
  ((if existsb (fun v => (0 <? v)%Z) violations
    then found (detect_trend count now (map IZR violations) "safety_violations") else [])
   ++ (if (10 <=? length separations)%nat
       then found (detect_trend count now separations "separation") else []))%list.

(** [_analyze_learning_patterns] *)
Definition analyze_learning_patterns (count : nat) (now : R)
  (metrics : list PerformanceMetrics) : list BehaviorPattern :=
  let entropy_values := map policy_entropy metrics in
  let accuracy_values := map value_estimate_accuracy metrics in
  ((if (10 <=? length entropy_values)%nat
    then found (detect_trend count now entropy_values "policy_entropy") else [])
   ++ (if (10 <=? length accuracy_values)%nat
       then found (detect_trend count now accuracy_values "value_accuracy") else []))%list.

(** The storing loop of [analyze_recent_performance]. *)
Definition store (an : State) (p : BehaviorPattern) : State :=
  mkAnalyzer (analysis_window_episodes an)
    (Py.deque_append 500 (patterns an) p)
    (S (pattern_count an))
    (performance_history an).

(** [analyze_recent_performance(episodes)]; the clock readings of one call
    are taken as the one instant [now]. *)
Definition analyze_recent_performance (episodes : option Z) (now : R) (an : State)
  : list BehaviorPattern * State :=
  let episodes :=
    match episodes with Some e => e | None => analysis_window_episodes an end in
  let recent_metrics := slice_last episodes (performance_history an) in
  if (length recent_metrics <? 10)%nat then ([], an)
  else
    let count := pattern_count an in
    let detected_patterns :=
      (analyze_reward_patterns count now recent_metrics
       ++ analyze_decision_patterns count now recent_metrics
       ++ analyze_safety_patterns count now recent_metrics
       ++ analyze_learning_patterns count now recent_metrics)%list in
    (detected_patterns, fold_left store detected_patterns an).

(** The loop of [detect_anomalies] over [enumerate(z_scores)]: the
    anomalies found and the counter. *)
Fixpoint anomaly_loop (metric_name : string) (n_recent : nat) (now : R)
  (i : nat) (z_scores recent_values : list R) (count : nat)
  : list BehaviorPattern * nat :=
  match z_scores, recent_values with
  | z_score :: zs, value :: vs =>
      if Py.ltb anomaly_threshold z_score then
        let anomaly_pattern :=
          mkPattern
            (make_id "anomaly" count now) now ANOMALY
            (classify_anomaly_severity z_score)
            0
            (Py.min (z_score / 5) 1)
            (norm_sf z_score * 2)
            z_score
            [metric_name]
            ((Z.of_nat n_recent - 10 + Z.of_nat i)%Z,
             (Z.of_nat n_recent - 10 + Z.of_nat i)%Z)
            1
            ("Anomalous " ++ metric_name ++ " value: " ++ format_float 3 value
             ++ " (z-score: " ++ format_float 2 z_score ++ ")")
            ["Investigate cause of anomalous " ++ metric_name ++ " value";
             "Check for environmental changes or training instabilities";
             "Consider adjusting learning rate or other hyperparameters"]
            None None None None in
        let '(rest, count') :=
          anomaly_loop metric_name n_recent now (S i) zs vs (S count) in
        (anomaly_pattern :: rest, count')
      else anomaly_loop metric_name n_recent now (S i) zs vs count
  | _, _ => ([], count)
  end.

(** [detect_anomalies(metric_name, lookback_episodes)] *)
Definition detect_anomalies (metric_name : string) (lookback_episodes : Z) (now : R)
  (an : State) : list BehaviorPattern * State :=
  let recent_metrics := slice_last lookback_episodes (performance_history an) in
  if (length recent_metrics <? 20)%nat then ([], an)
  else
    let values :=
      flat_map
        (fun m => match metric_value metric_name m with Some x => [x] | None => [] end)
        recent_metrics in
    match values with
    | [] => ([], an)
    | _ :: _ =>
        let baseline_mean := Py.mean (all_but_last_10 values) in
        let baseline_std := Py.std (all_but_last_10 values) in
        if Py.eqb baseline_std 0 then ([], an)
        else
          let recent_values := Py.last_n 10 values in
          let z_scores :=
            map (fun x => Rabs ((x - baseline_mean) / baseline_std)) recent_values in
          let '(anomalies, count) :=
            anomaly_loop metric_name (length recent_metrics) now 0
              z_scores recent_values (pattern_count an) in
          (anomalies,
           mkAnalyzer (analysis_window_episodes an) (patterns an) count
             (performance_history an))
    end.

End Analysis.

End Pattern.

(** ** More of [st_env]: angles, bearings, the pair predicates, reset *)

Module Geometry.

(** Python's [x % m] on floats, for a positive [m]: the remainder of the
    floor division. *)
Definition fmod (x m : R) : R := x - m * IZR (Int_part (x / m)).

(** [normalize_angle] *)
Definition normalize_angle (a : R) : R := fmod (a + PI) (2 * PI) - PI.

Section Bearing.

(** [np.arctan2] is taken as a parameter. *)
Variable arctan2 : R -> R -> R.

(** [compute_bearing_range] *)
Definition compute_bearing_range (from_x from_y to_x to_y : R) : R * R :=
  let dx := to_x - from_x in
  let dy := to_y - from_y in
  let bearing := arctan2 dy dx in
  let range_nm := Py.hypot dx dy in
  (bearing, range_nm).

End Bearing.

(** The live pairs of a state list, the horizontal distance of a pair and
    the number of live aircraft. *)
Definition both_alive (p : AcState * AcState) : bool :=
  get_alive (fst p) && get_alive (snd p).

Definition pair_distance (p : AcState * AcState) : R :=
  Py.hypot (x_nm (fst p) - x_nm (snd p)) (y_nm (fst p) - y_nm (snd p)).

Definition live_distances (states : list AcState) : list R :=
  map pair_distance (filter both_alive (Utils.unordered_pairs states)).

Definition count_live (states : list AcState) : nat :=
  length (filter get_alive states).

End Geometry.

Module RewardPredicates.

(** [_sep_violation] *)
Definition sep_violation (a b : AcState) : bool :=
  let d_nm := Py.hypot (x_nm a - x_nm b) (y_nm a - y_nm b) in
  let d_ft := Rabs (alt_ft a - alt_ft b) in
  Py.ltb d_nm Reward.SEP_NM && Py.ltb d_ft Reward.SEP_FT.

(** [_near] *)
Definition near (a b : AcState) : bool :=
  let d_nm := Py.hypot (x_nm a - x_nm b) (y_nm a - y_nm b) in
  let d_ft := Rabs (alt_ft a - alt_ft b) in
  Py.ltb d_nm Reward.NEAR_NM && Py.ltb d_ft Reward.NEAR_FT.

(** The aircraft pairs the reward loop scores: alive now, and those that
    left at their goal. *)
Definition still_alive (p : AcState * AcState) : bool := get_alive (snd p).

Definition exited_at_goal (p : AcState * AcState) : bool :=
  negb (get_alive (snd p)) && get_alive (fst p)
  && Py.ltb (Py.hypot (goal_x_nm (snd p) - x_nm (snd p))
               (goal_y_nm (snd p) - y_nm (snd p))) 5.

(** The range closed towards the goal by one aircraft between two steps. *)
Definition range_gain (p : AcState * AcState) : R :=
  Py.hypot (goal_x_nm (snd p) - x_nm (fst p)) (goal_y_nm (snd p) - y_nm (fst p))
  - Py.hypot (goal_x_nm (snd p) - x_nm (snd p)) (goal_y_nm (snd p) - y_nm (snd p)).

End RewardPredicates.

Module EnvReset.
Import Env.

Section Reset.

Context {SimState Feats : Type}.
Variable sim_reset : SimState -> list AcState * SimState.
Variable encode_feats : list AcState -> Feats.

(** The [info] dictionary of [reset]. *)
Record ResetInfo : Type := mkResetInfo {
  reset_alive : list R;
  reset_num_alive : Z
}.

(** [SyntheticTowerEnv.reset].  The observation is encoded before the step
    counter is cleared; [None] is the [ZeroDivisionError] of a zero
    horizon. *)
Definition reset (env : EnvState SimState)
  : option (Obs Feats * ResetInfo * EnvState SimState) :=
  let '(states, sim') := sim_reset (sim env) in
  match encode_obs encode_feats (step_count env) (horizon env) states with
  | None => None
  | Some (obs, alive) =>
      Some (obs, mkResetInfo alive (Py.int (Py.sum alive)),
            mkEnv sim' (horizon env) alive (Some states) 0)
  end.

End Reset.

End EnvReset.

(** ** More of the event bus: counts, filters, history queries, shutdown *)

Module BusOps.
Import Events Bus.

(** The scheduling of a thread pool.  [arrange picks queue] is the order in
    which the workers take the items of [queue]: going through the queue
    from its end, each item is put at the place its pick names among the
    items after it.  Every list of picks gives a rearrangement of the
    queue, and every rearrangement comes from some picks; picks of [0]
    keep the queue's order. *)
Definition insert_at {A : Type} (n : nat) (x : A) (l : list A) : list A :=
  (firstn n l ++ x :: skipn n l)%list.

Fixpoint arrange {A : Type} (picks : list nat) (queue : list A) : list A :=
  match queue with
  | [] => []
  | t :: q =>
      let rest := arrange (tl picks) q in
      insert_at (hd 0%nat picks mod S (length rest)) t rest
  end.

Section WithWorld.

Context {W : Type}.

(** The inner dictionary of an event type, empty when the type has
    none. *)
Definition inner_of (et : EventType)
  (reg : list (EventType * list (string * Callback W))) : list (string * Callback W) :=
  match Dict.get EventType_eqb et reg with Some d => d | None => [] end.

(** The number of callbacks a registry holds for one event type, and in
    all. *)
Definition registry_count (event_type : EventType)
  (registry : list (EventType * list (string * Callback W))) : nat :=
  match Dict.get EventType_eqb event_type registry with
  | Some d => length d
  | None => 0
  end.

Definition registry_total (registry : list (EventType * list (string * Callback W))) : nat :=
  list_sum (map (fun e => length (snd e)) registry).

(** [get_subscriber_count(event_type)] *)
Definition get_subscriber_count (event_type : option EventType) (b : State W) : nat :=
  match event_type with
  | Some et => registry_count et (subscribers b) + registry_count et (async_subscribers b)
  | None => registry_total (subscribers b) + registry_total (async_subscribers b)
  end.

(** A subscription id is in use when some inner dictionary of some
    registry holds it. *)
Definition registry_holds (subscription_id : string)
  (registry : list (EventType * list (string * Callback W))) : bool :=
  existsb (fun e => Dict.mem String.eqb subscription_id (snd e)) registry.

Definition in_use (subscription_id : string) (b : State W) : bool :=
  registry_holds subscription_id (subscribers b)
  || registry_holds subscription_id (async_subscribers b).

(** [remove_filter] *)
Definition remove_filter (filter_id : string) (b : State W) : bool * State W :=
  if Dict.mem String.eqb filter_id (filters b) then
    (true,
     mkBus (subscribers b) (async_subscribers b) (event_history b) (max_history b)
       (rate_limit b) (rate_counter b) (rate_window_start b) (running b)
       (Dict.del String.eqb filter_id (filters b)) (executor b))
  else (false, b).

(** [get_event_history(event_type, limit)]; a [limit] of [0] is falsy and
    means no limit. *)
Definition get_event_history (event_type : option EventType) (limit : option Z)
  (b : State W) : list EventData :=
  let events := event_history b in
  let events :=
    match event_type with
    | Some et => filter (fun e => EventType_eqb (Events.event_type e) et) events
    | None => events
    end in
  match limit with
  | Some n => if (n =? 0)%Z then events else Pattern.slice_last n events
  | None => events
  end.

(** The callbacks registered for an event type: the synchronous ones in
    the order of their dictionary, then the asynchronous ones. *)
Definition callbacks_for (et : EventType) (b : State W) : list (Callback W) :=
  (Dict.values (inner_of et (subscribers b))
   ++ Dict.values (inner_of et (async_subscribers b)))%list.

(** [shutdown]: the flag is cleared, [self._executor.shutdown(wait=True)]
    lets the pool finish the items of its queue, and registries, history
    and filters are emptied.  The order in which the workers take the
    items is not fixed by the code: it is the rearrangement of the queue
    that the scheduling choices [picks] give. *)
Definition shutdown (picks : list nat) (b : State W) (w : W) : State W * W :=
  (mkBus [] [] [] (max_history b) (rate_limit b) (rate_counter b)
     (rate_window_start b) false [] [],
   fst (run_tasks (arrange picks (executor b)) w)).

End WithWorld.

End BusOps.

(** ** More of the safety analyzer: the trend, and helper notions *)

Module SafetyOps.
Import Safety.

Local Open Scope string_scope.

(** The two periods [_analyze_safety_trend] compares: the half window
    that ends at [end_time], and the half window before it. *)
Definition recent_violations (end_time : R) (an : State) : list SafetyViolation :=
  let period_duration := analysis_window_hours an * 3600 / 2 in
  let recent_start := end_time - period_duration in
  filter (fun v => Py.leb recent_start (timestamp v) && Py.leb (timestamp v) end_time)
    (violations an).

Definition previous_violations (end_time : R) (an : State) : list SafetyViolation :=
  let period_duration := analysis_window_hours an * 3600 / 2 in
  let recent_start := end_time - period_duration in
  let previous_start := recent_start - period_duration in
  filter (fun v => Py.leb previous_start (timestamp v) && Py.ltb (timestamp v) recent_start)
    (violations an).

(** [_analyze_safety_trend] *)
Definition analyze_safety_trend (end_time : R) (an : State) : string * R :=
  let recent_count := length (recent_violations end_time an) in
  let previous_count := length (previous_violations end_time an) in
  if (previous_count =? 0)%nat then
    if (recent_count =? 0)%nat then ("stable", 1)
    else ("degrading", 0.8)
  else
    let change_ratio := INR recent_count / INR previous_count in
    if Py.ltb change_ratio 0.8 then
      ("improving", Py.min 0.9 (1 - change_ratio + 0.8))
    else if Py.ltb 1.2 change_ratio then
      ("degrading", Py.min 0.9 (change_ratio - 1.2 + 0.7))
    else ("stable", 0.9).

(** The penalty [_calculate_safety_score] has accumulated at the end of
    its loop. *)
Definition total_penalty (violations : list SafetyViolation) : R :=
  fold_left (fun acc v => acc + penalty (severity v)) violations 0.

(** Decision records in the order of their timestamps, oldest first. *)
Fixpoint ascending (l : list Tracker.DecisionRecord) : Prop :=
  match l with
  | [] => True
  | d :: l' =>
      (forall x, In x l' -> Tracker.timestamp d <= Tracker.timestamp x)
      /\ ascending l'
  end.

(** The test of [_get_relevant_decisions]. *)
Definition in_lookback (v : SafetyViolation) (d : Tracker.DecisionRecord) : bool :=
  Py.leb (timestamp v - lookback_seconds) (Tracker.timestamp d)
  && Py.leb (Tracker.timestamp d) (timestamp v).

End SafetyOps.

(** ** More of the pattern analyzer: the names of the metrics *)

Module PatternOps.

Local Open Scope string_scope.

(** The fields of [PerformanceMetrics]. *)
Definition metric_fields : list string :=
  ["start_time"; "end_time"; "episode_start"; "episode_end"; "mean_reward";
   "reward_std"; "reward_trend"; "mean_confidence"; "confidence_std";
   "decision_consistency"; "safety_violations"; "mean_separation";
   "action_magnitude_mean"; "action_changes_per_episode";
   "value_estimate_accuracy"; "policy_entropy"].

End PatternOps.

(** ** More of the decision tracker: calls that raise *)

Module TrackerOps.
Import Tracker.

(** A [log_decision] call raises when its [vf_preds] array is given and
    empty (indexing it with [[0]] is an [IndexError]). *)
Definition raises (c : Call) : bool :=
  match vf_preds (c_policy_output c) with
  | Some [] => true
  | _ => false
  end.

(** What a run of calls returns and what it appends to the buffer, after
    [n] earlier calls: a call that raises returns nothing and appends
    nothing, but takes a counter value all the same. *)
Fixpoint outcomes_from (n : nat) (calls : list Call) : list (option string) :=
  match calls with
  | [] => []
  | c :: rest =>
      (if raises c then None else Some (make_id (S n) (c_time_id c)))
        :: outcomes_from (S n) rest
  end.

Fixpoint stored_from (n : nat) (calls : list Call) : list DecisionRecord :=
  match calls with
  | [] => []
  | c :: rest =>
      if raises c then stored_from (S n) rest
      else record_of (S n) c :: stored_from (S n) rest
  end.

End TrackerOps.

(** ** Sample data *)

Module Samples.

(** An aircraft at the origin, whose goal is the origin too, at 10000 ft. *)
Definition at_goal (name : string) (live : bool) : AcState :=
  mkAc name 0 0 10000 250 0 0 0 (Some live).

(** Two live aircraft 0.1 NM apart horizontally and 1200 ft apart
    vertically. *)
Definition low_ac : AcState := mkAc "LOW" 0 0 10000 250 0 50 0 None.
Definition high_ac : AcState := mkAc "HIGH" 0.1 0 11200 250 0 50 0 None.

(** A simulator that always reports the same three co-located aircraft. *)
Definition stuck_states : list AcState :=
  [at_goal "A" true; at_goal "B" true; at_goal "C" true].
Definition stuck_sim (s : unit) (cmds : list Env.Cmd) : list AcState * unit :=
  (stuck_states, s).
Definition stuck_env : Env.EnvState unit :=
  Env.mkEnv tt 400 (repeat 0 Env.MAX_AC) (Some stuck_states) 0.

End Samples.

Module BusSamples.
Import Events Bus.

(** A subscriber that stores every event it gets, and one that raises on
    every call; the world is the list of stored events. *)
Definition recorder : Callback (list EventData) :=
  mkCallback false (fun ev w => (Returned, w ++ [ev])).
Definition always_raises : Callback (list EventData) :=
  mkCallback false (fun ev w => (Raised, w)).

Definition step_event (t : R) : EventData := mkEvent t ENV_STEP [].

(** A bus with both subscribed to [ENV_STEP], the raising one first. *)
Definition test_bus : State (list EventData) :=
  snd (subscribe ENV_STEP recorder "rec"
         (snd (subscribe ENV_STEP always_raises "bad" (init 1000 1000 0)))).

Definition three_calls : list (EventData * R) :=
  [(step_event 0.1, 0.1); (step_event 0.2, 0.2); (step_event 0.3, 0.3)].

(** The same bus with a limit of two events per second. *)
Definition tight_bus : State (list EventData) :=
  snd (subscribe ENV_STEP recorder "rec" (init 1000 2 0)).

End BusSamples.

Module TrackerSamples.
Import Tracker.

(** A call with an empty policy output and no context, at time [t]. *)
Definition plain_call (t : R) : Call :=
  mkCall [] [] (mkPolicyOutput None None None) None t t.

End TrackerSamples.

Module SafetySamples.
Import Events Safety.

(** The synthetic safety-violation event of the end-to-end scenario. *)
Definition violation_event : EventData :=
  mkEvent 1000 SAFETY_VIOLATION
    [("separation_distance"%string, VFloat 2);
     ("minimum_separation"%string, VFloat 5);
     ("severity"%string, VStr "high")].

(** A bare violation record. *)
Definition plain_violation : SafetyViolation :=
  mkViolation "v" 0 LOSS_OF_SEPARATION MEDIUM [] 2 (VFloat 5) 0 0 0 0
    None None None None None.

End SafetySamples.

Module PatternSamples.
Import Pattern.

(** Performance metrics with the given mean reward. *)
Definition metrics_with_reward (r : R) : PerformanceMetrics :=
  mkMetrics 0 30 0 0 r 0 0 0.5 0 0.5 0 10 0 0 0.5 1.

(** Twenty episodes: ten whose mean reward alternates between 0 and 1,
    then ten at 10. *)
Definition spike_rewards : list R :=
  [0; 1; 0; 1; 0; 1; 0; 1; 0; 1; 10; 10; 10; 10; 10; 10; 10; 10; 10; 10].

Definition spike_analyzer : State :=
  mkAnalyzer 100 [] 0 (map metrics_with_reward spike_rewards).

End PatternSamples.

(** ** Further sample data *)

Module MoreSamples.
Import Pattern.

(** Ten episodes whose metric rises by one per episode, and the
    least-squares fit of that series against its indices. *)
Definition ramp : list R := map INR (seq 0 10).

Definition ramp_fit (x y : list R) : Linregress := mkLinregress 1 0 1 0 0.

Definition no_format (digits : nat) (x : R) : string := EmptyString.

End MoreSamples.

Module MoreBusSamples.
Import Events Bus BusOps BusSamples.

(** The raising and the recording subscriber on a bus limited to two
    events per second. *)
Definition tight_test_bus : State (list EventData) :=
  snd (subscribe ENV_STEP recorder "rec"
         (snd (subscribe ENV_STEP always_raises "bad" (init 1000 2 0)))).

(** The test bus with a filter that lets nothing through. *)
Definition veto_bus : State (list EventData) :=
  add_filter "none" (fun _ => Some false) test_bus.

(** A bus that was shut down, with the recording subscriber registered
    afterwards. *)
Definition stopped_bus : State (list EventData) :=
  snd (subscribe ENV_STEP recorder "rec" (fst (shutdown [] (init 1000 1000 0) []))).

End MoreBusSamples.

(** * Properties *)

(** ** Facts about the numeric helpers *)

Module PyFacts.

Lemma ltb_true_iff (x y : R) : Py.ltb x y = true <-> x < y.
Proof. unfold Py.ltb. destruct (Rlt_dec x y); split; intros; try lra; congruence. Qed.

Lemma ltb_false_iff (x y : R) : Py.ltb x y = false <-> y <= x.
Proof. unfold Py.ltb. destruct (Rlt_dec x y); split; intros; try lra; congruence. Qed.

Lemma leb_true_iff (x y : R) : Py.leb x y = true <-> x <= y.
Proof. unfold Py.leb. destruct (Rle_dec x y); split; intros; try lra; congruence. Qed.

Lemma leb_false_iff (x y : R) : Py.leb x y = false <-> y < x.
Proof. unfold Py.leb. destruct (Rle_dec x y); split; intros; try lra; congruence. Qed.

Lemma eqb_true_iff (x y : R) : Py.eqb x y = true <-> x = y.
Proof. unfold Py.eqb. destruct (Req_dec_T x y); split; intros; try lra; congruence. Qed.

Lemma hypot_euclid (x y : R) : Py.hypot x y = sqrt (x ^ 2 + y ^ 2).
Proof. unfold Py.hypot. f_equal. ring. Qed.

Lemma hypot_nonneg (x y : R) : 0 <= Py.hypot x y.
Proof. apply sqrt_pos. Qed.

Lemma hypot_lt (x y c : R) : 0 < c -> x * x + y * y < c * c -> Py.hypot x y < c.
Proof.
  intros Hc H. unfold Py.hypot.
  rewrite <- (sqrt_square c) by lra.
  apply sqrt_lt_1_alt. split; [nra | exact H].
Qed.

Lemma min_is_Rmin (a b : R) : Py.min a b = Rmin a b.
Proof.
  unfold Py.min, Py.ltb, Rmin.
  destruct (Rlt_dec b a), (Rle_dec a b); lra.
Qed.

Lemma max_is_Rmax (a b : R) : Py.max a b = Rmax a b.
Proof.
  unfold Py.max, Py.ltb, Rmax. destruct (Rlt_dec a b), (Rle_dec a b); lra.
Qed.

Lemma sum_from (l : list R) (a : R) : fold_left Rplus l a = a + Py.sum l.
Proof.
  unfold Py.sum. revert a.
  induction l as [|x l IH]; intros a; simpl.
  - lra.
  - rewrite IH, (IH (0 + x)). lra.
Qed.

Lemma sum_cons (x : R) (l : list R) : Py.sum (x :: l) = x + Py.sum l.
Proof. unfold Py.sum at 1. simpl. rewrite sum_from. lra. Qed.

Lemma sum_nil : Py.sum [] = 0.
Proof. reflexivity. Qed.

Lemma clip_bounds (r lo hi : R) : lo <= hi -> lo <= Py.clip r lo hi <= hi.
Proof.
  intros H. unfold Py.clip, Rmin, Rmax.
  destruct (Rle_dec r lo); destruct (Rle_dec _ hi); lra.
Qed.

Lemma clip_above (r lo hi : R) : lo <= hi -> hi < r -> Py.clip r lo hi = hi.
Proof.
  intros H Hr. unfold Py.clip, Rmin, Rmax.
  destruct (Rle_dec r lo); destruct (Rle_dec _ hi); lra.
Qed.

Lemma clip_below (r lo hi : R) : lo <= hi -> r < lo -> Py.clip r lo hi = lo.
Proof.
  intros H Hr. unfold Py.clip, Rmin, Rmax.
  destruct (Rle_dec r lo); destruct (Rle_dec _ hi); lra.
Qed.

Lemma clip_inside (r lo hi : R) : lo <= r <= hi -> Py.clip r lo hi = r.
Proof.
  intros H. unfold Py.clip, Rmin, Rmax.
  destruct (Rle_dec r lo); destruct (Rle_dec _ hi); lra.
Qed.

(** The bounded buffer keeps the last [C] items. *)

Lemma deque_append_last_n {A : Type} (C : nat) (d : list A) (x : A) :
  (length d <= C)%nat -> Py.deque_append C d x = Py.last_n C (d ++ [x]).
Proof.
  intros H. unfold Py.deque_append, Py.last_n. cbv zeta.
  rewrite length_app. cbn [length].
  destruct (Nat.ltb_spec C (length d + 1)).
  - replace (length d + 1 - C)%nat with 1%nat by lia. reflexivity.
  - replace (length d + 1 - C)%nat with 0%nat by lia. reflexivity.
Qed.

Lemma last_n_length {A : Type} (C : nat) (l : list A) :
  length (Py.last_n C l) = Nat.min C (length l).
Proof. unfold Py.last_n. rewrite length_skipn. lia. Qed.

Lemma last_n_app {A : Type} (C : nat) (l m : list A) :
  Py.last_n C (Py.last_n C l ++ m) = Py.last_n C (l ++ m).
Proof.
  unfold Py.last_n. rewrite !length_app, length_skipn.
  destruct (Nat.le_gt_cases (length l) C) as [H|H].
  - replace (length l - C)%nat with 0%nat by lia. cbn [skipn].
    rewrite Nat.sub_0_r. reflexivity.
  - replace (length l - (length l - C) + length m - C)%nat with (length m) by lia.
    replace (length l + length m - C)%nat with (length m + (length l - C))%nat by lia.
    rewrite <- skipn_skipn. f_equal.
    rewrite skipn_app.
    replace (length l - C - length l)%nat with 0%nat by lia. reflexivity.
Qed.

End PyFacts.

(** ** Separation geometry *)

Module UtilsFacts.
Import Utils.

(** The loop body adds the pair's contribution to the running count,
    whatever the running minimum is. *)
Lemma pair_step_count (ai aj : AcState) (m : R) (n : nat) :
  snd (pair_step ai aj (m, n)) = (n + contribution (ai, aj))%nat.
Proof.
  unfold contribution, pair_step. simpl.
  destruct (negb (get_alive ai && get_alive aj)); simpl; [lia|].
  destruct (Py.ltb _ 5 && Py.ltb _ 1000); simpl; lia.
Qed.

Lemma inner_loop_count (ai : AcState) (rest : list AcState) (acc : R * nat) :
  snd (inner_loop ai rest acc) =
  (snd acc + list_sum (map contribution (map (fun aj => (ai, aj)) rest)))%nat.
Proof.
  unfold list_sum. revert acc.
  induction rest as [|aj rest IH]; intros [m n]; cbn [inner_loop map fold_right snd].
  - lia.
  - rewrite IH, pair_step_count. lia.
Qed.

Lemma outer_loop_count (states : list AcState) (acc : R * nat) :
  snd (outer_loop states acc) =
  (snd acc + list_sum (map contribution (unordered_pairs states)))%nat.
Proof.
  revert acc. induction states as [|ai rest IH]; intros acc;
    cbn [outer_loop unordered_pairs].
  - simpl. lia.
  - rewrite IH, inner_loop_count, map_app, list_sum_app. lia.
Qed.

Lemma los_count_sum (states : list AcState) :
  snd (pairwise_min_separation_nm states) =
  list_sum (map contribution (unordered_pairs states)).
Proof.
  unfold pairwise_min_separation_nm.
  pose proof (outer_loop_count states (1e9, 0%nat)) as H.
  destruct (outer_loop states (1e9, 0%nat)) as [m n]. simpl in *. exact H.
Qed.

Lemma contribution_cases (a b : AcState) :
  (is_los a b /\ contribution (a, b) = 1%nat) \/
  (~ is_los a b /\ contribution (a, b) = 0%nat).
Proof.
  unfold contribution, pair_step, is_los. cbn [fst snd].
  rewrite <- PyFacts.hypot_euclid.
  destruct (get_alive a), (get_alive b); cbn [andb negb snd];
    try (right; split; [intros (? & ? & _); discriminate | reflexivity]).
  destruct (Py.ltb (Py.hypot _ _) 5) eqn:E1; cbn [andb snd].
  - destruct (Py.ltb (Rabs _) 1000) eqn:E2; cbn [snd].
    + left. apply PyFacts.ltb_true_iff in E1, E2. auto.
    + right. apply PyFacts.ltb_false_iff in E2.
      split; [intros (_ & _ & _ & H); lra | reflexivity].
  - right. apply PyFacts.ltb_false_iff in E1.
    split; [intros (_ & _ & H & _); lra | reflexivity].
Qed.

Lemma contribution_one_iff (a b : AcState) :
  contribution (a, b) = 1%nat <-> is_los a b.
Proof.
  destruct (contribution_cases a b) as [[H1 H2]|[H1 H2]]; rewrite H2; split; intros;
    try assumption; try reflexivity; try discriminate; contradiction.
Qed.

Lemma contribution_zero_iff (a b : AcState) :
  contribution (a, b) = 0%nat <-> ~ is_los a b.
Proof.
  destruct (contribution_cases a b) as [[H1 H2]|[H1 H2]]; rewrite H2; split; intros;
    try assumption; try reflexivity; try discriminate; contradiction.
Qed.

(** C1: [pairwise_min_separation_nm] counts exactly the unordered pairs of
    live aircraft whose horizontal Euclidean distance is strictly below
    5 NM and whose absolute altitude difference is strictly below 1000 ft:
    [los_count] is the sum over the unordered pairs of a contribution that
    is 1 when the pair meets both conditions and 0 otherwise; a pair at
    least 1000 ft apart vertically contributes 0 whatever its horizontal
    distance. *)
Theorem los_count_conjunction :
  forall states : list AcState,
    snd (pairwise_min_separation_nm states) =
      list_sum (map contribution (unordered_pairs states))
    /\ (forall a b, contribution (a, b) = 1%nat <-> is_los a b)
    /\ (forall a b, contribution (a, b) = 0%nat <-> ~ is_los a b)
    /\ (forall a b, 1000 <= Rabs (alt_ft a - alt_ft b) -> contribution (a, b) = 0%nat).
Proof.
  intros states. split; [apply los_count_sum|].
  split; [apply contribution_one_iff|].
  split; [apply contribution_zero_iff|].
  intros a b H. apply contribution_zero_iff.
  intros (_ & _ & _ & Hv). lra.
Qed.

End UtilsFacts.

(** ** Reward engine *)

Module RewardFacts.
Import Reward.

Lemma sum_values (c : Components) : Py.sum (values c) = raw_sum c.
Proof.
  unfold values, raw_sum. rewrite !PyFacts.sum_cons, PyFacts.sum_nil. lra.
Qed.

(** The result of [compute_reward], spelled out. *)
Lemma compute_reward_eq (prev cur : list AcState) (ms : R) (lc : Z) (mask : list R) :
  let acc := reward_loop (length cur) 0 (combine prev cur) (0, 0) in
  let comps :=
    mkComps (-10 * IZR lc) (if Py.ltb ms NEAR_NM then -2 else 0)
      (0.05 * fst acc) 0 0 (snd acc) (if (2 <=? lc)%Z then -10 else 0) in
  compute_reward prev cur ms lc mask = (Py.clip (raw_sum comps) (-20) 5, comps).
Proof.
  cbv zeta. unfold compute_reward.
  destruct (reward_loop (length cur) 0 (combine prev cur) (0, 0)) as [prog bonus].
  cbn [fst snd]. rewrite sum_values. reflexivity.
Qed.

(** The terminal bonus never decreases along the loop and the loop keeps
    a zero bonus at zero when no aircraft is given. *)
Lemma reward_loop_nil (n i : nat) (acc : R * R) : reward_loop n i [] acc = acc.
Proof. reflexivity. Qed.

(** C2: the scalar reward is the sum of the seven reported components
    clipped to [-20, 5], the reported components being the values before
    clipping: the reward lies in the interval, a raw sum above 5 gives
    exactly 5, a raw sum below -20 gives exactly -20, and in both saturated
    cases the scalar differs from the sum of the reported components. *)
Theorem reward_is_clipped_sum :
  forall (prev cur : list AcState) (ms : R) (lc : Z) (mask : list R),
    let r := fst (compute_reward prev cur ms lc mask) in
    let comps := snd (compute_reward prev cur ms lc mask) in
    r = Py.clip (raw_sum comps) (-20) 5
    /\ -20 <= r <= 5
    /\ (5 < raw_sum comps -> r = 5 /\ r <> raw_sum comps)
    /\ (raw_sum comps < -20 -> r = -20 /\ r <> raw_sum comps)
    /\ (-20 <= raw_sum comps <= 5 -> r = raw_sum comps)
    /\ los comps = -10 * IZR lc
    /\ near comps = (if Py.ltb ms 6 then -2 else 0)
    /\ smooth comps = 0 /\ fuel comps = 0
    /\ catastrophe comps = (if (2 <=? lc)%Z then -10 else 0).
Proof.
  intros prev cur ms lc mask.
  pose proof (compute_reward_eq prev cur ms lc mask) as E. cbv zeta in E.
  cbv zeta. rewrite E. cbn [fst snd].
  set (comps := mkComps _ _ _ _ _ _ _).
  split; [reflexivity|].
  split; [apply PyFacts.clip_bounds; lra|].
  split.
  { intros H. rewrite PyFacts.clip_above by lra. split; lra. }
  split.
  { intros H. rewrite PyFacts.clip_below by lra. split; lra. }
  split.
  { intros H. apply PyFacts.clip_inside; lra. }
  subst comps. cbn [los near smooth fuel catastrophe]. unfold NEAR_NM. tauto.
Qed.

(** The catastrophe component, read off the result. *)
Lemma catastrophe_component (prev cur : list AcState) (ms : R) (lc : Z) (mask : list R) :
  catastrophe (snd (compute_reward prev cur ms lc mask)) =
  if (2 <=? lc)%Z then -10 else 0.
Proof.
  pose proof (compute_reward_eq prev cur ms lc mask) as E. cbv zeta in E.
  rewrite E. reflexivity.
Qed.

(** C10: [compute_reward] does not depend on its [alive_mask] argument. *)
Theorem alive_mask_is_ignored :
  forall (prev cur : list AcState) (ms : R) (lc : Z) (m1 m2 : list R),
    compute_reward prev cur ms lc m1 = compute_reward prev cur ms lc m2.
Proof.
  intros. pose proof (compute_reward_eq prev cur ms lc m1) as E1.
  pose proof (compute_reward_eq prev cur ms lc m2) as E2.
  cbv zeta in E1, E2. rewrite E1, E2. reflexivity.
Qed.

End RewardFacts.

(** ** Environment step *)

Module EnvFacts.
Import Env.

Section Step.

Context {SimState Feats : Type}.
Variable sim_step : SimState -> list Cmd -> list AcState * SimState.
Variable encode_feats : list AcState -> Feats.

(** What a returning [step] computed. *)
Lemma step_some (env : EnvState SimState) (action : list R) (res : StepResult Feats) (env' : EnvState SimState) :
  step sim_step encode_feats env action = Some (res, env') ->
  exists last states,
    last_states env = Some last /\
    states = fst (sim_step (sim env) (build_cmds 0 (firstn MAX_AC last) action)) /\
    info_los (info res) = snd (Utils.pairwise_min_separation_nm states) /\
    r_components (info res) =
      snd (Reward.compute_reward last states
             (fst (Utils.pairwise_min_separation_nm states))
             (Z.of_nat (snd (Utils.pairwise_min_separation_nm states)))
             (alive_array states)) /\
    terminated res =
      (if Py.eqb (Py.sum (alive_array states)) 0 then true
       else if Py.ltb (Reward.catastrophe (r_components (info res))) 0 then true
       else false).
Proof.
  unfold step.
  destruct (negb (length action =? MAX_AC * 2)%nat); [discriminate|].
  destruct (last_states env) as [last|]; [|discriminate].
  destruct (sim_step (sim env) _) as [states sim'] eqn:Es.
  unfold encode_obs.
  destruct (horizon env =? 0)%Z; [discriminate|].
  destruct (Utils.pairwise_min_separation_nm states) as [ms lc] eqn:Ep.
  destruct (Reward.compute_reward last states ms (Z.of_nat lc) (alive_array states))
    as [rw comps] eqn:Er.
  intros H. injection H as <- <-.
  exists last, states. cbn [info r_components info_los terminated].
  rewrite Es, Ep. cbn [fst snd]. rewrite Er. cbn [snd].
  repeat split.
Qed.

(** [step] returns whenever the action has [2 * MAX_AC] entries, the
    environment was reset and the horizon is not zero. *)
Lemma step_returns (env : EnvState SimState) (action : list R) :
  length action = (MAX_AC * 2)%nat -> last_states env <> None -> horizon env <> 0%Z ->
  exists res env', step sim_step encode_feats env action = Some (res, env').
Proof.
  intros Ha Hl Hh. unfold step.
  rewrite Ha, Nat.eqb_refl. cbn [negb].
  destruct (last_states env) as [last|]; [|congruence].
  destruct (sim_step (sim env) _) as [states sim'].
  unfold encode_obs.
  destruct (Z.eqb_spec (horizon env) 0) as [?|_]; [contradiction|].
  destruct (Utils.pairwise_min_separation_nm states) as [ms lc].
  destruct (Reward.compute_reward last states ms (Z.of_nat lc) (alive_array states))
    as [rw comps].
  eauto.
Qed.

Lemma step_terminates_on_catastrophe (env : EnvState SimState) (action : list R)
  (res : StepResult Feats) (env' : EnvState SimState) :
  step sim_step encode_feats env action = Some (res, env') ->
  Reward.catastrophe (r_components (info res)) < 0 ->
  terminated res = true.
Proof.
  intros H Hc. destruct (step_some _ _ _ _ H) as (last & states & _ & _ & _ & _ & Ht).
  rewrite Ht. apply PyFacts.ltb_true_iff in Hc. rewrite Hc.
  destruct (Py.eqb _ 0); reflexivity.
Qed.

(** What a returning [step] reports: the separation, the count and the
    reward of the simulator's new states. *)
Lemma step_reported (env : EnvState SimState) (action : list R)
  (res : StepResult Feats) (env' : EnvState SimState) :
  step sim_step encode_feats env action = Some (res, env') ->
  exists last states,
    last_states env = Some last
    /\ states = fst (sim_step (sim env) (build_cmds 0 (firstn MAX_AC last) action))
    /\ info_min_sep_nm (info res) = fst (Utils.pairwise_min_separation_nm states)
    /\ info_los (info res) = snd (Utils.pairwise_min_separation_nm states)
    /\ (reward res, r_components (info res)) =
       Reward.compute_reward last states
         (info_min_sep_nm (info res)) (Z.of_nat (info_los (info res)))
         (alive_array states).
Proof.
  unfold step.
  destruct (negb (length action =? MAX_AC * 2)%nat); [discriminate|].
  destruct (last_states env) as [last|]; [|discriminate].
  destruct (sim_step (sim env) _) as [states sim'] eqn:Es.
  unfold encode_obs.
  destruct (horizon env =? 0)%Z; [discriminate|].
  destruct (Utils.pairwise_min_separation_nm states) as [ms lc] eqn:Ep.
  destruct (Reward.compute_reward last states ms (Z.of_nat lc) (alive_array states))
    as [rw comps] eqn:Er.
  intros H. injection H as <- <-.
  exists last, states. cbn [info r_components info_los info_min_sep_nm reward].
  rewrite Es. cbn [fst snd]. rewrite Ep. cbn [fst snd]. rewrite Er.
  split; [reflexivity|]. split; [reflexivity|]. split; [reflexivity|].
  split; reflexivity.
Qed.

End Step.

(** C3: the catastrophe component is [-10] exactly when [los_count >= 2]
    and [0] otherwise (so [0] at [los_count = 1] and [-10] at
    [los_count = 2]).  [step] returns on every well-shaped action once the
    environment was reset with a non-zero horizon, and every returning
    [step] reports the reward and the components that [compute_reward]
    gives for the simulator's new states with the separation and the count
    of [pairwise_min_separation_nm] on those states, which it reports too:
    so the catastrophe component it reports is [-10] exactly when the count
    it reports is at least 2 and [0] exactly when that count is below 2, and
    it reports [terminated = True] whenever that component is negative,
    that is whenever the count is at least 2. *)
Theorem catastrophe_threshold :
  (forall (prev cur : list AcState) (ms : R) (lc : Z) (mask : list R),
     let c := Reward.catastrophe (snd (Reward.compute_reward prev cur ms lc mask)) in
     (c = -10 <-> (2 <= lc)%Z) /\ (c = 0 <-> (lc < 2)%Z))
  /\ (forall (SimState Feats : Type)
        (sim_step : SimState -> list Cmd -> list AcState * SimState)
        (encode_feats : list AcState -> Feats)
        (env : EnvState SimState) (action : list R),
        (length action = (MAX_AC * 2)%nat -> last_states env <> None ->
         horizon env <> 0%Z ->
         exists res env', step sim_step encode_feats env action = Some (res, env'))
        /\ (forall res env',
              step sim_step encode_feats env action = Some (res, env') ->
              exists last states,
                last_states env = Some last
                /\ states =
                   fst (sim_step (sim env) (build_cmds 0 (firstn MAX_AC last) action))
                /\ info_min_sep_nm (info res) =
                   fst (Utils.pairwise_min_separation_nm states)
                /\ info_los (info res) = snd (Utils.pairwise_min_separation_nm states)
                /\ (reward res, r_components (info res)) =
                   Reward.compute_reward last states
                     (info_min_sep_nm (info res)) (Z.of_nat (info_los (info res)))
                     (alive_array states)
                /\ (Reward.catastrophe (r_components (info res)) = -10 <->
                    (2 <= info_los (info res))%nat)
                /\ (Reward.catastrophe (r_components (info res)) = 0 <->
                    (info_los (info res) < 2)%nat)
                /\ (Reward.catastrophe (r_components (info res)) < 0 ->
                    terminated res = true)
                /\ ((2 <= info_los (info res))%nat -> terminated res = true))).
Proof.
  split.
  - intros prev cur ms lc mask. cbv zeta.
    rewrite RewardFacts.catastrophe_component.
    destruct (Z.leb_spec 2 lc); split; split; intros; try lra; lia.
  - intros SimState Feats sim_step encode_feats env action. split.
    + apply step_returns.
    + intros res env' H.
      destruct (step_reported _ _ _ _ _ _ H) as (last & states & Hl & Hs & Hm & Hc & Hr).
      pose proof (step_terminates_on_catastrophe _ _ _ _ _ _ H) as Ht.
      assert (Hcat : Reward.catastrophe (r_components (info res)) =
                     if (2 <=? Z.of_nat (info_los (info res)))%Z then -10 else 0).
      { replace (r_components (info res)) with
          (snd (Reward.compute_reward last states (info_min_sep_nm (info res))
                  (Z.of_nat (info_los (info res))) (alive_array states)))
          by (rewrite <- Hr; reflexivity).
        apply RewardFacts.catastrophe_component. }
      exists last, states.
      split; [exact Hl|]. split; [exact Hs|]. split; [exact Hm|]. split; [exact Hc|].
      split; [exact Hr|].
      destruct (Z.leb_spec 2 (Z.of_nat (info_los (info res)))) as [Hge|Hlt].
      * split; [split; [intros _; lia|intros _; exact Hcat]|].
        split; [split; [intros E; rewrite Hcat in E; lra|intros Hlo; lia]|].
        split; [exact Ht|]. intros _. apply Ht. rewrite Hcat. lra.
      * split; [split; [intros E; rewrite Hcat in E; lra|intros Hlo; lia]|].
        split; [split; [intros _; lia|intros _; exact Hcat]|].
        split; [exact Ht|]. intros Hlo. lia.
Qed.

End EnvFacts.

(** ** The properties at sample inputs *)

Module StEnvExamples.
Import Samples.

(** Deciding a float comparison whose operands are known. *)
Ltac py_cmp :=
  repeat match goal with
  | |- context [Py.ltb ?a ?b] =>
      first
        [ rewrite (proj2 (PyFacts.ltb_true_iff a b)) by
            first [lra | apply PyFacts.hypot_lt; lra]
        | rewrite (proj2 (PyFacts.ltb_false_iff a b)) by lra ]
  end.

(** Two aircraft 0.1 NM apart but 1200 ft apart vertically: no loss of
    separation is counted. *)
Lemma los_count_conjunction_witness :
  snd (Utils.pairwise_min_separation_nm [low_ac; high_ac]) = 0%nat.
Proof.
  destruct (UtilsFacts.los_count_conjunction [low_ac; high_ac]) as (Hsum & _ & _ & Hv).
  rewrite Hsum. cbn [Utils.unordered_pairs map app list_sum fold_right].
  rewrite Hv; [reflexivity|].
  unfold low_ac, high_ac. cbn [alt_ft].
  unfold Rabs. destruct (Rcase_abs _); lra.
Defined.

(** Two aircraft that both leave at their goal earn a terminal bonus of 10:
    the reward saturates at 5.  Three losses of separation give a raw sum
    of -40: the reward saturates at -20. *)
Lemma reward_is_clipped_sum_witness :
  fst (Reward.compute_reward [at_goal "A" true; at_goal "B" true]
         [at_goal "A" false; at_goal "B" false] 999 0 []) = 5
  /\ fst (Reward.compute_reward [] [] 999 3 []) = -20.
Proof.
  split.
  - destruct (RewardFacts.reward_is_clipped_sum
                [at_goal "A" true; at_goal "B" true]
                [at_goal "A" false; at_goal "B" false] 999 0 [])
      as (_ & _ & Hup & _).
    apply Hup.
    pose proof (RewardFacts.compute_reward_eq
                  [at_goal "A" true; at_goal "B" true]
                  [at_goal "A" false; at_goal "B" false] 999 0 []) as E.
    cbv zeta in E. rewrite E. clear E Hup.
    unfold Reward.raw_sum, Reward.NEAR_NM.
    repeat (progress
      (cbn [snd fst Reward.los Reward.near Reward.progress Reward.smooth Reward.fuel
            Reward.terminal Reward.catastrophe length combine Reward.reward_loop
            Nat.leb Reward.loop_body at_goal get_alive alive negb
            goal_x_nm goal_y_nm x_nm y_nm Z.leb Z.compare Pos.compare
            Pos.compare_cont];
       py_cmp)).
    lra.
  - destruct (RewardFacts.reward_is_clipped_sum [] [] 999 3 [])
      as (_ & _ & _ & Hlow & _).
    apply Hlow.
    pose proof (RewardFacts.compute_reward_eq [] [] 999 3 []) as E.
    cbv zeta in E. rewrite E. clear E Hlow.
    unfold Reward.raw_sum, Reward.NEAR_NM.
    cbn [snd fst Reward.los Reward.near Reward.progress Reward.smooth Reward.fuel
         Reward.terminal Reward.catastrophe length combine Reward.reward_loop
         Z.leb Z.compare Pos.compare Pos.compare_cont].
    py_cmp. lra.
Defined.

Lemma at_goal_is_los (n1 n2 : string) :
  Utils.is_los (at_goal n1 true) (at_goal n2 true).
Proof.
  unfold Utils.is_los, at_goal. cbn [get_alive alive x_nm y_nm alt_ft].
  repeat split.
  - rewrite <- PyFacts.hypot_euclid. apply PyFacts.hypot_lt; lra.
  - unfold Rabs. destruct (Rcase_abs _); lra.
Qed.

Lemma stuck_states_los : snd (Utils.pairwise_min_separation_nm stuck_states) = 3%nat.
Proof.
  rewrite UtilsFacts.los_count_sum. unfold stuck_states.
  cbn [Utils.unordered_pairs map app list_sum fold_right].
  rewrite !(proj2 (UtilsFacts.contribution_one_iff _ _)) by apply at_goal_is_los.
  reflexivity.
Qed.

(** With three co-located aircraft the step counts three losses of
    separation, the catastrophe component is negative and the episode
    terminates. *)
Lemma catastrophe_threshold_witness :
  exists res env',
    Env.step stuck_sim (fun _ => tt) stuck_env (repeat 0 32) = Some (res, env')
    /\ Env.info_los (Env.info res) = 3%nat
    /\ Reward.catastrophe (Env.r_components (Env.info res)) = -10
    /\ Env.terminated res = true.
Proof.
  destruct EnvFacts.catastrophe_threshold as [_ Hs].
  destruct (Hs unit unit stuck_sim (fun _ => tt) stuck_env (repeat 0 32))
    as [Hret Hrep].
  destruct Hret as (res & env' & H);
    [reflexivity | discriminate | discriminate |].
  exists res, env'. split; [exact H|].
  destruct (Hrep res env' H)
    as (last & states & _ & Hst & _ & Hlos & _ & Hten & _ & _ & Hterm).
  cbn [stuck_sim fst] in Hst. subst states.
  rewrite stuck_states_los in Hlos.
  split; [exact Hlos|]. split.
  - apply Hten. rewrite Hlos. lia.
  - apply Hterm. rewrite Hlos. lia.
Defined.

End StEnvExamples.

(** ** Event bus *)

Module BusFacts.
Import Events Bus.

Lemma EventType_eqb_refl (t : EventType) : EventType_eqb t t = true.
Proof. unfold EventType_eqb. destruct (EventType_eq_dec t t); congruence. Qed.

Section Facts.

Context {W : Type}.

(** *** The rate limiter *)

(** Inside the current window the rate check leaves the window start alone
    and admits the call exactly when the counter is below the limit. *)
Lemma check_rate_limit_in_window (now : R) (b : State W) :
  now - rate_window_start b < 1 ->
  check_rate_limit now b =
  if (rate_limit b <=? rate_counter b)%Z
  then (false, (rate_counter b, rate_window_start b))
  else (true, ((rate_counter b + 1)%Z, rate_window_start b)).
Proof.
  intros H. unfold check_rate_limit.
  rewrite (proj2 (PyFacts.leb_false_iff _ _)) by lra. reflexivity.
Qed.

(** A call beyond the limit inside the current window changes nothing. *)
Lemma publish_dropped (ev : EventData) (now : R) (b : State W) :
  now - rate_window_start b < 1 ->
  (rate_limit b <= rate_counter b)%Z ->
  publish ev now b = b.
Proof.
  intros Hw Hc. unfold publish.
  destruct (running b) eqn:Er; cbn [negb]; [|reflexivity].
  rewrite check_rate_limit_in_window by exact Hw.
  rewrite (proj2 (Z.leb_le _ _)) by exact Hc.
  cbn [negb]. destruct b; cbn in *. subst. reflexivity.
Qed.

(** What [publish] leaves alone, always. *)
Lemma publish_preserves (ev : EventData) (now : R) (b : State W) :
  subscribers (publish ev now b) = subscribers b
  /\ async_subscribers (publish ev now b) = async_subscribers b
  /\ filters (publish ev now b) = filters b
  /\ running (publish ev now b) = running b
  /\ rate_limit (publish ev now b) = rate_limit b
  /\ max_history (publish ev now b) = max_history b.
Proof.
  unfold publish.
  destruct (running b) eqn:Er; cbn [negb]; [|rewrite Er; tauto].
  destruct (check_rate_limit now b) as [ok [c ws]].
  destruct ok; cbn [negb]; [|cbn; tauto].
  destruct (apply_filters _ ev); cbn; tauto.
Qed.

(** Inside the window, on a running bus, the counter moves by one on an
    admitted call and the window start stays. *)
Lemma publish_counter_in_window (ev : EventData) (now : R) (b : State W) :
  running b = true ->
  now - rate_window_start b < 1 ->
  rate_window_start (publish ev now b) = rate_window_start b
  /\ rate_counter (publish ev now b) =
     (if (rate_limit b <=? rate_counter b)%Z then rate_counter b
      else rate_counter b + 1)%Z.
Proof.
  intros Hr Hw. unfold publish. rewrite Hr. cbn [negb].
  rewrite check_rate_limit_in_window by exact Hw.
  destruct (rate_limit b <=? rate_counter b)%Z; cbn [negb]; [cbn; tauto|].
  destruct (apply_filters _ ev); cbn; tauto.
Qed.

Lemma publish_all_app (cs more : list (EventData * R)) (b : State W) :
  publish_all (cs ++ more) b = publish_all more (publish_all cs b).
Proof. unfold publish_all. apply fold_left_app. Qed.

(** Calls that all fall in the current window, beyond the limit, change
    nothing. *)
Lemma publish_all_dropped (more : list (EventData * R)) (b : State W) :
  (forall c, In c more -> snd c - rate_window_start b < 1) ->
  (rate_limit b <= rate_counter b)%Z ->
  publish_all more b = b.
Proof.
  induction more as [|c more IH]; intros Hw Hc; [reflexivity|].
  unfold publish_all. cbn [fold_left].
  rewrite publish_dropped; [|apply Hw; left; reflexivity|exact Hc].
  apply IH; [intros c' Hin; apply Hw; right; exact Hin|exact Hc].
Qed.

(** The counter after a run of calls inside the window: it counts the
    admitted calls, up to the limit. *)
Lemma publish_all_counter (cs : list (EventData * R)) (b : State W) :
  running b = true ->
  (forall c, In c cs -> snd c - rate_window_start b < 1) ->
  running (publish_all cs b) = true
  /\ rate_limit (publish_all cs b) = rate_limit b
  /\ rate_window_start (publish_all cs b) = rate_window_start b
  /\ rate_counter (publish_all cs b) =
     Z.max (rate_counter b)
       (Z.min (rate_limit b) (rate_counter b + Z.of_nat (length cs))).
Proof.
  revert b. induction cs as [|c cs IH]; intros b Hr Hw.
  - unfold publish_all. cbn [fold_left length].
    repeat split; [exact Hr | lia].
  - unfold publish_all. cbn [fold_left]. fold (publish_all cs (publish (fst c) (snd c) b)).
    destruct (publish_preserves (fst c) (snd c) b) as (_ & _ & _ & Hr' & Hl' & _).
    destruct (publish_counter_in_window (fst c) (snd c) b Hr) as [Hws Hcnt];
      [apply Hw; left; reflexivity|].
    destruct (IH (publish (fst c) (snd c) b)) as (H1 & H2 & H3 & H4);
      [congruence | intros c' Hin; rewrite Hws; apply Hw; right; exact Hin |].
    rewrite H1, H2, H3, H4, Hl', Hws, Hcnt.
    repeat split.
    cbn [length]. destruct (Z.leb_spec (rate_limit b) (rate_counter b)); lia.
Qed.

End Facts.

(** C5: on a bus whose limit is [R], once [R] calls have been admitted in
    the current one-second window (the counter, which counts them, has
    reached the limit), every further [publish] in that window returns with
    the bus unchanged: nothing is appended to the history, no work item is
    submitted for any subscriber, nothing is queued for later.  [publish]
    is a total function here: the drop is a plain return. *)
Theorem rate_limit_drops :
  forall (W : Type) (b : State W) (cs more : list (EventData * R)),
    running b = true ->
    (forall c, In c (cs ++ more) -> snd c - rate_window_start b < 1) ->
    (rate_limit b <= rate_counter b + Z.of_nat (length cs))%Z ->
    (rate_limit b <= rate_counter (publish_all cs b))%Z
    /\ publish_all (cs ++ more) b = publish_all cs b
    /\ event_history (publish_all (cs ++ more) b) = event_history (publish_all cs b)
    /\ executor (publish_all (cs ++ more) b) = executor (publish_all cs b).
Proof.
  intros W b cs more Hr Hw Hc.
  destruct (publish_all_counter cs b Hr) as (_ & Hl & Hws & Hcnt).
  { intros c Hin. apply Hw, in_or_app. left. exact Hin. }
  assert (Hfull : (rate_limit b <= rate_counter (publish_all cs b))%Z) by lia.
  assert (E : publish_all (cs ++ more) b = publish_all cs b).
  { rewrite publish_all_app. apply publish_all_dropped.
    - intros c Hin. rewrite Hws. apply Hw, in_or_app. right. exact Hin.
    - rewrite Hl. exact Hfull. }
  rewrite E. repeat split. exact Hfull.
Qed.

End BusFacts.

(** ** Fan-out and failure isolation *)

Module FanOut.
Import Events Bus BusOps.

Section Isolation.

Context {W : Type}.

(** Running a list of work items applies every item's callback, one after
    the other: an item that raises does not stop the items after it. *)
Lemma run_tasks_invokes_all (ts : list (Task W)) (w : W) :
  fst (run_tasks ts w) = fold_left (fun w t => invoke t w) ts w.
Proof.
  revert w. induction ts as [|t ts IH]; intros w; [reflexivity|].
  cbn [run_tasks fold_left].
  destruct (run_task t w) as [w1 e1] eqn:E1.
  specialize (IH w1). destruct (run_tasks ts w1) as [w2 e2].
  cbn [fst] in *. rewrite IH. f_equal.
  unfold run_task in E1. unfold invoke.
  destruct t as [cb ev|cb ev]; destruct (call cb ev w) as [[|] w'];
    injection E1 as <- _; reflexivity.
Qed.

Lemma run_tasks_errors (ts : list (Task W)) (w : W) :
  (snd (run_tasks ts w) <= length ts)%nat.
Proof.
  revert w. induction ts as [|t ts IH]; intros w; cbn [run_tasks length]; [cbn; lia|].
  destruct (run_task t w) as [w1 e1] eqn:E1.
  specialize (IH w1). destruct (run_tasks ts w1) as [w2 e2].
  cbn [snd] in *.
  assert (e1 <= 1)%nat.
  { unfold run_task in E1.
    destruct t as [cb ev|cb ev]; destruct (call cb ev w) as [[|] w'];
      injection E1 as _ <-; lia. }
  lia.
Qed.

Variable view : W -> list EventData.

Lemma deliveries_view (ts : list (Task W)) (evs : list EventData) :
  Deliveries view ts evs ->
  forall w, view (fold_left (fun w t => invoke t w) ts w) = view w ++ evs.
Proof.
  induction 1 as [|t ts evs Hk _ IH|t ts evs Hr _ IH]; intros w; cbn [fold_left].
  - rewrite app_nil_r. reflexivity.
  - rewrite IH. f_equal. destruct t; apply Hk.
  - rewrite IH. destruct t as [cb ev|cb ev]; cbn [invoke task_event task_callback] in *;
      rewrite (proj2 (Hr ev w)), <- app_assoc; reflexivity.
Qed.

Lemma deliveries_app (ts1 ts2 : list (Task W)) (e1 e2 : list EventData) :
  Deliveries view ts1 e1 -> Deliveries view ts2 e2 ->
  Deliveries view (ts1 ++ ts2) (e1 ++ e2).
Proof.
  induction 1 as [|t ts evs Hk _ IH|t ts evs Hr _ IH]; intros H2; cbn [app].
  - exact H2.
  - apply Deliveries_other; auto.
  - apply Deliveries_record; auto.
Qed.

(** Whatever order the pool takes the items in, the recording subscriber's
    items carry the same events, rearranged. *)
Lemma deliveries_permutation (ts ts' : list (Task W)) :
  Permutation ts ts' ->
  forall evs, Deliveries view ts evs ->
  exists evs', Deliveries view ts' evs' /\ Permutation evs evs'.
Proof.
  induction 1 as [|x l l' _ IH|x y l|l l' l'' _ IH1 _ IH2]; intros evs HD.
  - exists evs. split; [exact HD|apply Permutation_refl].
  - inversion HD as [|t ts0 evs0 Hk HD'|t ts0 evs0 Hr HD']; subst.
    + destruct (IH _ HD') as (evs' & HD'' & HP).
      exists evs'. split; [constructor; assumption|exact HP].
    + destruct (IH _ HD') as (evs' & HD'' & HP).
      exists (task_event x :: evs'). split; [constructor; assumption|].
      apply perm_skip. exact HP.
  - inversion HD as [|t ts0 evs0 Hk HD'|t ts0 evs0 Hr HD']; subst;
      inversion HD' as [|t1 ts1 evs1 Hk1 HD1|t1 ts1 evs1 Hr1 HD1]; subst.
    + exists evs. split; [repeat constructor; assumption|apply Permutation_refl].
    + exists (task_event x :: evs1). split; [|apply Permutation_refl].
      apply Deliveries_record; [assumption|]. apply Deliveries_other; assumption.
    + exists (task_event y :: evs0). split; [|apply Permutation_refl].
      apply Deliveries_other; [assumption|]. apply Deliveries_record; assumption.
    + exists (task_event x :: task_event y :: evs1). split; [|apply perm_swap].
      apply Deliveries_record; [assumption|]. apply Deliveries_record; assumption.
  - destruct (IH1 _ HD) as (evs1 & HD1 & HP1).
    destruct (IH2 _ HD1) as (evs2 & HD2 & HP2).
    exists evs2. split; [exact HD2|]. eapply Permutation_trans; eassumption.
Qed.

(** *** An admitted [publish] *)

Lemma publish_admitted (ev : EventData) (now : R) (b : State W) :
  running b = true -> filters b = [] ->
  (0 <= rate_counter b < rate_limit b)%Z ->
  executor (publish ev now b) = executor b ++ tasks_for ev b
  /\ event_history (publish ev now b) =
     Py.deque_append (max_history b) (event_history b) ev
  /\ (0 <= rate_counter (publish ev now b) <= rate_counter b + 1)%Z.
Proof.
  intros Hr Hf Hc. unfold publish. rewrite Hr. cbn [negb].
  unfold check_rate_limit.
  destruct (Py.leb 1 (now - rate_window_start b)).
  - destruct (Z.leb_spec (rate_limit b) 0); [lia|].
    cbn [negb filters]. rewrite Hf. cbn. repeat split; lia.
  - destruct (Z.leb_spec (rate_limit b) (rate_counter b)); [lia|].
    cbn [negb filters]. rewrite Hf. cbn. repeat split; lia.
Qed.

(** A run of admitted calls queues, for each event in turn, the work items
    of its subscribers. *)
Lemma publish_all_admitted (calls : list (EventData * R)) (b : State W) :
  running b = true -> filters b = [] ->
  (0 <= rate_counter b)%Z ->
  (rate_counter b + Z.of_nat (length calls) <= rate_limit b)%Z ->
  executor (publish_all calls b) =
  executor b ++ flat_map (fun c => tasks_for (fst c) b) calls.
Proof.
  revert b. induction calls as [|c calls IH]; intros b Hr Hf H0 Hl.
  - cbn. rewrite app_nil_r. reflexivity.
  - unfold publish_all. cbn [fold_left flat_map].
    fold (publish_all calls (publish (fst c) (snd c) b)).
    cbn [length] in Hl.
    destruct (publish_admitted (fst c) (snd c) b Hr Hf) as (He & _ & Hc); [lia|].
    destruct (BusFacts.publish_preserves (fst c) (snd c) b)
      as (Hs & Has & Hf' & Hr' & Hl' & _).
    rewrite IH; [|congruence|congruence|lia|rewrite Hl'; lia].
    rewrite He, <- app_assoc. f_equal. f_equal.
    apply flat_map_ext. intros c'. unfold tasks_for. rewrite Hs, Has. reflexivity.
Qed.

Lemma flat_map_deliveries (calls : list (EventData * R)) (b : State W) :
  (forall c, In c calls -> Deliveries view (tasks_for (fst c) b) [fst c]) ->
  Deliveries view (flat_map (fun c => tasks_for (fst c) b) calls) (map fst calls).
Proof.
  induction calls as [|c calls IH]; intros H; cbn [flat_map map].
  - constructor.
  - change (fst c :: map fst calls) with ([fst c] ++ map fst calls).
    apply deliveries_app.
    + apply H. left. reflexivity.
    + apply IH. intros c' Hin. apply H. right. exact Hin.
Qed.

(** *** From the registry to the recording subscriber *)

(** An admitted [publish], with filters that let the event through. *)
Lemma publish_passes (ev : EventData) (now : R) (b : State W) :
  running b = true ->
  apply_filters (Dict.values (filters b)) ev = true ->
  (0 <= rate_counter b < rate_limit b)%Z ->
  executor (publish ev now b) = executor b ++ tasks_for ev b
  /\ event_history (publish ev now b) =
     Py.deque_append (max_history b) (event_history b) ev
  /\ (0 <= rate_counter (publish ev now b) <= rate_counter b + 1)%Z.
Proof.
  intros Hr Hf Hc. unfold publish. rewrite Hr. cbn [negb].
  unfold check_rate_limit.
  destruct (Py.leb 1 (now - rate_window_start b)).
  - destruct (Z.leb_spec (rate_limit b) 0); [lia|].
    cbn [negb filters]. rewrite Hf. cbn. repeat split; lia.
  - destruct (Z.leb_spec (rate_limit b) (rate_counter b)); [lia|].
    cbn [negb filters]. rewrite Hf. cbn. repeat split; lia.
Qed.

Lemma publish_all_passes (calls : list (EventData * R)) (b : State W) :
  running b = true ->
  (forall c, In c calls -> apply_filters (Dict.values (filters b)) (fst c) = true) ->
  (0 <= rate_counter b)%Z ->
  (rate_counter b + Z.of_nat (length calls) <= rate_limit b)%Z ->
  executor (publish_all calls b) =
    executor b ++ flat_map (fun c => tasks_for (fst c) b) calls
  /\ event_history (publish_all calls b) =
     fold_left (fun h e => Py.deque_append (max_history b) h e) (map fst calls)
       (event_history b)
  /\ subscribers (publish_all calls b) = subscribers b
  /\ async_subscribers (publish_all calls b) = async_subscribers b.
Proof.
  revert b. induction calls as [|c calls IH]; intros b Hr Hf H0 Hl.
  - cbn. rewrite app_nil_r. auto.
  - unfold publish_all. cbn [fold_left flat_map map].
    fold (publish_all calls (publish (fst c) (snd c) b)).
    cbn [length] in Hl.
    destruct (publish_passes (fst c) (snd c) b Hr) as (He & Hh & Hc);
      [apply Hf; left; reflexivity|lia|].
    destruct (BusFacts.publish_preserves (fst c) (snd c) b)
      as (Hs & Has & Hf' & Hr' & Hl' & Hm).
    destruct (IH (publish (fst c) (snd c) b)) as (IH1 & IH2 & IH3 & IH4).
    + congruence.
    + intros c' Hin. rewrite Hf'. apply Hf. right. exact Hin.
    + lia.
    + rewrite Hl'. lia.
    + rewrite IH1, IH2, IH3, IH4, He, Hh, Hm, Hs, Has, <- app_assoc.
      split; [|auto]. f_equal. f_equal.
      apply flat_map_ext. intros c'. unfold tasks_for. rewrite Hs, Has. reflexivity.
Qed.

(** The work items queued for an event: one per callback registered for
    its type, each carrying the event. *)
Lemma tasks_for_callbacks (ev : EventData) (b : State W) :
  map task_callback (tasks_for ev b) = callbacks_for (event_type ev) b
  /\ Forall (fun t => task_event t = ev) (tasks_for ev b).
Proof.
  unfold tasks_for, callbacks_for, inner_of. cbv zeta. split.
  - rewrite map_app, !map_map. cbn [task_callback]. rewrite !map_id. reflexivity.
  - apply Forall_app. split; apply Forall_forall; intros t Ht;
      apply in_map_iff in Ht; destruct Ht as (cb & <- & _); reflexivity.
Qed.

Lemma invoke_callbacks (ev : EventData) (b : State W) (w : W) :
  fold_left (fun w t => invoke t w) (tasks_for ev b) w =
  fold_left (fun w cb => snd (call cb ev w)) (callbacks_for (event_type ev) b) w.
Proof.
  unfold tasks_for, callbacks_for, inner_of. cbv zeta.
  rewrite !fold_left_app.
  assert (Hs : forall (l : list (Callback W)) (w0 : W),
             fold_left (fun w t => invoke t w) (map (fun cb => SafeCallback cb ev) l) w0
             = fold_left (fun w cb => snd (call cb ev w)) l w0).
  { induction l as [|cb l IH]; intros w0; [reflexivity|]. cbn [map fold_left invoke].
    apply IH. }
  assert (Ha : forall (l : list (Callback W)) (w0 : W),
             fold_left (fun w t => invoke t w) (map (fun cb => SafeAsyncCallback cb ev) l) w0
             = fold_left (fun w cb => snd (call cb ev w)) l w0).
  { induction l as [|cb l IH]; intros w0; [reflexivity|]. cbn [map fold_left invoke].
    apply IH. }
  rewrite Hs, Ha. reflexivity.
Qed.

Lemma deliveries_clear (ts : list (Task W)) :
  Forall (keeps_clear view) (map task_callback ts) -> Deliveries view ts [].
Proof.
  induction ts as [|t ts IH]; cbn [map]; intros H; [constructor|].
  inversion H as [|? ? Ht Hts]; subst. apply Deliveries_other; auto.
Qed.

(** Among the work items of one event, queued for callbacks of which one
    records and the others keep clear of the record, the recording one
    carries the event. *)
Lemma deliveries_single (ts : list (Task W)) (ev : EventData)
  (pre post : list (Callback W)) (rec : Callback W) :
  map task_callback ts = pre ++ rec :: post ->
  Forall (fun t => task_event t = ev) ts ->
  records view rec -> Forall (keeps_clear view) (pre ++ post) ->
  Deliveries view ts [ev].
Proof.
  revert ts. induction pre as [|cb pre IH]; intros ts Hm He Hrec Hclear;
    destruct ts as [|t ts]; cbn [map app] in Hm; try discriminate Hm;
    injection Hm as Ht Hm; inversion He as [|? ? Hev Hevs]; subst.
  - apply (@Deliveries_record _ view t ts []); [exact Hrec|].
    apply deliveries_clear. exact Hclear.
  - cbn [app] in Hclear. inversion Hclear as [|? ? Hc Hcs]; subst.
    apply Deliveries_other; [exact Hc|]. apply IH; assumption.
Qed.

Lemma fan_out (ev : EventData) (b : State W)
  (pre post : list (Callback W)) (rec : Callback W) :
  callbacks_for (event_type ev) b = pre ++ rec :: post ->
  records view rec -> Forall (keeps_clear view) (pre ++ post) ->
  Deliveries view (tasks_for ev b) [ev].
Proof.
  intros Hc Hrec Hclear. destruct (tasks_for_callbacks ev b) as [Hm He].
  apply (deliveries_single _ ev pre post rec); [congruence|exact He|exact Hrec|exact Hclear].
Qed.

(** After a run of admitted calls the pool delivers to the recording
    subscriber, beside what the queue already held for it, exactly the
    published events. *)
Lemma recorder_receives (et : EventType) (calls : list (EventData * R)) (b : State W)
  (order : list (Task W)) (w : W)
  (pre post : list (Callback W)) (rec : Callback W) (pending : list EventData) :
  running b = true ->
  (forall c, In c calls ->
             event_type (fst c) = et
             /\ apply_filters (Dict.values (filters b)) (fst c) = true) ->
  (0 <= rate_counter b)%Z ->
  (rate_counter b + Z.of_nat (length calls) <= rate_limit b)%Z ->
  callbacks_for et b = pre ++ rec :: post ->
  records view rec -> Forall (keeps_clear view) (pre ++ post) ->
  Deliveries view (executor b) pending ->
  Permutation (executor (publish_all calls b)) order ->
  Permutation (view w ++ pending ++ map fst calls)
    (view (snd (drain order (publish_all calls b) w)))
  /\ (order = executor (publish_all calls b) ->
      view (snd (drain order (publish_all calls b) w)) =
      view w ++ pending ++ map fst calls).
Proof.
  intros Hr Hc H0 Hl Hreg Hrec Hclear Hpend HP.
  destruct (publish_all_passes calls b Hr) as (Hq & _); [apply Hc|exact H0|exact Hl|].
  assert (HD : Deliveries view (executor (publish_all calls b)) (pending ++ map fst calls)).
  { rewrite Hq. apply deliveries_app; [exact Hpend|].
    apply flat_map_deliveries. intros c Hin. destruct (Hc c Hin) as [Het _].
    apply (fan_out (fst c) b pre post rec); [rewrite Het; exact Hreg|exact Hrec|exact Hclear]. }
  unfold drain. cbn [snd]. rewrite run_tasks_invokes_all. split.
  - destruct (deliveries_permutation _ _ HP _ HD) as (evs' & HD' & HP').
    rewrite (deliveries_view _ _ HD'). apply Permutation_app_head. exact HP'.
  - intros ->. apply deliveries_view. exact HD.
Qed.

End Isolation.


End FanOut.

(** ** The bus properties at sample inputs *)

Module BusExamples.
Import Events Bus BusSamples.

Lemma recorder_records : records (fun w : list EventData => w) recorder.
Proof. intros e w. split; reflexivity. Qed.

Lemma raiser_keeps_clear :
  Forall (keeps_clear (fun w : list EventData => w)) ([always_raises] ++ []).
Proof. repeat constructor. Qed.



(** On a bus limited to two events per second, the third call inside the
    window is dropped: the history holds the first two events and no work
    item is queued for the third. *)
Lemma rate_limit_drops_witness :
  event_history (publish_all three_calls tight_bus)
    = [step_event 0.1; step_event 0.2]
  /\ executor (publish_all three_calls tight_bus)
     = executor (publish_all (firstn 2 three_calls) tight_bus).
Proof.
  destruct (BusFacts.rate_limit_drops (list EventData) tight_bus
              (firstn 2 three_calls) (skipn 2 three_calls))
    as (_ & _ & Hh & He).
  - reflexivity.
  - intros c Hin. cbn in Hin.
    destruct Hin as [<-|[<-|[<-|[]]]]; cbn; lra.
  - cbn. lia.
  - change (firstn 2 three_calls ++ skipn 2 three_calls) with three_calls in Hh, He.
    split; [|exact He].
    rewrite Hh. unfold publish_all. cbn [firstn three_calls fold_left fst snd].
    set (b1 := publish (step_event 0.1) 0.1 tight_bus).
    destruct (FanOut.publish_admitted (step_event 0.1) 0.1 tight_bus)
      as (_ & Hh1 & Hc1); [reflexivity|reflexivity|cbn; lia|].
    destruct (BusFacts.publish_preserves (step_event 0.1) 0.1 tight_bus)
      as (_ & _ & Hf1 & Hr1 & Hl1 & Hm1).
    fold b1 in Hh1, Hc1, Hf1, Hr1, Hl1, Hm1.
    destruct (FanOut.publish_admitted (step_event 0.2) 0.2 b1)
      as (_ & Hh2 & _).
    + rewrite Hr1. reflexivity.
    + rewrite Hf1. reflexivity.
    + rewrite Hl1. cbn in Hc1 |- *. lia.
    + rewrite Hh2, Hh1, Hm1. reflexivity.
Defined.

End BusExamples.

(** ** Decision tracker *)

Module TrackerFacts.
Import Tracker.

(** *** Decision ids are told apart by their counter *)

Lemma string_of_uint_digits (d : Decimal.uint) :
  all_digits (NilEmpty.string_of_uint d).
Proof.
  induction d; cbn [NilEmpty.string_of_uint all_digits]; auto;
    (split; [unfold is_digit; cbn; tauto | assumption]).
Qed.

Lemma underscore_not_digit : ~ is_digit "_"%char.
Proof. unfold is_digit. cbn. intros H. repeat destruct H as [H|H]; try discriminate H; exact H. Qed.

(** Two digit strings followed by an underscore and anything: equal wholes
    have equal digit strings. *)
Lemma digits_prefix_unique (s1 s2 r1 r2 : string) :
  all_digits s1 -> all_digits s2 ->
  (s1 ++ String "_" r1)%string = (s2 ++ String "_" r2)%string -> s1 = s2.
Proof.
  revert s2. induction s1 as [|c1 s1 IH]; intros [|c2 s2] H1 H2 E; cbn in *.
  - reflexivity.
  - injection E as Ec _. subst c2. destruct H2 as [H2 _].
    exfalso. exact (underscore_not_digit H2).
  - injection E as Ec _. subst c1. destruct H1 as [H1 _].
    exfalso. exact (underscore_not_digit H1).
  - injection E as Ec E. subst c2. f_equal.
    apply IH; tauto.
Qed.

Lemma str_nat_inj (n m : nat) : str_nat n = str_nat m -> n = m.
Proof.
  unfold str_nat. intros E.
  apply DecimalNat.Unsigned.to_uint_inj.
  pose proof (NilEmpty.usu (Nat.to_uint n)) as Hn.
  pose proof (NilEmpty.usu (Nat.to_uint m)) as Hm.
  rewrite E in Hn. congruence.
Qed.

Lemma make_id_inj (n m : nat) (t u : R) : make_id n t = make_id m u -> n = m.
Proof.
  unfold make_id. intros E. cbn [String.append] in E.
  repeat (injection E as E).
  apply str_nat_inj.
  apply digits_prefix_unique in E; [exact E| |]; apply string_of_uint_digits.
Qed.

(** *** What a run of calls does *)

Lemma log_decision_well_formed (c : Call) (tr : State) :
  well_formed c ->
  log_decision c tr =
  (Some (decision_id (record_of (S (decision_count tr)) c)),
   mkTracker (max_decisions tr)
     (Py.deque_append (max_decisions tr) (decisions tr)
        (record_of (S (decision_count tr)) c))
     (S (decision_count tr))).
Proof.
  unfold well_formed, log_decision, record_of. intros H.
  destruct (vf_preds (c_policy_output c)) as [[|v vs]|]; [congruence| |]; reflexivity.
Qed.

Lemma log_all_well_formed (calls : list Call) (tr : State) :
  Forall well_formed calls ->
  (length (decisions tr) <= max_decisions tr)%nat ->
  log_all calls tr =
  (map (fun d => Some (decision_id d)) (records_from (decision_count tr) calls),
   mkTracker (max_decisions tr)
     (Py.last_n (max_decisions tr)
        (decisions tr ++ records_from (decision_count tr) calls))
     (decision_count tr + length calls)).
Proof.
  intros Hwf. revert tr.
  induction Hwf as [|c rest Hc _ IH]; intros tr Hlen; cbn [log_all records_from map length].
  - rewrite app_nil_r, Nat.add_0_r. unfold Py.last_n.
    replace (length (decisions tr) - max_decisions tr)%nat with 0%nat by lia.
    destruct tr; reflexivity.
  - rewrite (log_decision_well_formed c tr Hc).
    rewrite IH; cbn [max_decisions decisions decision_count].
    + rewrite PyFacts.deque_append_last_n by exact Hlen.
      rewrite PyFacts.last_n_app, <- app_assoc. cbn [app].
      f_equal. f_equal. lia.
    + rewrite PyFacts.deque_append_last_n by exact Hlen.
      rewrite PyFacts.last_n_length. lia.
Qed.

Lemma records_from_length (n : nat) (calls : list Call) :
  length (records_from n calls) = length calls.
Proof. revert n. induction calls; intros n; cbn; auto. Qed.

Lemma records_from_app (n : nat) (a b : list Call) :
  records_from n (a ++ b) = records_from n a ++ records_from (n + length a) b.
Proof.
  revert n. induction a as [|c a IH]; intros n; cbn [app records_from length].
  - rewrite Nat.add_0_r. reflexivity.
  - rewrite IH. replace (n + S (length a))%nat with (S n + length a)%nat by lia.
    reflexivity.
Qed.

(** Every record created after [n] earlier calls carries a counter in
    [(n, n + length calls]] in its id. *)
Lemma in_records_from (n : nat) (calls : list Call) (d : DecisionRecord) :
  In d (records_from n calls) ->
  exists k t, (n < k <= n + length calls)%nat /\ decision_id d = make_id k t.
Proof.
  revert n. induction calls as [|c rest IH]; intros n; cbn [records_from In length].
  - intros [].
  - intros [<-|H].
    + exists (S n), (c_time_id c). split; [lia|reflexivity].
    + destruct (IH _ H) as (k & t & Hk & E). exists k, t. split; [lia|exact E].
Qed.

Lemma ids_distinct (n : nat) (calls : list Call) :
  NoDup (map decision_id (records_from n calls)).
Proof.
  revert n. induction calls as [|c rest IH]; intros n; cbn [records_from map].
  - constructor.
  - constructor; [|apply IH].
    intros Hin. apply in_map_iff in Hin. destruct Hin as (d & E & Hd).
    destruct (in_records_from _ _ _ Hd) as (k & t & Hk & E').
    rewrite E' in E. cbn [record_of decision_id] in E.
    apply make_id_inj in E. lia.
Qed.

Lemma find_absent (id : string) (l : list DecisionRecord) :
  (forall d, In d l -> decision_id d <> id) ->
  find (fun d => String.eqb (decision_id d) id) l = None.
Proof.
  induction l as [|d l IH]; intros H; cbn [find]; [reflexivity|].
  destruct (String.eqb_spec (decision_id d) id) as [E|_].
  - exfalso. apply (H d); [left; reflexivity|exact E].
  - apply IH. intros d' Hd'. apply H. right. exact Hd'.
Qed.

Lemma find_present (l : list DecisionRecord) (d : DecisionRecord) :
  NoDup (map decision_id l) -> In d l ->
  find (fun d' => String.eqb (decision_id d') (decision_id d)) l = Some d.
Proof.
  induction l as [|x l IH]; intros Hnd Hin; [destruct Hin|].
  cbn [find map] in *. inversion Hnd as [|? ? Hx Hnd']; subst.
  destruct Hin as [<-|Hin].
  - rewrite String.eqb_refl. reflexivity.
  - destruct (String.eqb_spec (decision_id x) (decision_id d)) as [E|_].
    + exfalso. apply Hx. rewrite E. apply in_map. exact Hin.
    + apply IH; assumption.
Qed.

(** The state after [C + K] well-formed calls on a fresh tracker. *)
Lemma log_all_fresh (C K : nat) (calls : list Call) :
  length calls = (C + K)%nat -> Forall well_formed calls ->
  log_all calls (init C) =
  (map (fun d => Some (decision_id d)) (records_from 0 calls),
   mkTracker C (skipn K (records_from 0 calls)) (C + K)).
Proof.
  intros Hlen Hwf.
  rewrite (log_all_well_formed calls (init C) Hwf) by (cbn; lia).
  cbn [init max_decisions decisions decision_count app].
  unfold Py.last_n. rewrite records_from_length, Hlen.
  replace (C + K - C)%nat with K by lia. reflexivity.
Qed.

End TrackerFacts.

(** ** Safety analyzer *)

Module SafetyFacts.
Import Events Safety.

(** *** Root causes *)

Lemma identify_root_causes_nonempty (v : SafetyViolation)
  (decisions : list Tracker.DecisionRecord) (causes : list string) :
  identify_root_causes v decisions = Some causes -> causes <> [].
Proof.
  unfold identify_root_causes.
  destruct decisions as [|d ds]; [intros [= <-]; discriminate|].
  destruct (erratic_control _) as [erratic|]; [|discriminate].
  cbv zeta.
  match goal with
  | |- match ?rc with [] => _ | _ :: _ => _ end = _ -> _ =>
      destruct rc as [|c cs] eqn:E
  end; intros [= <-]; discriminate.
Qed.

Lemma identify_root_causes_default (v : SafetyViolation)
  (decisions : list Tracker.DecisionRecord) :
  decisions <> [] ->
  erratic_control (Py.last_n 10 decisions) = Some false ->
  low_confidence (Py.last_n 10 decisions) = false ->
  delayed_response decisions = false ->
  conflicting_objectives (Py.last_n 10 decisions) = false ->
  identify_root_causes v decisions =
  Some ["Complex multi-factor scenario requiring further analysis"%string].
Proof.
  intros Hne He Hl Hd Hc. unfold identify_root_causes.
  destruct decisions as [|d ds]; [congruence|].
  rewrite He. cbv zeta. rewrite Hl, Hd, Hc. reflexivity.
Qed.

(** Arrays of one common length always subtract. *)
Lemma action_changes_same_shape (n : nat) (prev : list R) (actions : list (list R)) :
  length prev = n -> Forall (fun a => length a = n) actions ->
  action_changes prev actions <> None.
Proof.
  intros Hp H. revert prev Hp.
  induction H as [|a rest Ha _ IH]; intros prev Hp; cbn [action_changes]; [discriminate|].
  unfold array_sub. rewrite Ha, Hp, Nat.eqb_refl.
  specialize (IH a Ha). destruct (action_changes a rest); [discriminate|congruence].
Qed.

Lemma erratic_control_same_shape (n : nat) (recent : list Tracker.DecisionRecord) :
  Forall (fun d => length (Tracker.action d) = n) recent ->
  erratic_control recent <> None.
Proof.
  intros H. unfold erratic_control.
  destruct (3 <? length recent)%nat; [|discriminate].
  destruct recent as [|d ds]; cbn [map]; [discriminate|].
  inversion H as [|? ? Hd Hds]; subst.
  pose proof (action_changes_same_shape _ (Tracker.action d) (map Tracker.action ds)
                eq_refl) as Hc.
  destruct (action_changes (Tracker.action d) (map Tracker.action ds)) as [[|c cs]|];
    try discriminate.
  exfalso. apply Hc; [|reflexivity].
  apply Forall_map. exact Hds.
Qed.

Lemma identify_root_causes_returns (n : nat) (v : SafetyViolation)
  (decisions : list Tracker.DecisionRecord) :
  Forall (fun d => length (Tracker.action d) = n) decisions ->
  identify_root_causes v decisions <> None.
Proof.
  intros H. unfold identify_root_causes.
  destruct decisions as [|d ds]; [discriminate|].
  assert (Hr : Forall (fun d => length (Tracker.action d) = n) (Py.last_n 10 (d :: ds))).
  { unfold Py.last_n. apply Forall_forall. intros x Hx.
    apply (proj1 (Forall_forall _ _) H).
    rewrite <- (firstn_skipn (length (d :: ds) - 10) (d :: ds)).
    apply in_or_app. right. exact Hx. }
  pose proof (erratic_control_same_shape n _ Hr) as He.
  destruct (erratic_control _) as [e|]; [|congruence].
  cbv zeta.
  match goal with
  | |- match ?rc with [] => _ | _ :: _ => _ end <> _ => destruct rc
  end; discriminate.
Qed.

(** With no decision in the tracker the window is empty. *)
Lemma get_relevant_decisions_empty (v : SafetyViolation) (tracker : Tracker.State) :
  Tracker.decisions tracker = [] -> get_relevant_decisions v tracker = [].
Proof.
  intros H. unfold get_relevant_decisions, Tracker.get_decision_history.
  rewrite H. reflexivity.
Qed.

Lemma analyze_violation_causes (v v' : SafetyViolation) (tracker : Tracker.State) :
  analyze_violation v tracker = Some v' ->
  exists causes, root_causes v' = Some causes /\ causes <> [].
Proof.
  unfold analyze_violation.
  destruct (identify_root_causes v (get_relevant_decisions v tracker)) as [causes|] eqn:E;
    [|discriminate].
  intros [= <-]. exists causes. split; [reflexivity|].
  eapply identify_root_causes_nonempty. exact E.
Qed.

Lemma analyze_violation_no_history (v : SafetyViolation) (tracker : Tracker.State) :
  Tracker.decisions tracker = [] ->
  exists v',
    analyze_violation v tracker = Some v'
    /\ root_causes v' = Some ["Insufficient decision history for analysis"%string].
Proof.
  intros H. unfold analyze_violation.
  rewrite (get_relevant_decisions_empty v tracker H).
  cbn [identify_root_causes]. eexists. split; reflexivity.
Qed.

Lemma handler_stores_causes (ev : EventData) (tracker : Tracker.State) (an : State)
  (v : SafetyViolation) :
  In v (violations (handle_safety_violation_event ev tracker an)) ->
  In v (violations an) \/ exists causes, root_causes v = Some causes /\ causes <> [].
Proof.
  unfold handle_safety_violation_event.
  destruct (violation_of_event ev an) as [viol|]; [|auto].
  destruct (analyze_violation viol tracker) as [av|] eqn:E; [|auto].
  cbn [violations]. unfold Py.deque_append. cbv zeta.
  intros Hin.
  assert (Hin' : In v (violations an ++ [av])).
  { destruct (_ <? _)%nat; [|exact Hin].
    destruct (violations an ++ [av]); [destruct Hin|right; exact Hin]. }
  apply in_app_or in Hin'. destruct Hin' as [Hin'|[<-|[]]]; [left; exact Hin'|].
  right. eapply analyze_violation_causes. exact E.
Qed.

Lemma handler_no_history (ev : EventData) (tracker : Tracker.State) (an : State)
  (viol : SafetyViolation) :
  Tracker.decisions tracker = [] ->
  violation_of_event ev an = Some viol ->
  exists v',
    handle_safety_violation_event ev tracker an =
      mkAnalyzer (analysis_window_hours an)
        (Py.deque_append 1000 (violations an) v') (S (violation_count an))
    /\ root_causes v' = Some ["Insufficient decision history for analysis"%string].
Proof.
  intros Ht Hv. unfold handle_safety_violation_event. rewrite Hv.
  destruct (analyze_violation_no_history viol tracker Ht) as (v' & E & Hc).
  rewrite E. exists v'. split; [reflexivity|exact Hc].
Qed.

Lemma analyze_violation_root_causes (v v' : SafetyViolation) (tracker : Tracker.State) :
  analyze_violation v tracker = Some v' ->
  root_causes v' = identify_root_causes v (get_relevant_decisions v tracker).
Proof.
  unfold analyze_violation. cbv zeta.
  destruct (identify_root_causes v (get_relevant_decisions v tracker)) as [causes|];
    [|discriminate].
  intros E. injection E as <-. reflexivity.
Qed.

Lemma analyze_violation_returns (v : SafetyViolation) (tracker : Tracker.State)
  (causes : list string) :
  identify_root_causes v (get_relevant_decisions v tracker) = Some causes ->
  exists v', analyze_violation v tracker = Some v' /\ root_causes v' = Some causes.
Proof.
  intros E. unfold analyze_violation. cbv zeta. rewrite E.
  eexists. split; reflexivity.
Qed.

(** With decisions in the window the insufficient-history finding is not
    among the causes. *)
Lemma identify_not_insufficient (v : SafetyViolation)
  (decisions : list Tracker.DecisionRecord) (causes : list string) :
  decisions <> [] ->
  identify_root_causes v decisions = Some causes ->
  ~ In "Insufficient decision history for analysis"%string causes.
Proof.
  intros Hne. unfold identify_root_causes.
  destruct decisions as [|d ds]; [congruence|]. cbv zeta.
  destruct (erratic_control (Py.last_n 10 (d :: ds))) as [[|]|]; [| |discriminate];
    destruct (low_confidence (Py.last_n 10 (d :: ds)));
    destruct (delayed_response (d :: ds));
    destruct (conflicting_objectives (Py.last_n 10 (d :: ds)));
    cbn [app]; intros E; injection E as <-; intros Hin; cbn [In] in Hin;
    repeat (destruct Hin as [Hin|Hin]; [discriminate Hin|]); exact Hin.
Qed.

Lemma handler_stores_analysis (ev : EventData) (tracker : Tracker.State) (an : State)
  (viol : SafetyViolation) (causes : list string) :
  violation_of_event ev an = Some viol ->
  identify_root_causes viol (get_relevant_decisions viol tracker) = Some causes ->
  exists v',
    handle_safety_violation_event ev tracker an =
      mkAnalyzer (analysis_window_hours an)
        (Py.deque_append 1000 (violations an) v') (S (violation_count an))
    /\ root_causes v' = Some causes.
Proof.
  intros Hv Hc. unfold handle_safety_violation_event. rewrite Hv.
  destruct (analyze_violation_returns viol tracker causes Hc) as (v' & E & Hr).
  rewrite E. exists v'. split; [reflexivity|exact Hr].
Qed.

(** C8: the root causes attached by the analysis are never empty.
    [_identify_root_causes] returns a non-empty list whenever it returns,
    and it returns whenever the action arrays in the window have one common
    shape; with no decision it returns the insufficient-history finding,
    with decisions and no heuristic firing it returns the generic
    multi-factor finding.  [analyze_violation] attaches exactly the list
    [_identify_root_causes] returns for the decisions of the lookback
    window: the insufficient-history finding when that window holds no
    decision (it then returns, without raising), the generic finding when
    it holds decisions and no heuristic fires, and never the
    insufficient-history finding when it holds decisions.  The event
    handler stores the violation so analysed, so every violation it stores
    has non-empty root causes. *)
Theorem root_causes_never_empty :
  (forall v decisions causes,
      identify_root_causes v decisions = Some causes -> causes <> [])
  /\ (forall n v decisions,
        Forall (fun d => length (Tracker.action d) = n) decisions ->
        identify_root_causes v decisions <> None)
  /\ (forall v,
        identify_root_causes v [] =
        Some ["Insufficient decision history for analysis"%string])
  /\ (forall v decisions,
        decisions <> [] ->
        erratic_control (Py.last_n 10 decisions) = Some false ->
        low_confidence (Py.last_n 10 decisions) = false ->
        delayed_response decisions = false ->
        conflicting_objectives (Py.last_n 10 decisions) = false ->
        identify_root_causes v decisions =
        Some ["Complex multi-factor scenario requiring further analysis"%string])
  /\ (forall v tracker v',
        analyze_violation v tracker = Some v' ->
        exists causes, root_causes v' = Some causes /\ causes <> [])
  /\ (forall v tracker,
        Tracker.decisions tracker = [] ->
        exists v',
          analyze_violation v tracker = Some v'
          /\ root_causes v' = Some ["Insufficient decision history for analysis"%string])
  /\ (forall ev tracker an v,
        In v (violations (handle_safety_violation_event ev tracker an)) ->
        In v (violations an)
        \/ exists causes, root_causes v = Some causes /\ causes <> [])
  /\ (forall ev tracker an viol,
        Tracker.decisions tracker = [] ->
        violation_of_event ev an = Some viol ->
        exists v',
          handle_safety_violation_event ev tracker an =
            mkAnalyzer (analysis_window_hours an)
              (Py.deque_append 1000 (violations an) v') (S (violation_count an))
          /\ root_causes v' = Some ["Insufficient decision history for analysis"%string])
  /\ (forall v tracker v',
        analyze_violation v tracker = Some v' ->
        root_causes v' = identify_root_causes v (get_relevant_decisions v tracker))
  /\ (forall v tracker,
        get_relevant_decisions v tracker = [] ->
        exists v',
          analyze_violation v tracker = Some v'
          /\ root_causes v' = Some ["Insufficient decision history for analysis"%string])
  /\ (forall v tracker,
        get_relevant_decisions v tracker <> [] ->
        erratic_control (Py.last_n 10 (get_relevant_decisions v tracker)) = Some false ->
        low_confidence (Py.last_n 10 (get_relevant_decisions v tracker)) = false ->
        delayed_response (get_relevant_decisions v tracker) = false ->
        conflicting_objectives (Py.last_n 10 (get_relevant_decisions v tracker)) = false ->
        exists v',
          analyze_violation v tracker = Some v'
          /\ root_causes v' =
             Some ["Complex multi-factor scenario requiring further analysis"%string])
  /\ (forall v tracker v' causes,
        get_relevant_decisions v tracker <> [] ->
        analyze_violation v tracker = Some v' ->
        root_causes v' = Some causes ->
        ~ In "Insufficient decision history for analysis"%string causes)
  /\ (forall ev tracker an viol causes,
        violation_of_event ev an = Some viol ->
        identify_root_causes viol (get_relevant_decisions viol tracker) = Some causes ->
        exists v',
          handle_safety_violation_event ev tracker an =
            mkAnalyzer (analysis_window_hours an)
              (Py.deque_append 1000 (violations an) v') (S (violation_count an))
          /\ root_causes v' = Some causes).
Proof.
  split; [exact identify_root_causes_nonempty|].
  split; [exact identify_root_causes_returns|].
  split; [reflexivity|].
  split; [exact identify_root_causes_default|].
  split; [intros v tracker v'; apply analyze_violation_causes|].
  split; [exact analyze_violation_no_history|].
  split; [exact handler_stores_causes|].
  split; [exact handler_no_history|].
  split; [intros v tracker v'; apply analyze_violation_root_causes|].
  split.
  { intros v tracker E. apply analyze_violation_returns. rewrite E. reflexivity. }
  split.
  { intros v tracker Hne He Hl Hd Hc. apply analyze_violation_returns.
    apply identify_root_causes_default; assumption. }
  split.
  { intros v tracker v' causes Hne Ha Hr.
    apply analyze_violation_root_causes in Ha. rewrite Hr in Ha. symmetry in Ha.
    exact (identify_not_insufficient _ _ _ Hne Ha). }
  exact handler_stores_analysis.
Qed.

(** The end-to-end scenario: the synthetic event on a fresh analyzer, with
    no decision logged, leaves one violation in the history, with the
    insufficient-history finding.  With one plain decision in the lookback
    window the analysis attaches the generic finding instead. *)
Lemma root_causes_never_empty_witness :
  (exists v,
     get_violation_history None
       (handle_safety_violation_event SafetySamples.violation_event
          (Tracker.init 100) (init 24)) = [v]
     /\ severity v = HIGH
     /\ root_causes v = Some ["Insufficient decision history for analysis"%string])
  /\ (exists v',
        analyze_violation SafetySamples.plain_violation
          (Tracker.mkTracker 100
             [Tracker.record_of 1 (TrackerSamples.plain_call 0)] 1) = Some v'
        /\ root_causes v' =
           Some ["Complex multi-factor scenario requiring further analysis"%string]).
Proof.
  destruct root_causes_never_empty
    as (_ & _ & _ & _ & _ & _ & _ & H & _ & _ & Hgen & _).
  split.
  - destruct (H SafetySamples.violation_event (Tracker.init 100) (init 24)
                (mkViolation
                   (make_violation_id 0 1000) 1000 LOSS_OF_SEPARATION HIGH [] 2
                   (VFloat 5) 0 0 0 0 None None (Some []) (Some [])
                   (Some (mkFactors 0 None None None))))
      as (v' & E & Hc); [reflexivity|reflexivity|].
    exists v'. rewrite E. split; [reflexivity|]. split; [|exact Hc].
    unfold handle_safety_violation_event in E.
    change (violation_of_event SafetySamples.violation_event (init 24))
      with (Some (mkViolation
                   (make_violation_id 0 1000) 1000 LOSS_OF_SEPARATION HIGH [] 2
                   (VFloat 5) 0 0 0 0 None None (Some []) (Some [])
                   (Some (mkFactors 0 None None None)))) in E.
    unfold analyze_violation in E.
    rewrite get_relevant_decisions_empty in E by reflexivity.
    cbn [identify_root_causes] in E.
    injection E as E. cbn [violations init Py.deque_append] in E.
    rewrite <- E. reflexivity.
  - assert (E : get_relevant_decisions SafetySamples.plain_violation
                  (Tracker.mkTracker 100
                     [Tracker.record_of 1 (TrackerSamples.plain_call 0)] 1)
                = [Tracker.record_of 1 (TrackerSamples.plain_call 0)]).
    { unfold get_relevant_decisions, Tracker.get_decision_history, lookback_seconds.
      cbv zeta.
      cbn [Tracker.decisions rev app filter Tracker.record_of Tracker.timestamp
             TrackerSamples.plain_call Tracker.c_time_stamp timestamp
             SafetySamples.plain_violation].
      rewrite (proj2 (PyFacts.leb_true_iff (0 - 300) 0)) by lra.
      rewrite (proj2 (PyFacts.leb_true_iff 0 0)) by lra.
      reflexivity. }
    apply Hgen; rewrite E.
    + discriminate.
    + reflexivity.
    + unfold low_confidence. cbv zeta.
      cbn [Py.last_n length skipn Nat.sub filter Tracker.record_of
             Tracker.confidence_scores TrackerSamples.plain_call
             Tracker.c_policy_output Tracker.po_confidence_scores Dict.get INR].
      apply PyFacts.ltb_false_iff. lra.
    + reflexivity.
    + reflexivity.
Defined.

(** *** Safety score *)

Lemma penalty_sum_uniform (s : ViolationSeverity) (vs : list SafetyViolation) (a : R) :
  fold_left (fun acc v => acc + penalty (severity v)) (map (with_severity s) vs) a =
  a + penalty s * INR (length vs).
Proof.
  revert a. induction vs as [|v vs IH]; intros a.
  - cbn. lra.
  - cbn [map fold_left length]. rewrite IH, S_INR. cbn [with_severity severity]. lra.
Qed.

(** The score of a list whose entries all have severity [s]. *)
Lemma score_uniform (s : ViolationSeverity) (vs : list SafetyViolation) (d : R) :
  calculate_safety_score (map (with_severity s) vs) d =
  if Py.leb d 0 then 100
  else Rmax 0 (100 - penalty s * INR (length vs) / Rmax d 1).
Proof.
  unfold calculate_safety_score. destruct (Py.leb d 0); [reflexivity|].
  cbv zeta. rewrite penalty_sum_uniform, !PyFacts.max_is_Rmax. f_equal. f_equal. lra.
Qed.

Lemma score_order (vs : list SafetyViolation) (d : R) :
  let low := calculate_safety_score (map (with_severity LOW) vs) d in
  let crit := calculate_safety_score (map (with_severity CRITICAL) vs) d in
  0 <= crit <= low /\ low <= 100
  /\ (crit < low <-> 0 < d /\ vs <> [] /\ 2 * INR (length vs) < 100 * Rmax d 1).
Proof.
  cbv zeta. rewrite !score_uniform. cbn [penalty].
  destruct (Py.leb d 0) eqn:Ed.
  - apply PyFacts.leb_true_iff in Ed. repeat split; lra.
  - apply PyFacts.leb_false_iff in Ed.
    assert (Hm : 1 <= Rmax d 1) by apply Rmax_r.
    set (m := Rmax d 1) in *.
    assert (Hn : 0 <= INR (length vs)) by apply pos_INR.
    set (n := INR (length vs)) in *.
    assert (Hq : 0 <= n / m) by (apply Rmult_le_pos; [lra|]; left; apply Rinv_0_lt_compat; lra).
    assert (Hqm : n / m * m = n) by (field; lra).
    assert (E2 : 2 * n / m = 2 * (n / m)) by (field; lra).
    assert (E20 : 20 * n / m = 20 * (n / m)) by (field; lra).
    rewrite E2, E20. set (q := n / m) in *.
    assert (Hne : vs <> [] <-> 0 < n).
    { subst n. destruct vs as [|v vs']; split; intros H.
      - congruence.
      - cbn in H. lra.
      - cbn [length]. apply lt_0_INR. lia.
      - discriminate. }
    assert (Hpos : 0 < n <-> 0 < q) by (split; intros; nra).
    assert (Hlt : 2 * n < 100 * m <-> 2 * q < 100) by (split; intros; nra).
    rewrite Hne, Hpos, Hlt. clear Hne Hpos Hlt E2 E20 Hqm.
    destruct (Rle_dec 0 (100 - 20 * q)) as [Hc|Hc].
    + rewrite (Rmax_right 0 (100 - 20 * q)), (Rmax_right 0 (100 - 2 * q)) by lra.
      repeat split; lra.
    + rewrite (Rmax_left 0 (100 - 20 * q)) by lra.
      destruct (Rle_dec 0 (100 - 2 * q)) as [Hl|Hl].
      * rewrite (Rmax_right 0 (100 - 2 * q)) by lra. repeat split; lra.
      * rewrite (Rmax_left 0 (100 - 2 * q)) by lra. repeat split; lra.
Qed.

Lemma period_filter_with_severity (s : ViolationSeverity) (a b : R)
  (vs : list SafetyViolation) :
  filter (fun v => Py.leb a (timestamp v) && Py.leb (timestamp v) b)
    (map (with_severity s) vs)
  = map (with_severity s)
      (filter (fun v => Py.leb a (timestamp v) && Py.leb (timestamp v) b) vs).
Proof.
  induction vs as [|v vs IH]; [reflexivity|].
  cbn [map filter]. cbn [with_severity timestamp]. rewrite IH.
  destruct (Py.leb a (timestamp v) && Py.leb (timestamp v) b); reflexivity.
Qed.



End SafetyFacts.

(** ** Pattern analyzer *)

Module PatternFacts.
Import Pattern.

Section Facts.

Variable linregress : list R -> list R -> Linregress.
Variable detrend : list R -> list R.
Variable find_peaks : list R -> R -> list nat.
Variable norm_sf : R -> R.
Variable format_float : nat -> R -> string.

(** *** [analyze_recent_performance] stores what it returns *)

Lemma fold_store_patterns (ps : list BehaviorPattern) (an : State) :
  (length (patterns an) <= 500)%nat ->
  patterns (fold_left store ps an) = Py.last_n 500 (patterns an ++ ps)
  /\ pattern_count (fold_left store ps an) = (pattern_count an + length ps)%nat
  /\ performance_history (fold_left store ps an) = performance_history an.
Proof.
  revert an. induction ps as [|p ps IH]; intros an Hlen; cbn [fold_left length].
  - rewrite app_nil_r, Nat.add_0_r. unfold Py.last_n.
    replace (length (patterns an) - 500)%nat with 0%nat by lia. auto.
  - destruct (IH (store an p)) as (H1 & H2 & H3).
    + cbn [store patterns]. rewrite PyFacts.deque_append_last_n by exact Hlen.
      rewrite PyFacts.last_n_length. lia.
    + rewrite H1, H2, H3. cbn [store patterns pattern_count performance_history].
      rewrite PyFacts.deque_append_last_n by exact Hlen.
      rewrite PyFacts.last_n_app, <- app_assoc. cbn [app].
      repeat split. lia.
Qed.

Lemma found_length (p : option BehaviorPattern) : (length (found p) <= 1)%nat.
Proof. destruct p; cbn; lia. Qed.

(** One call detects at most nine patterns. *)
Lemma detected_at_most_nine (count : nat) (now : R) (ms : list PerformanceMetrics) :
  (length
     (analyze_reward_patterns linregress detrend find_peaks format_float count now ms
      ++ analyze_decision_patterns linregress format_float count now ms
      ++ analyze_safety_patterns linregress format_float count now ms
      ++ analyze_learning_patterns linregress format_float count now ms) <= 9)%nat.
Proof.
  unfold analyze_reward_patterns, analyze_decision_patterns,
    analyze_safety_patterns, analyze_learning_patterns.
  repeat match goal with
  | |- context [if ?c then _ else _] => destruct c
  end;
  rewrite ?length_app; cbn [length];
  repeat match goal with
  | |- context [found ?p] =>
      let H := fresh in pose proof (found_length p) as H; revert H;
      generalize (length (found p)); intros ? ?
  end; lia.
Qed.

Lemma last_n_keeps_tail {A : Type} (C : nat) (old new : list A) (x : A) :
  (length new <= C)%nat -> In x new -> In x (Py.last_n C (old ++ new)).
Proof.
  intros Hlen Hin. unfold Py.last_n. rewrite skipn_app, length_app.
  apply in_or_app. right.
  replace (length old + length new - C - length old)%nat with 0%nat by lia.
  exact Hin.
Qed.

Lemma analyze_stores (episodes : option Z) (now : R) (an : State) :
  (length (patterns an) <= 500)%nat ->
  let res :=
    analyze_recent_performance linregress detrend find_peaks format_float
      episodes now an in
  patterns (snd res) = Py.last_n 500 (patterns an ++ fst res)
  /\ pattern_count (snd res) = (pattern_count an + length (fst res))%nat
  /\ (length (patterns (snd res)) <= 500)%nat
  /\ (forall p, In p (fst res) -> In p (patterns (snd res))).
Proof.
  intros Hlen. cbv zeta. unfold analyze_recent_performance.
  match goal with |- context [if ?c then _ else _] => destruct c end;
    cbn [fst snd].
  - rewrite app_nil_r. unfold Py.last_n.
    replace (length (patterns an) - 500)%nat with 0%nat by lia.
    cbn [skipn length]. repeat split; try lia. intros p [].
  - match goal with
    | |- context [fold_left store ?ps an] =>
        destruct (fold_store_patterns ps an Hlen) as (H1 & H2 & _);
        assert (H9 : (length ps <= 9)%nat) by apply detected_at_most_nine;
        set (detected := ps) in *
    end.
    rewrite H1, H2. repeat split.
    + rewrite PyFacts.last_n_length. lia.
    + intros p Hp. apply last_n_keeps_tail; [lia|exact Hp].
Qed.

(** *** [detect_anomalies] returns without storing *)

Lemma anomaly_loop_count (metric_name : string) (n now : _) (i : nat)
  (zs vs : list R) (count : nat) :
  snd (anomaly_loop norm_sf format_float metric_name n now i zs vs count) =
  (count + length (fst (anomaly_loop norm_sf format_float metric_name n now i zs vs count)))%nat.
Proof.
  revert i vs count. induction zs as [|z zs IH]; intros i vs count;
    cbn [anomaly_loop]; [cbn; lia|].
  destruct vs as [|v vs]; [cbn; lia|].
  destruct (Py.ltb anomaly_threshold z).
  - specialize (IH (S i) vs (S count)).
    destruct (anomaly_loop _ _ _ _ _ _ zs vs (S count)) as [rest c'].
    cbn [fst snd length] in *. lia.
  - apply IH.
Qed.

Lemma anomaly_loop_finds (metric_name : string) (n now : _) (i : nat)
  (z v : R) (zs vs : list R) (count : nat) :
  anomaly_threshold < z ->
  fst (anomaly_loop norm_sf format_float metric_name n now i (z :: zs) (v :: vs) count)
  <> [].
Proof.
  intros H. cbn [anomaly_loop].
  rewrite (proj2 (PyFacts.ltb_true_iff _ _) H).
  destruct (anomaly_loop _ _ _ _ _ _ zs vs (S count)). cbn [fst]. discriminate.
Qed.

Lemma detect_anomalies_keeps_history (metric_name : string) (lookback : Z) (now : R)
  (an : State) :
  let res := detect_anomalies norm_sf format_float metric_name lookback now an in
  patterns (snd res) = patterns an
  /\ pattern_count (snd res) = (pattern_count an + length (fst res))%nat.
Proof.
  cbv zeta. unfold detect_anomalies.
  destruct (_ <? 20)%nat; [cbn; split; [reflexivity|lia]|].
  destruct (flat_map _ _) as [|x xs]; [cbn; split; [reflexivity|lia]|].
  destruct (Py.eqb _ 0); [cbn; split; [reflexivity|lia]|].
  match goal with
  | |- context [anomaly_loop ?a ?b ?c ?d ?e ?f ?g ?h ?k] =>
      pose proof (anomaly_loop_count c d e f g h k) as Hc;
      destruct (anomaly_loop a b c d e f g h k) as [anomalies count]
  end.
  cbn [fst snd patterns pattern_count] in *. split; [reflexivity|exact Hc].
Qed.

(** When the window is long enough, the baseline spread is not zero and
    the first recent value is more than the threshold away from the
    baseline, [detect_anomalies] returns at least one anomaly. *)
Lemma detect_anomalies_finds (metric_name : string) (lookback : Z) (now : R)
  (an : State) (values : list R) (v : R) (vs : list R) :
  (20 <= length (slice_last lookback (performance_history an)))%nat ->
  flat_map
    (fun m => match metric_value metric_name m with Some x => [x] | None => [] end)
    (slice_last lookback (performance_history an)) = values ->
  Py.std (all_but_last_10 values) <> 0 ->
  Py.last_n 10 values = v :: vs ->
  anomaly_threshold <
    Rabs ((v - Py.mean (all_but_last_10 values)) / Py.std (all_but_last_10 values)) ->
  fst (detect_anomalies norm_sf format_float metric_name lookback now an) <> [].
Proof.
  intros Hlen Hvals Hstd Hlast Hz. unfold detect_anomalies.
  destruct (Nat.ltb_spec (length (slice_last lookback (performance_history an))) 20);
    [lia|].
  rewrite Hvals.
  destruct values as [|x xs].
  { unfold Py.last_n in Hlast. cbn in Hlast. discriminate. }
  destruct (Py.eqb (Py.std (all_but_last_10 (x :: xs))) 0) eqn:E.
  { apply PyFacts.eqb_true_iff in E. contradiction. }
  rewrite Hlast. cbn [map].
  match goal with
  | |- context [anomaly_loop ?a ?b ?c ?d ?e ?f (?z :: ?zs) (?v :: ?vs) ?k] =>
      pose proof (anomaly_loop_finds c d e f z v zs vs k Hz) as Hf;
      destruct (anomaly_loop a b c d e f (z :: zs) (v :: vs) k) as [anomalies count]
  end.
  exact Hf.
Qed.

End Facts.

(** *** The sample history *)

Lemma INR_10 : INR 10 = 10.
Proof. rewrite INR_IZR_INZ. reflexivity. Qed.

Lemma spike_baseline_mean :
  Py.mean (all_but_last_10 PatternSamples.spike_rewards) = 0.5.
Proof.
  unfold Py.mean, Py.sum, all_but_last_10, PatternSamples.spike_rewards.
  cbn [length Nat.sub firstn fold_left]. rewrite INR_10. lra.
Qed.

Lemma spike_baseline_std :
  Py.std (all_but_last_10 PatternSamples.spike_rewards) = 0.5.
Proof.
  unfold Py.std, Py.var. rewrite spike_baseline_mean.
  unfold Py.mean, Py.sum, all_but_last_10, PatternSamples.spike_rewards.
  cbn [length Nat.sub firstn fold_left map]. rewrite INR_10.
  replace (_ / 10) with (0.5 * 0.5) by lra.
  apply sqrt_square. lra.
Qed.

(** C7, as the code has it: [analyze_recent_performance] appends every
    pattern it detects to the bounded history (capacity 500) and returns
    it; [detect_anomalies] returns the anomalies it detects and bumps the
    counter for each, but leaves the history as it was.  On the sample
    history (ten episodes around a mean reward of 0.5, then ten at 10) it
    returns anomalies none of which is in the history afterwards. *)
Theorem anomalies_are_not_stored :
  forall (linregress : list R -> list R -> Linregress)
         (detrend : list R -> list R) (find_peaks : list R -> R -> list nat)
         (norm_sf : R -> R) (format_float : nat -> R -> string),
    (forall (episodes : option Z) (now : R) (an : State),
        let res :=
          analyze_recent_performance linregress detrend find_peaks format_float
            episodes now an in
        (length (patterns an) <= 500)%nat ->
        patterns (snd res) = Py.last_n 500 (patterns an ++ fst res)
        /\ (length (patterns (snd res)) <= 500)%nat
        /\ (forall p, In p (fst res) -> In p (patterns (snd res))))
    /\ (forall (metric_name : string) (lookback : Z) (now : R) (an : State),
          let res := detect_anomalies norm_sf format_float metric_name lookback now an in
          patterns (snd res) = patterns an
          /\ pattern_count (snd res) = (pattern_count an + length (fst res))%nat)
    /\ (forall now : R,
          let res :=
            detect_anomalies norm_sf format_float "mean_reward" 50 now
              PatternSamples.spike_analyzer in
          fst res <> []
          /\ patterns (snd res) = []
          /\ (forall p, In p (fst res) -> ~ In p (patterns (snd res)))).
Proof.
  intros linregress detrend find_peaks norm_sf format_float.
  split.
  { intros episodes now an res Hlen.
    destruct (analyze_stores linregress detrend find_peaks format_float
                episodes now an Hlen) as (H1 & _ & H3 & H4).
    repeat split; assumption. }
  split.
  { intros. apply detect_anomalies_keeps_history. }
  intros now res.
  destruct (detect_anomalies_keeps_history norm_sf format_float
              "mean_reward" 50 now PatternSamples.spike_analyzer) as [Hp _].
  fold res in Hp. cbn [patterns PatternSamples.spike_analyzer] in Hp.
  split; [|split; [exact Hp|rewrite Hp; intros p _ []]].
  subst res.
  apply (detect_anomalies_finds norm_sf format_float "mean_reward" 50 now
           PatternSamples.spike_analyzer PatternSamples.spike_rewards 10
           [10; 10; 10; 10; 10; 10; 10; 10; 10]).
  - apply Nat.leb_le. reflexivity.
  - reflexivity.
  - rewrite spike_baseline_std. lra.
  - reflexivity.
  - rewrite spike_baseline_mean, spike_baseline_std. unfold anomaly_threshold.
    unfold Rabs. destruct (Rcase_abs _); lra.
Qed.

End PatternFacts.

(** * Further properties *)

(** ** Angles and ranges *)

Module GeometryFacts.
Import Geometry.

(** The remainder of a floor division by a positive number lies in
    [0, m). *)
Lemma fmod_range (x m : R) : 0 < m -> 0 <= fmod x m < m.
Proof.
  intros Hm. unfold fmod.
  destruct (base_Int_part (x / m)) as [Hlo Hhi].
  set (k := IZR (Int_part (x / m))) in *.
  assert (Hq : x / m * m = x) by (field; lra).
  set (q := x / m) in *.
  split; nra.
Qed.

Lemma fmod_small (x m : R) : 0 <= x < m -> fmod x m = x.
Proof.
  intros [H0 Hm]. unfold fmod.
  assert (Hq : 0 <= x / m < 1).
  { split.
    - apply Rmult_le_pos; [lra|]. left. apply Rinv_0_lt_compat. lra.
    - apply (Rmult_lt_reg_r m); [lra|]. replace (x / m * m) with x by (field; lra). lra. }
  rewrite <- (Int_part_spec (x / m) 0) by (simpl; lra).
  simpl. lra.
Qed.

(** X1: [normalize_angle] returns an angle in the half-open interval
    [-pi, pi) that differs from its argument by a whole number of turns; an
    angle already in that interval is returned as it is, and pi itself is
    sent to -pi. *)
Theorem normalize_angle_range :
  forall a : R,
    (- PI <= normalize_angle a < PI)
    /\ (exists k : Z, normalize_angle a = a - 2 * PI * IZR k)
    /\ (- PI <= a < PI -> normalize_angle a = a)
    /\ normalize_angle PI = - PI.
Proof.
  intros a. pose proof PI_RGT_0 as Hpi. unfold normalize_angle.
  split.
  { destruct (fmod_range (a + PI) (2 * PI)) as [H1 H2]; [lra|]. lra. }
  split.
  { exists (Int_part ((a + PI) / (2 * PI))). unfold fmod. lra. }
  split.
  { intros H. rewrite fmod_small by lra. lra. }
  unfold fmod.
  rewrite <- (Int_part_spec ((PI + PI) / (2 * PI)) 1).
  - simpl. lra.
  - replace ((PI + PI) / (2 * PI)) with 1 by (field; lra). simpl. lra.
Qed.

Lemma hypot_sym (x y : R) : Py.hypot (- x) (- y) = Py.hypot x y.
Proof. unfold Py.hypot. f_equal. ring. Qed.

Lemma hypot_zero_iff (x y : R) : Py.hypot x y = 0 <-> x = 0 /\ y = 0.
Proof.
  unfold Py.hypot. split.
  - intros H. apply sqrt_eq_0 in H; [|nra]. split; nra.
  - intros [-> ->]. replace (0 * 0 + 0 * 0) with 0 by ring. apply sqrt_0.
Qed.

(** X2: the range [compute_bearing_range] returns is the same in both
    directions, is never negative, and is zero exactly when the two points
    coincide, whatever the bearing function. *)
Theorem bearing_range_symmetric :
  forall (arctan2 : R -> R -> R) (x1 y1 x2 y2 : R),
    snd (compute_bearing_range arctan2 x1 y1 x2 y2) =
      snd (compute_bearing_range arctan2 x2 y2 x1 y1)
    /\ 0 <= snd (compute_bearing_range arctan2 x1 y1 x2 y2)
    /\ (snd (compute_bearing_range arctan2 x1 y1 x2 y2) = 0 <-> x1 = x2 /\ y1 = y2).
Proof.
  intros arctan2 x1 y1 x2 y2. unfold compute_bearing_range. cbn [snd].
  split.
  { rewrite <- (hypot_sym (x1 - x2) (y1 - y2)). f_equal; ring. }
  split; [apply PyFacts.hypot_nonneg|].
  rewrite hypot_zero_iff. split; intros [H1 H2]; split; lra.
Qed.

End GeometryFacts.

(** ** Separation: the minimum and the order of the aircraft *)

Module SeparationFacts.
Import Utils Geometry.

(** *** The running minimum *)

Lemma fold_min_le_init (l : list R) (m : R) : fold_left Py.min l m <= m.
Proof.
  revert m. induction l as [|d l IH]; intros m; cbn [fold_left]; [lra|].
  eapply Rle_trans; [apply IH|]. rewrite PyFacts.min_is_Rmin. apply Rmin_l.
Qed.

Lemma fold_min_le_each (l : list R) (m d : R) : In d l -> fold_left Py.min l m <= d.
Proof.
  revert m. induction l as [|x l IH]; intros m Hin; [destruct Hin|].
  cbn [fold_left]. destruct Hin as [->|Hin].
  - eapply Rle_trans; [apply fold_min_le_init|].
    rewrite PyFacts.min_is_Rmin. apply Rmin_r.
  - apply IH. exact Hin.
Qed.

Lemma fold_min_attained (l : list R) (m : R) :
  fold_left Py.min l m = m \/ In (fold_left Py.min l m) l.
Proof.
  revert m. induction l as [|x l IH]; intros m; cbn [fold_left]; [left; reflexivity|].
  destruct (IH (Py.min m x)) as [H|H].
  - rewrite H. unfold Py.min. destruct (Py.ltb x m); [right; left; reflexivity|left; reflexivity].
  - right. right. exact H.
Qed.

Lemma pair_step_min (ai aj : AcState) (m : R) (n : nat) :
  fst (pair_step ai aj (m, n)) =
  if both_alive (ai, aj) then Py.min m (pair_distance (ai, aj)) else m.
Proof.
  unfold pair_step, both_alive, pair_distance. cbn [fst snd].
  destruct (get_alive ai && get_alive aj); cbn [negb fst]; [|reflexivity].
  destruct (Py.ltb _ 5 && Py.ltb _ 1000); reflexivity.
Qed.

Lemma inner_loop_min (ai : AcState) (rest : list AcState) (acc : R * nat) :
  fst (inner_loop ai rest acc) =
  fold_left Py.min
    (map pair_distance (filter both_alive (map (fun aj => (ai, aj)) rest)))
    (fst acc).
Proof.
  revert acc. induction rest as [|aj rest IH]; intros [m n]; cbn [inner_loop map filter].
  - reflexivity.
  - rewrite IH. destruct (pair_step ai aj (m, n)) as [m' n'] eqn:E.
    pose proof (pair_step_min ai aj m n) as H. rewrite E in H. cbn [fst] in *.
    destruct (both_alive (ai, aj)); subst m'; reflexivity.
Qed.

Lemma outer_loop_min (states : list AcState) (acc : R * nat) :
  fst (outer_loop states acc) = fold_left Py.min (live_distances states) (fst acc).
Proof.
  unfold live_distances. revert acc.
  induction states as [|ai rest IH]; intros acc; cbn [outer_loop unordered_pairs].
  - reflexivity.
  - rewrite IH, inner_loop_min, filter_app, map_app, fold_left_app. reflexivity.
Qed.

(** The first component of the result, from the distances of the live
    pairs. *)
Lemma min_sep_eq (states : list AcState) :
  fst (pairwise_min_separation_nm states) =
  if Py.ltb (fold_left Py.min (live_distances states) 1e9) 1e9
  then fold_left Py.min (live_distances states) 1e9
  else 999.
Proof.
  unfold pairwise_min_separation_nm.
  pose proof (outer_loop_min states (1e9, 0%nat)) as H.
  destruct (outer_loop states (1e9, 0%nat)) as [m n]. cbn [fst] in *.
  rewrite H. reflexivity.
Qed.

(** *** Fewer than two live aircraft *)

Lemma live_pair_needs_two (states : list AcState) (a b : AcState) :
  In (a, b) (unordered_pairs states) -> get_alive a = true -> get_alive b = true ->
  (2 <= count_live states)%nat.
Proof.
  unfold count_live.
  induction states as [|x rest IH]; cbn [unordered_pairs]; [intros []|].
  intros Hin Ha Hb. apply in_app_or in Hin. destruct Hin as [Hin|Hin].
  - apply in_map_iff in Hin. destruct Hin as (y & [= <- <-] & Hy).
    cbn [filter]. rewrite Ha. cbn [length].
    assert (In y (filter get_alive rest)) as Hf by (apply filter_In; auto).
    destruct (filter get_alive rest); [destruct Hf|cbn; lia].
  - specialize (IH Hin Ha Hb). cbn [filter].
    destruct (get_alive x); cbn [length]; lia.
Qed.

Lemma no_live_pair (states : list AcState) :
  (count_live states <= 1)%nat ->
  filter both_alive (unordered_pairs states) = [].
Proof.
  intros H.
  destruct (filter both_alive (unordered_pairs states)) as [|[a b] l] eqn:E; [reflexivity|].
  assert (Hin : In (a, b) (filter both_alive (unordered_pairs states)))
    by (rewrite E; left; reflexivity).
  apply filter_In in Hin. destruct Hin as [Hin Hb].
  unfold both_alive in Hb. cbn [fst snd] in Hb. apply andb_true_iff in Hb.
  pose proof (live_pair_needs_two states a b Hin (proj1 Hb) (proj2 Hb)). lia.
Qed.

Lemma list_sum_zero (l : list nat) : (forall x, In x l -> x = 0%nat) -> list_sum l = 0%nat.
Proof.
  induction l as [|x l IH]; intros H; cbn; [reflexivity|].
  rewrite (H x) by (left; reflexivity). apply IH. intros y Hy. apply H. right. exact Hy.
Qed.

(** X3: with at most one live aircraft (an empty list, a single aircraft,
    or all but one not alive) [pairwise_min_separation_nm] returns the
    sentinel 999.0 and a count of 0. *)
Theorem no_pair_sentinel :
  forall states : list AcState,
    (count_live states <= 1)%nat ->
    pairwise_min_separation_nm states = (999, 0%nat).
Proof.
  intros states H.
  pose proof (min_sep_eq states) as Hm.
  pose proof (UtilsFacts.los_count_sum states) as Hc.
  destruct (pairwise_min_separation_nm states) as [m c]. cbn [fst snd] in *.
  unfold live_distances in Hm. rewrite (no_live_pair states H) in Hm.
  cbn [map fold_left] in Hm.
  rewrite (proj2 (PyFacts.ltb_false_iff 1e9 1e9)) in Hm by lra.
  f_equal; [exact Hm|]. rewrite Hc. apply list_sum_zero.
  intros x Hx. apply in_map_iff in Hx. destruct Hx as ([a b] & <- & Hp).
  apply UtilsFacts.contribution_zero_iff. intros (Ha & Hb & _).
  pose proof (live_pair_needs_two states a b Hp Ha Hb). lia.
Qed.

(** X4: the separation returned is a lower bound of the horizontal
    distance of every pair of live aircraft (below the 1e9 start value),
    whatever their altitudes, and it is either the sentinel 999.0 or the
    distance of some live pair. *)
Theorem min_sep_is_minimum :
  forall states : list AcState,
    (forall d, In d (live_distances states) -> d < 1e9 ->
               fst (pairwise_min_separation_nm states) <= d)
    /\ (fst (pairwise_min_separation_nm states) = 999
        \/ In (fst (pairwise_min_separation_nm states)) (live_distances states)).
Proof.
  intros states. rewrite min_sep_eq.
  set (l := live_distances states).
  pose proof (fold_min_attained l 1e9) as Ha.
  destruct (Py.ltb (fold_left Py.min l 1e9) 1e9) eqn:E.
  - apply PyFacts.ltb_true_iff in E. split.
    + intros d Hd _. apply fold_min_le_each. exact Hd.
    + destruct Ha as [Ha|Ha]; [lra|right; exact Ha].
  - apply PyFacts.ltb_false_iff in E. split; [|left; reflexivity].
    intros d Hd Hlt. pose proof (fold_min_le_each l 1e9 d Hd). lra.
Qed.

Lemma list_sum_pos (l : list nat) :
  (1 <= list_sum l)%nat -> exists x, In x l /\ (1 <= x)%nat.
Proof.
  unfold list_sum. induction l as [|x l IH]; cbn [fold_right In]; [lia|]. intros H.
  destruct x as [|x].
  - destruct IH as (y & Hy & H1); [cbn in H; lia|]. exists y. auto.
  - exists (S x). split; [left; reflexivity|lia].
Qed.

(** X5: whenever a loss of separation is counted, the separation returned
    is below 5 NM (so the reward's near-miss test, at 6 NM, fires too). *)
Theorem los_implies_close :
  forall states : list AcState,
    (1 <= snd (pairwise_min_separation_nm states))%nat ->
    fst (pairwise_min_separation_nm states) < 5.
Proof.
  intros states H. rewrite UtilsFacts.los_count_sum in H.
  apply list_sum_pos in H. destruct H as (x & Hx & H1).
  apply in_map_iff in Hx. destruct Hx as ([a b] & <- & Hp).
  destruct (UtilsFacts.contribution_cases a b) as [[Hl _]|[_ H0]]; [|lia].
  destruct Hl as (Ha & Hb & Hd & _).
  rewrite <- PyFacts.hypot_euclid in Hd.
  assert (Hin : In (pair_distance (a, b)) (live_distances states)).
  { unfold live_distances. apply in_map. apply filter_In. split; [exact Hp|].
    unfold both_alive. cbn [fst snd]. rewrite Ha, Hb. reflexivity. }
  rewrite min_sep_eq.
  pose proof (fold_min_le_each (live_distances states) 1e9 _ Hin) as Hle.
  unfold pair_distance in Hle. cbn [fst snd] in Hle.
  rewrite (proj2 (PyFacts.ltb_true_iff _ _)) by lra. lra.
Qed.

(** *** The order of the aircraft does not matter *)

Lemma is_los_sym (a b : AcState) : is_los a b -> is_los b a.
Proof.
  unfold is_los. intros (Ha & Hb & Hd & Hv).
  repeat split; try assumption.
  - replace ((x_nm b - x_nm a) ^ 2 + (y_nm b - y_nm a) ^ 2)
      with ((x_nm a - x_nm b) ^ 2 + (y_nm a - y_nm b) ^ 2) by ring.
    exact Hd.
  - rewrite Rabs_minus_sym. exact Hv.
Qed.

Lemma contribution_sym (a b : AcState) : contribution (a, b) = contribution (b, a).
Proof.
  destruct (UtilsFacts.contribution_cases a b) as [[H1 E1]|[H1 E1]];
    destruct (UtilsFacts.contribution_cases b a) as [[H2 E2]|[H2 E2]];
    rewrite E1, E2; try reflexivity; exfalso.
  - apply H2, is_los_sym, H1.
  - apply H1, is_los_sym, H2.
Qed.

Lemma pair_distance_sym (a b : AcState) : pair_distance (a, b) = pair_distance (b, a).
Proof.
  unfold pair_distance. cbn [fst snd].
  rewrite <- (GeometryFacts.hypot_sym (x_nm a - x_nm b) (y_nm a - y_nm b)).
  f_equal; ring.
Qed.

Lemma list_sum_perm (l l' : list nat) : Permutation l l' -> list_sum l = list_sum l'.
Proof.
  unfold list_sum. induction 1; cbn [fold_right]; lia.
Qed.

Lemma row_sum_perm (x : AcState) (l l' : list AcState) :
  Permutation l l' ->
  list_sum (map contribution (map (fun y => (x, y)) l)) =
  list_sum (map contribution (map (fun y => (x, y)) l')).
Proof.
  intros H. apply list_sum_perm. do 2 apply Permutation_map. exact H.
Qed.

Lemma pair_sum_perm (l l' : list AcState) :
  Permutation l l' ->
  list_sum (map contribution (unordered_pairs l)) =
  list_sum (map contribution (unordered_pairs l')).
Proof.
  induction 1 as [|x l l' HP IH|x y l|l l' l'' _ IH1 _ IH2].
  - reflexivity.
  - cbn [unordered_pairs]. rewrite !map_app, !list_sum_app, IH.
    rewrite (row_sum_perm x l l' HP). reflexivity.
  - cbn [unordered_pairs map]. rewrite ?map_app, ?list_sum_app.
    cbn [map]. rewrite ?map_app, ?list_sum_app.
    rewrite (contribution_sym y x). unfold list_sum. cbn [fold_right]. lia.
  - congruence.
Qed.

Lemma pairs_perm (l l' : list AcState) :
  Permutation l l' ->
  forall a b, In (a, b) (unordered_pairs l) ->
              In (a, b) (unordered_pairs l') \/ In (b, a) (unordered_pairs l').
Proof.
  induction 1 as [|x l l' HP IH|x y l|l l' l'' _ IH1 _ IH2]; intros a b Hin.
  - destruct Hin.
  - cbn [unordered_pairs] in *. apply in_app_or in Hin. destruct Hin as [Hin|Hin].
    + apply in_map_iff in Hin. destruct Hin as (z & [= <- <-] & Hz).
      left. apply in_or_app. left. apply in_map.
      eapply Permutation_in; eassumption.
    + destruct (IH a b Hin) as [H|H]; [left|right]; apply in_or_app; right; exact H.
  - cbn [unordered_pairs map] in *.
    destruct Hin as [[= <- <-]|Hin].
    { right. left. reflexivity. }
    apply in_app_or in Hin. destruct Hin as [Hin|Hin].
    { left. right. apply in_or_app. right. apply in_or_app. left. exact Hin. }
    apply in_app_or in Hin. destruct Hin as [Hin|Hin].
    { left. right. apply in_or_app. left. exact Hin. }
    left. right. apply in_or_app. right. apply in_or_app. right. exact Hin.
  - destruct (IH1 a b Hin) as [H|H].
    + apply IH2. exact H.
    + destruct (IH2 b a H) as [H'|H']; [right|left]; exact H'.
Qed.

Lemma live_distances_perm (l l' : list AcState) :
  Permutation l l' ->
  forall d, In d (live_distances l) -> In d (live_distances l').
Proof.
  intros HP d Hd. unfold live_distances in *.
  apply in_map_iff in Hd. destruct Hd as ([a b] & <- & Hf).
  apply filter_In in Hf. destruct Hf as [Hin Hb].
  destruct (pairs_perm l l' HP a b Hin) as [H|H].
  - apply in_map. apply filter_In. auto.
  - rewrite pair_distance_sym. apply in_map. apply filter_In. split; [exact H|].
    unfold both_alive in *. cbn [fst snd] in *. rewrite andb_comm. exact Hb.
Qed.

Lemma fold_min_same_elements (l l' : list R) (m : R) :
  (forall d, In d l -> In d l') -> (forall d, In d l' -> In d l) ->
  fold_left Py.min l m = fold_left Py.min l' m.
Proof.
  intros H1 H2. apply Rle_antisym.
  - destruct (fold_min_attained l' m) as [E|E].
    + rewrite E. apply fold_min_le_init.
    + apply fold_min_le_each. apply H2. exact E.
  - destruct (fold_min_attained l m) as [E|E].
    + rewrite E. apply fold_min_le_init.
    + apply fold_min_le_each. apply H1. exact E.
Qed.

(** X6: the result of [pairwise_min_separation_nm] does not depend on the
    order in which the aircraft are listed: any rearrangement of the state
    list gives the same minimum separation and the same count. *)
Theorem separation_order_independent :
  forall states states' : list AcState,
    Permutation states states' ->
    pairwise_min_separation_nm states = pairwise_min_separation_nm states'.
Proof.
  intros l l' HP.
  pose proof (min_sep_eq l) as Hm. pose proof (min_sep_eq l') as Hm'.
  pose proof (UtilsFacts.los_count_sum l) as Hc.
  pose proof (UtilsFacts.los_count_sum l') as Hc'.
  destruct (pairwise_min_separation_nm l) as [m c].
  destruct (pairwise_min_separation_nm l') as [m' c'].
  cbn [fst snd] in *. f_equal.
  - rewrite Hm, Hm'.
    rewrite (fold_min_same_elements (live_distances l) (live_distances l') 1e9).
    + reflexivity.
    + apply live_distances_perm. exact HP.
    + apply live_distances_perm. apply Permutation_sym. exact HP.
  - rewrite Hc, Hc'. apply pair_sum_perm. exact HP.
Qed.

(** Two aircraft, only one of which is alive. *)
Lemma no_pair_sentinel_witness :
  pairwise_min_separation_nm [Samples.at_goal "A" true; Samples.at_goal "B" false]
  = (999, 0%nat).
Proof.
  apply no_pair_sentinel. apply Nat.leb_le. reflexivity.
Defined.

(** Three co-located aircraft. *)
Lemma los_implies_close_witness :
  fst (pairwise_min_separation_nm Samples.stuck_states) < 5.
Proof.
  apply los_implies_close. rewrite StEnvExamples.stuck_states_los. lia.
Defined.

(** The two sample aircraft, listed in either order. *)
Lemma separation_order_independent_witness :
  pairwise_min_separation_nm [Samples.low_ac; Samples.high_ac]
  = pairwise_min_separation_nm [Samples.high_ac; Samples.low_ac].
Proof.
  apply separation_order_independent. apply perm_swap.
Defined.

End SeparationFacts.

(** ** The pair predicates and the reward loop *)

Module RewardMoreFacts.
Import Reward RewardPredicates.

Lemma ltb_mono (x a b : R) : a <= b -> Py.ltb x a = true -> Py.ltb x b = true.
Proof.
  intros Hab H. apply PyFacts.ltb_true_iff in H. apply PyFacts.ltb_true_iff. lra.
Qed.

Lemma hypot_swap (a b : AcState) :
  Py.hypot (x_nm a - x_nm b) (y_nm a - y_nm b) =
  Py.hypot (x_nm b - x_nm a) (y_nm b - y_nm a).
Proof.
  rewrite <- (GeometryFacts.hypot_sym (x_nm a - x_nm b) (y_nm a - y_nm b)).
  f_equal; ring.
Qed.

(** X7: [_sep_violation] and [_near] do not depend on the order of their
    two arguments, a separation violation is always a near miss as well,
    and [pairwise_min_separation_nm] counts a pair exactly when both
    aircraft are alive and [_sep_violation] holds of them. *)
Theorem pair_predicates_agree :
  forall a b : AcState,
    sep_violation a b = sep_violation b a
    /\ near a b = near b a
    /\ (sep_violation a b = true -> near a b = true)
    /\ (Utils.contribution (a, b) = 1%nat <->
        get_alive a = true /\ get_alive b = true /\ sep_violation a b = true).
Proof.
  intros a b. unfold sep_violation, near, SEP_NM, SEP_FT, NEAR_NM, NEAR_FT.
  split; [rewrite (hypot_swap a b), (Rabs_minus_sym (alt_ft a)); reflexivity|].
  split; [rewrite (hypot_swap a b), (Rabs_minus_sym (alt_ft a)); reflexivity|].
  split.
  { intros H. apply andb_true_iff in H. destruct H as [H1 H2].
    apply andb_true_iff. split.
    - apply (ltb_mono _ 5 6); [lra|exact H1].
    - apply (ltb_mono _ 1000 1200); [lra|exact H2]. }
  rewrite UtilsFacts.contribution_one_iff. unfold Utils.is_los.
  rewrite <- PyFacts.hypot_euclid, andb_true_iff, !PyFacts.ltb_true_iff. tauto.
Qed.

(** The [break] of the loop is never taken on a zipped list. *)
Lemma reward_loop_no_break (n i : nat) (zipped : list (AcState * AcState)) (acc : R * R) :
  (i + length zipped <= n)%nat ->
  reward_loop n i zipped acc =
  fold_left (fun acc p => loop_body (fst p) (snd p) acc) zipped acc.
Proof.
  revert i acc. induction zipped as [|[p c] rest IH]; intros i acc H;
    cbn [reward_loop fold_left length] in *; [reflexivity|].
  destruct (Nat.leb_spec n i); [lia|].
  apply IH. lia.
Qed.

Lemma loop_body_totals (p : AcState * AcState) (prog bonus : R) :
  loop_body (fst p) (snd p) (prog, bonus) =
  (prog + (if still_alive p then range_gain p else 0),
   bonus + (if exited_at_goal p then 5 else 0)).
Proof.
  unfold loop_body, still_alive, exited_at_goal, range_gain.
  destruct (get_alive (snd p)); cbn [negb andb].
  - f_equal; lra.
  - destruct (get_alive (fst p)); cbn [andb].
    + destruct (Py.ltb _ 5); f_equal; lra.
    + f_equal; lra.
Qed.

Lemma fold_loop_totals (zipped : list (AcState * AcState)) (prog bonus : R) :
  fold_left (fun acc p => loop_body (fst p) (snd p) acc) zipped (prog, bonus) =
  (prog + Py.sum (map range_gain (filter still_alive zipped)),
   bonus + 5 * INR (length (filter exited_at_goal zipped))).
Proof.
  revert prog bonus. induction zipped as [|p rest IH]; intros prog bonus;
    cbn [fold_left filter map length].
  - rewrite PyFacts.sum_nil. cbn [INR]. f_equal; lra.
  - rewrite loop_body_totals, IH.
    destruct (still_alive p), (exited_at_goal p); cbn [map length];
      rewrite ?PyFacts.sum_cons, ?S_INR; f_equal; lra.
Qed.

(** X8: in the breakdown of [compute_reward] the progress component is
    0.05 times the range closed towards the goal, summed over the aircraft
    (paired by position in the two lists) that are alive in the current
    step, and the terminal component is 5 for every aircraft that was
    alive, is no longer, and ended within 5 NM of its goal; aircraft beyond
    the shorter of the two lists count for nothing, and the loop's [break]
    is never taken. *)
Theorem reward_loop_totals :
  forall (prev cur : list AcState) (ms : R) (lc : Z) (mask : list R),
    let comps := snd (compute_reward prev cur ms lc mask) in
    let pairs := combine prev cur in
    progress comps = 0.05 * Py.sum (map range_gain (filter still_alive pairs))
    /\ terminal comps = 5 * INR (length (filter exited_at_goal pairs))
    /\ 0 <= terminal comps.
Proof.
  intros prev cur ms lc mask. cbv zeta.
  pose proof (RewardFacts.compute_reward_eq prev cur ms lc mask) as E.
  cbv zeta in E. rewrite E. cbn [snd progress terminal].
  rewrite reward_loop_no_break.
  - rewrite fold_loop_totals. cbn [fst snd].
    split; [f_equal; lra|]. split; [lra|].
    assert (0 <= INR (length (filter exited_at_goal (combine prev cur))))
      by apply pos_INR.
    lra.
  - rewrite length_combine. lia.
Qed.

End RewardMoreFacts.

(** ** More on the environment *)

Module EnvMoreFacts.
Import Env Geometry.

Lemma sum_app (l1 l2 : list R) : Py.sum (l1 ++ l2) = Py.sum l1 + Py.sum l2.
Proof.
  unfold Py.sum at 1. rewrite fold_left_app. rewrite PyFacts.sum_from.
  unfold Py.sum. lra.
Qed.

Lemma sum_repeat_zero (k : nat) : Py.sum (repeat 0 k) = 0.
Proof.
  induction k as [|k IH]; [reflexivity|].
  cbn [repeat]. rewrite PyFacts.sum_cons, IH. lra.
Qed.

Lemma sum_flags (l : list AcState) :
  Py.sum (map (fun ac => if get_alive ac then 1 else 0) l) = INR (count_live l).
Proof.
  unfold count_live. induction l as [|a l IH]; [reflexivity|].
  cbn [map filter]. rewrite PyFacts.sum_cons, IH.
  destruct (get_alive a); cbn [length]; rewrite ?S_INR; lra.
Qed.

Lemma alive_array_length (states : list AcState) : length (alive_array states) = MAX_AC.
Proof.
  unfold alive_array. cbv zeta.
  rewrite length_app, repeat_length, length_map, length_firstn. lia.
Qed.

Lemma alive_array_sum (states : list AcState) :
  Py.sum (alive_array states) = INR (count_live (firstn MAX_AC states)).
Proof.
  unfold alive_array. cbv zeta. rewrite sum_app, sum_repeat_zero, sum_flags. lra.
Qed.

Lemma count_live_le (l : list AcState) : (count_live l <= length l)%nat.
Proof. unfold count_live. apply filter_length_le. Qed.

Lemma count_live_bound (states : list AcState) :
  (count_live (firstn MAX_AC states) <= MAX_AC)%nat.
Proof.
  eapply Nat.le_trans; [apply count_live_le|]. rewrite length_firstn. lia.
Qed.

Lemma int_INR (n : nat) : Py.int (INR n) = Z.of_nat n.
Proof.
  unfold Py.int. destruct (Rle_dec 0 (INR n)) as [_|H].
  - apply Int_part_INR.
  - exfalso. apply H. apply pos_INR.
Qed.

(** X9: the liveness mask of [_encode_obs] always has [MAX_AC] entries,
    whatever the number of states, and adds up to the number of live
    aircraft among the first [MAX_AC]; the traffic density it reports lies
    in [0, 1]; and [_encode_obs] fails exactly when the horizon is zero. *)
Theorem encode_obs_mask :
  forall (Feats : Type) (encode_feats : list AcState -> Feats)
         (step_count horizon : Z) (states : list AcState),
    length (alive_array states) = MAX_AC
    /\ Py.sum (alive_array states) = INR (count_live (firstn MAX_AC states))
    /\ (encode_obs encode_feats step_count horizon states = None <-> horizon = 0%Z)
    /\ (forall obs alive,
          encode_obs encode_feats step_count horizon states = Some (obs, alive) ->
          alive = alive_array states
          /\ length (global_feats obs) = 8%nat
          /\ 0 <= nth 0 (global_feats obs) 0 <= 1
          /\ nth 3 (global_feats obs) 0 = IZR step_count / IZR horizon).
Proof.
  intros Feats encode_feats sc h states.
  split; [apply alive_array_length|]. split; [apply alive_array_sum|].
  unfold encode_obs. cbv zeta.
  assert (Hm : 0 < INR MAX_AC) by (apply lt_0_INR; unfold MAX_AC; lia).
  pose proof (le_INR _ _ (count_live_bound states)) as Hc.
  pose proof (pos_INR (count_live (firstn MAX_AC states))) as Hp.
  rewrite alive_array_sum.
  set (m := INR MAX_AC) in *. set (c := INR (count_live (firstn MAX_AC states))) in *.
  destruct (Z.eqb_spec h 0) as [Hh|Hh].
  - split; [tauto|]. intros obs alive [=].
  - split; [split; [discriminate|contradiction]|].
    intros obs alive [= <- <-]. cbn [global_feats nth length].
    assert (Hq : c / m * m = c) by (field; lra).
    repeat split.
    + apply Rmult_le_pos; [lra|]. left. apply Rinv_0_lt_compat. lra.
    + apply (Rmult_le_reg_r m); [lra|]. rewrite Hq. lra.
Qed.

(** X10: the command list built by [step] holds exactly one command per
    live aircraft, in the order of the state list, and the command of the
    aircraft at position [i] carries entries [2 i] and [2 i + 1] of the
    action (the second one scaled by 1000); aircraft that are not alive get
    no command. *)
Theorem commands_for_live_aircraft :
  forall (k : nat) (states : list AcState) (actions : list R),
    map cmd_id (build_cmds k states actions) = map ac_id (filter get_alive states)
    /\ (forall i ac,
          nth_error states i = Some ac -> get_alive ac = true ->
          In (mkCmd (ac_id ac) (nth (2 * (k + i)) actions 0)
                (nth (2 * (k + i) + 1) actions 0 * 1000))
             (build_cmds k states actions)).
Proof.
  intros k states actions. revert k.
  induction states as [|a rest IH]; intros k; cbn [build_cmds filter map].
  - split; [reflexivity|]. intros [|i] ac H; discriminate H.
  - destruct (IH (S k)) as [IH1 IH2].
    destruct (get_alive a) eqn:Ea; cbn [negb map].
    + split; [f_equal; exact IH1|].
      intros [|i] ac Hn Hl; cbn [nth_error] in Hn.
      * injection Hn as <-. left. rewrite Nat.add_0_r. reflexivity.
      * right. replace (k + S i)%nat with (S k + i)%nat by lia. apply IH2; assumption.
    + split; [exact IH1|].
      intros [|i] ac Hn Hl; cbn [nth_error] in Hn.
      * injection Hn as <-. congruence.
      * replace (k + S i)%nat with (S k + i)%nat by lia. apply IH2; assumption.
Qed.

Section StepOutcome.

Context {SimState Feats : Type}.
Variable sim_step : SimState -> list Cmd -> list AcState * SimState.
Variable encode_feats : list AcState -> Feats.

Lemma step_full (env : EnvState SimState) (action : list R)
  (res : StepResult Feats) (env' : EnvState SimState) :
  step sim_step encode_feats env action = Some (res, env') ->
  exists last states,
    last_states env = Some last
    /\ states = fst (sim_step (sim env) (build_cmds 0 (firstn MAX_AC last) action))
    /\ env' = mkEnv (snd (sim_step (sim env) (build_cmds 0 (firstn MAX_AC last) action)))
                (horizon env) (alive_array states) (Some states) (step_count env + 1)
    /\ info_los (info res) = snd (Utils.pairwise_min_separation_nm states)
    /\ info_min_sep_nm (info res) = fst (Utils.pairwise_min_separation_nm states)
    /\ num_alive (info res) = Py.int (Py.sum (alive_array states))
    /\ info_step_count (info res) = (step_count env + 1)%Z
    /\ Reward.catastrophe (r_components (info res)) =
       (if (2 <=? Z.of_nat (info_los (info res)))%Z then -10 else 0)
    /\ Reward.near (r_components (info res)) =
       (if Py.ltb (info_min_sep_nm (info res)) 6 then -2 else 0)
    /\ terminated res =
       (if Py.eqb (Py.sum (alive_array states)) 0 then true
        else if Py.ltb (Reward.catastrophe (r_components (info res))) 0 then true
        else false)
    /\ truncated res = (horizon env <=? step_count env + 1)%Z.
Proof.
  unfold step.
  destruct (negb (length action =? MAX_AC * 2)%nat); [discriminate|].
  destruct (last_states env) as [last|]; [|discriminate].
  destruct (sim_step (sim env) _) as [states sim'] eqn:Es.
  unfold encode_obs.
  destruct (horizon env =? 0)%Z; [discriminate|].
  destruct (Utils.pairwise_min_separation_nm states) as [ms lc] eqn:Ep.
  pose proof (RewardFacts.compute_reward_eq last states ms (Z.of_nat lc)
                (alive_array states)) as Er. cbv zeta in Er.
  destruct (Reward.compute_reward last states ms (Z.of_nat lc) (alive_array states))
    as [rw comps].
  injection Er as -> ->.
  intros H. injection H as <- <-.
  exists last, states.
  cbn [info r_components info_los info_min_sep_nm num_alive info_step_count
       terminated truncated fst snd Reward.catastrophe Reward.near].
  rewrite Es, Ep. cbn [fst snd].
  repeat split.
  destruct (horizon env <=? step_count env + 1)%Z; reflexivity.
Qed.

End StepOutcome.

(** X11: every returning [step] moves the step counter up by exactly one,
    keeps the horizon, stores the simulator's new states and their mask,
    and reports [num_alive] as the number of live aircraft among the first
    [MAX_AC]; it is [terminated] exactly when at least two losses of
    separation were counted or no aircraft is alive, and [truncated]
    exactly when the new step count has reached the horizon. *)
Theorem step_outcome :
  forall (SimState Feats : Type)
         (sim_step : SimState -> list Cmd -> list AcState * SimState)
         (encode_feats : list AcState -> Feats)
         (env : EnvState SimState) (action : list R)
         (res : StepResult Feats) (env' : EnvState SimState),
    step sim_step encode_feats env action = Some (res, env') ->
    exists last states,
      last_states env = Some last
      /\ states = fst (sim_step (sim env) (build_cmds 0 (firstn MAX_AC last) action))
      /\ last_states env' = Some states
      /\ step_count env' = (step_count env + 1)%Z
      /\ horizon env' = horizon env
      /\ alive_mask env' = alive_array states
      /\ info_step_count (info res) = step_count env'
      /\ num_alive (info res) = Z.of_nat (count_live (firstn MAX_AC states))
      /\ (0 <= num_alive (info res) <= 16)%Z
      /\ (terminated res = true <->
          (2 <= info_los (info res))%nat \/ count_live (firstn MAX_AC states) = 0%nat)
      /\ (truncated res = true <-> (horizon env <= step_count env + 1)%Z).
Proof.
  intros SimState Feats sim_step encode_feats env action res env' H.
  destruct (step_full sim_step encode_feats env action res env' H)
    as (last & states & Hl & Hs & He & Hlos & _ & Hn & Hc & Hcat & _ & Ht & Htr).
  exists last, states. subst env'. cbn [last_states step_count horizon alive_mask].
  rewrite alive_array_sum, int_INR in Hn.
  pose proof (count_live_bound states) as Hb. unfold MAX_AC in Hb at 2.
  split; [exact Hl|]. split; [exact Hs|]. split; [reflexivity|].
  split; [reflexivity|]. split; [reflexivity|]. split; [reflexivity|].
  split; [exact Hc|]. split; [exact Hn|]. split; [lia|].
  split; [|rewrite Htr; apply Z.leb_le].
  rewrite Ht, Hcat, alive_array_sum. split.
  - intros Hterm.
    destruct (Py.eqb (INR (count_live (firstn MAX_AC states))) 0) eqn:E0.
    + right. apply PyFacts.eqb_true_iff in E0. apply INR_eq. exact E0.
    + left. destruct (Z.leb_spec 2 (Z.of_nat (info_los (info res)))); [lia|].
      rewrite (proj2 (PyFacts.ltb_false_iff 0 0)) in Hterm by lra. discriminate.
  - intros [H2|H0].
    + destruct (Py.eqb (INR (count_live (firstn MAX_AC states))) 0); [reflexivity|].
      destruct (Z.leb_spec 2 (Z.of_nat (info_los (info res)))); [|lia].
      rewrite (proj2 (PyFacts.ltb_true_iff (-10) 0)) by lra. reflexivity.
    + rewrite H0. cbn [INR].
      rewrite (proj2 (PyFacts.eqb_true_iff 0 0)) by reflexivity. reflexivity.
Qed.

(** A step of the sample environment on a zero action. *)
Lemma step_outcome_witness :
  exists res env',
    step Samples.stuck_sim (fun _ => tt) Samples.stuck_env (repeat 0 32)
      = Some (res, env')
    /\ step_count env' = 1%Z
    /\ num_alive (info res) = 3%Z.
Proof.
  destruct (EnvFacts.step_returns Samples.stuck_sim (fun _ => tt) Samples.stuck_env
              (repeat 0 32)) as (res & env' & H);
    [reflexivity|discriminate|discriminate|].
  exists res, env'. split; [exact H|].
  destruct (step_outcome _ _ _ _ _ _ _ _ H)
    as (last & states & _ & Hs & _ & Hc & _ & _ & _ & Hn & _).
  split; [exact Hc|].
  rewrite Hn, Hs. reflexivity.
Defined.

(** X12: with a non-zero horizon [reset] returns, clears the step
    counter, stores the simulator's initial states and reports the number
    of live aircraft among the first [MAX_AC]; every well-shaped [step]
    after it returns with a step count of 1 and is truncated only when the
    horizon is at most 1.  The elapsed-time entry of the observation
    [reset] returns is computed from the step counter as it was before the
    reset. *)
Theorem reset_then_step :
  forall (SimState Feats : Type)
         (sim_reset : SimState -> list AcState * SimState)
         (sim_step : SimState -> list Cmd -> list AcState * SimState)
         (encode_feats : list AcState -> Feats)
         (env : EnvState SimState),
    horizon env <> 0%Z ->
    exists obs info0 env0,
      EnvReset.reset sim_reset encode_feats env = Some (obs, info0, env0)
      /\ step_count env0 = 0%Z
      /\ horizon env0 = horizon env
      /\ last_states env0 = Some (fst (sim_reset (sim env)))
      /\ EnvReset.reset_num_alive info0 =
         Z.of_nat (count_live (firstn MAX_AC (fst (sim_reset (sim env)))))
      /\ nth 3 (global_feats obs) 0 = IZR (step_count env) / IZR (horizon env)
      /\ (forall action,
            length action = (MAX_AC * 2)%nat ->
            exists res env1,
              step sim_step encode_feats env0 action = Some (res, env1)
              /\ step_count env1 = 1%Z
              /\ (truncated res = true <-> (horizon env <= 1)%Z)).
Proof.
  intros SimState Feats sim_reset sim_step encode_feats env Hh.
  unfold EnvReset.reset.
  destruct (sim_reset (sim env)) as [states sim'] eqn:Es.
  unfold encode_obs. cbv zeta.
  destruct (Z.eqb_spec (horizon env) 0) as [?|_]; [contradiction|].
  do 3 eexists. split; [reflexivity|].
  cbn [step_count horizon last_states EnvReset.reset_num_alive global_feats nth fst].
  split; [reflexivity|]. split; [reflexivity|]. split; [reflexivity|].
  split; [rewrite alive_array_sum; apply int_INR|].
  split; [reflexivity|].
  intros action Ha.
  destruct (EnvFacts.step_returns sim_step encode_feats
              (mkEnv sim' (horizon env) (alive_array states) (Some states) 0) action)
    as (res & env1 & H); [exact Ha|discriminate|exact Hh|].
  exists res, env1. split; [exact H|].
  destruct (step_full sim_step encode_feats _ _ _ _ H)
    as (last & sts & _ & _ & He & _ & _ & _ & _ & _ & _ & _ & Htr).
  subst env1. cbn [step_count horizon] in *.
  split; [reflexivity|]. rewrite Htr. apply Z.leb_le.
Qed.

(** The sample simulator, reset and stepped once. *)
Lemma reset_then_step_witness :
  exists obs info0 env0,
    EnvReset.reset (fun s : unit => (Samples.stuck_states, s)) (fun _ => tt)
      Samples.stuck_env = Some (obs, info0, env0)
    /\ step_count env0 = 0%Z
    /\ EnvReset.reset_num_alive info0 = 3%Z.
Proof.
  destruct (reset_then_step unit unit (fun s : unit => (Samples.stuck_states, s))
              Samples.stuck_sim (fun _ => tt) Samples.stuck_env)
    as (obs & info0 & env0 & H & Hc & _ & _ & Hn & _); [discriminate|].
  exists obs, info0, env0. split; [exact H|]. split; [exact Hc|].
  rewrite Hn. reflexivity.
Defined.

End EnvMoreFacts.

(** ** More on the event bus *)

Module DictFacts.

Section Laws.

Context {K V : Type}.
Variable eqb : K -> K -> bool.
Hypothesis eqb_eq : forall a b, eqb a b = true <-> a = b.

Lemma eqb_refl (k : K) : eqb k k = true.
Proof. apply eqb_eq. reflexivity. Qed.

Lemma get_set_same (k : K) (v : V) (d : list (K * V)) :
  Dict.get eqb k (Dict.set eqb k v d) = Some v.
Proof.
  induction d as [|[k' v'] d IH]; cbn [Dict.set Dict.get].
  - rewrite eqb_refl. reflexivity.
  - destruct (eqb k k') eqn:E; cbn [Dict.get].
    + rewrite eqb_refl. reflexivity.
    + rewrite E. exact IH.
Qed.

Lemma get_set_other (k k' : K) (v : V) (d : list (K * V)) :
  k' <> k -> Dict.get eqb k' (Dict.set eqb k v d) = Dict.get eqb k' d.
Proof.
  intros Hne. induction d as [|[k0 v0] d IH]; cbn [Dict.set Dict.get].
  - destruct (eqb k' k) eqn:E; [apply eqb_eq in E; contradiction|reflexivity].
  - destruct (eqb k k0) eqn:E; cbn [Dict.get].
    + apply eqb_eq in E. subst k0.
      destruct (eqb k' k) eqn:E'; [apply eqb_eq in E'; contradiction|reflexivity].
    + rewrite IH. reflexivity.
Qed.

Lemma set_fresh (k : K) (v : V) (d : list (K * V)) :
  Dict.get eqb k d = None -> Dict.set eqb k v d = d ++ [(k, v)].
Proof.
  induction d as [|[k' v'] d IH]; cbn [Dict.set Dict.get app]; [reflexivity|].
  destruct (eqb k k'); [discriminate|]. intros H. rewrite IH by exact H. reflexivity.
Qed.

Lemma set_same (k : K) (v : V) (d : list (K * V)) :
  Dict.get eqb k d = Some v -> Dict.set eqb k v d = d.
Proof.
  induction d as [|[k' v'] d IH]; cbn [Dict.set Dict.get]; [discriminate|].
  destruct (eqb k k') eqn:E.
  - apply eqb_eq in E. subst k'. intros [= ->]. reflexivity.
  - intros H. rewrite IH by exact H. reflexivity.
Qed.

Lemma del_added (k : K) (v : V) (d : list (K * V)) :
  Dict.get eqb k d = None -> Dict.del eqb k (d ++ [(k, v)]) = d.
Proof.
  induction d as [|[k' v'] d IH]; cbn [Dict.del Dict.get app].
  - rewrite eqb_refl. reflexivity.
  - destruct (eqb k k'); [discriminate|]. intros H. rewrite IH by exact H. reflexivity.
Qed.

Lemma mem_added (k : K) (v : V) (d : list (K * V)) :
  Dict.mem eqb k (d ++ [(k, v)]) = true.
Proof.
  unfold Dict.mem. induction d as [|[k' v'] d IH]; cbn [Dict.get app].
  - rewrite eqb_refl. reflexivity.
  - destruct (eqb k k'); [reflexivity|exact IH].
Qed.

Lemma get_del_same (k : K) (d : list (K * V)) :
  Dict.get eqb k d = None -> Dict.del eqb k d = d.
Proof.
  induction d as [|[k' v'] d IH]; cbn [Dict.del Dict.get]; [reflexivity|].
  destruct (eqb k k'); [discriminate|]. intros H. rewrite IH by exact H. reflexivity.
Qed.

End Laws.

End DictFacts.

Module BusMoreFacts.
Import Events Bus BusOps.

Lemma EventType_eqb_eq (a b : EventType) : EventType_eqb a b = true <-> a = b.
Proof.
  unfold EventType_eqb. destruct (EventType_eq_dec a b); split; intros; congruence.
Qed.

Section Registry.

Context {W : Type}.
Local Abbreviation Registry := (list (EventType * list (string * Callback W))).

Lemma registry_count_inner (et : EventType) (reg : Registry) :
  registry_count et reg = length (inner_of et reg).
Proof. unfold registry_count, inner_of. destruct (Dict.get _ et reg); reflexivity. Qed.

Lemma inner_of_set_same (et : EventType) (d : list (string * Callback W)) (reg : Registry) :
  inner_of et (Dict.set EventType_eqb et d reg) = d.
Proof. unfold inner_of. rewrite (DictFacts.get_set_same _ EventType_eqb_eq). reflexivity. Qed.

Lemma inner_of_set_other (et et' : EventType) (d : list (string * Callback W))
  (reg : Registry) :
  et' <> et -> inner_of et' (Dict.set EventType_eqb et d reg) = inner_of et' reg.
Proof.
  intros H. unfold inner_of.
  rewrite (DictFacts.get_set_other _ EventType_eqb_eq) by exact H. reflexivity.
Qed.

Lemma inner_of_restored (et et' : EventType) (reg : Registry) :
  inner_of et' (Dict.set EventType_eqb et (inner_of et reg) reg) = inner_of et' reg.
Proof.
  destruct (EventType_eq_dec et' et) as [->|Hne].
  - apply inner_of_set_same.
  - apply inner_of_set_other. exact Hne.
Qed.

Lemma total_set (et : EventType) (d : list (string * Callback W)) (reg : Registry) :
  (registry_total (Dict.set EventType_eqb et d reg) + length (inner_of et reg) =
   registry_total reg + length d)%nat.
Proof.
  unfold registry_total, inner_of.
  induction reg as [|[e d0] rest IH]; cbn [Dict.set Dict.get map list_sum fold_right snd].
  - cbn. lia.
  - destruct (EventType_eqb et e); cbn [map list_sum fold_right snd].
    + unfold list_sum. lia.
    + unfold list_sum in *. lia.
Qed.

Lemma holds_inner (sid : string) (et : EventType) (reg : Registry) :
  registry_holds sid reg = false ->
  Dict.get String.eqb sid (inner_of et reg) = None.
Proof.
  unfold registry_holds, inner_of.
  induction reg as [|[e d] rest IH]; cbn [existsb Dict.get snd]; [reflexivity|].
  intros H. apply orb_false_iff in H. destruct H as [Hd Hrest].
  destruct (EventType_eqb et e).
  - unfold Dict.mem in Hd. destruct (Dict.get String.eqb sid d); [discriminate|reflexivity].
  - apply IH. exact Hrest.
Qed.

Lemma remove_unknown (sid : string) (reg : Registry) :
  registry_holds sid reg = false -> registry_remove W sid reg = None.
Proof.
  unfold registry_holds.
  induction reg as [|[e d] rest IH]; cbn [existsb registry_remove snd]; [reflexivity|].
  intros H. apply orb_false_iff in H. destruct H as [Hd Hrest].
  rewrite Hd, (IH Hrest). reflexivity.
Qed.

Lemma holds_set (sid : string) (et : EventType) (d : list (string * Callback W))
  (reg : Registry) :
  registry_holds sid reg = false ->
  registry_holds sid (Dict.set EventType_eqb et d reg) = Dict.mem String.eqb sid d.
Proof.
  unfold registry_holds.
  induction reg as [|[e d0] rest IH]; cbn [existsb Dict.set snd].
  - intros _. apply orb_false_r.
  - intros H. apply orb_false_iff in H. destruct H as [Hd Hrest].
    destruct (EventType_eqb et e); cbn [existsb snd].
    + rewrite Hrest. apply orb_false_r.
    + rewrite Hd, (IH Hrest). reflexivity.
Qed.

(** Adding a fresh id and removing it again restores the inner
    dictionary. *)
Lemma remove_added (sid : string) (cb : Callback W) (et : EventType) (reg : Registry) :
  registry_holds sid reg = false ->
  registry_add W et sid cb reg =
    Dict.set EventType_eqb et (inner_of et reg ++ [(sid, cb)]) reg
  /\ registry_remove W sid (registry_add W et sid cb reg) =
     Some (Dict.set EventType_eqb et (inner_of et reg) reg).
Proof.
  intros H.
  assert (Hadd : registry_add W et sid cb reg =
                 Dict.set EventType_eqb et (inner_of et reg ++ [(sid, cb)]) reg).
  { unfold registry_add. fold (inner_of et reg).
    rewrite (DictFacts.set_fresh String.eqb) by (apply holds_inner; exact H).
    reflexivity. }
  split; [exact Hadd|]. rewrite Hadd. clear Hadd.
  unfold registry_holds in H. unfold inner_of.
  induction reg as [|[e d] rest IH]; cbn [Dict.get Dict.set registry_remove existsb snd] in *.
  - cbn [app]. unfold Dict.mem. cbn [Dict.get]. rewrite String.eqb_refl.
    cbn [Dict.del]. rewrite String.eqb_refl. reflexivity.
  - apply orb_false_iff in H. destruct H as [Hd Hrest].
    destruct (EventType_eqb et e) eqn:E; cbn [registry_remove].
    + rewrite (DictFacts.mem_added String.eqb String.eqb_eq).
      rewrite (DictFacts.del_added String.eqb String.eqb_eq).
      * reflexivity.
      * unfold Dict.mem in Hd. destruct (Dict.get String.eqb sid d); [discriminate|reflexivity].
    + rewrite Hd, (IH Hrest). reflexivity.
Qed.

Lemma count_added (sid : string) (cb : Callback W) (et : EventType) (reg : Registry) :
  registry_holds sid reg = false ->
  registry_count et (registry_add W et sid cb reg) = S (registry_count et reg)
  /\ registry_total (registry_add W et sid cb reg) = S (registry_total reg)
  /\ registry_holds sid (registry_add W et sid cb reg) = true.
Proof.
  intros H. destruct (remove_added sid cb et reg H) as [Hadd _]. rewrite Hadd.
  split; [|split].
  - rewrite !registry_count_inner, inner_of_set_same, length_app. cbn [length]. lia.
  - pose proof (total_set et (inner_of et reg ++ [(sid, cb)]) reg) as Ht.
    rewrite length_app in Ht. cbn [length] in Ht. lia.
  - rewrite holds_set by exact H. apply (DictFacts.mem_added String.eqb String.eqb_eq).
Qed.

Lemma count_restored (sid : string) (et : EventType) (reg : Registry) :
  registry_holds sid reg = false ->
  (forall t, registry_count t (Dict.set EventType_eqb et (inner_of et reg) reg)
             = registry_count t reg)
  /\ registry_total (Dict.set EventType_eqb et (inner_of et reg) reg) = registry_total reg
  /\ registry_holds sid (Dict.set EventType_eqb et (inner_of et reg) reg) = false.
Proof.
  intros H. split; [|split].
  - intros t. rewrite !registry_count_inner, inner_of_restored. reflexivity.
  - pose proof (total_set et (inner_of et reg) reg). lia.
  - rewrite holds_set by exact H. unfold Dict.mem.
    rewrite (holds_inner sid et reg H). reflexivity.
Qed.

Lemma tasks_for_inner (ev : EventData) (b : State W) :
  tasks_for ev b =
  map (fun cb => SafeCallback cb ev)
    (Dict.values (inner_of (event_type ev) (subscribers b)))
  ++ map (fun cb => SafeAsyncCallback cb ev)
       (Dict.values (inner_of (event_type ev) (async_subscribers b))).
Proof. reflexivity. Qed.

Lemma subscribe_roundtrip (b : State W) (et : EventType) (cb : Callback W) (sid : string) :
  in_use sid b = false ->
  let b1 := snd (subscribe et cb sid b) in
  let r := unsubscribe sid b1 in
  get_subscriber_count (Some et) b1 = S (get_subscriber_count (Some et) b)
  /\ get_subscriber_count None b1 = S (get_subscriber_count None b)
  /\ in_use sid b1 = true
  /\ fst r = true
  /\ (forall t, get_subscriber_count t (snd r) = get_subscriber_count t b)
  /\ (forall ev, tasks_for ev (snd r) = tasks_for ev b)
  /\ unsubscribe sid (snd r) = (false, snd r)
  /\ unsubscribe sid b = (false, b).
Proof.
  intros Hu. unfold in_use in Hu. apply orb_false_iff in Hu. destruct Hu as [Hs Ha].
  assert (Hunknown : unsubscribe sid b = (false, b)).
  { unfold unsubscribe. rewrite (remove_unknown sid _ Hs), (remove_unknown sid _ Ha).
    reflexivity. }
  cbv zeta. unfold subscribe.
  destruct (is_coroutine cb); cbn [snd].
  - (* asynchronous callback *)
    destruct (remove_added sid cb et (async_subscribers b) Ha) as [_ Hrem].
    destruct (count_added sid cb et (async_subscribers b) Ha) as (Hc1 & Hc2 & Hc3).
    destruct (count_restored sid et (async_subscribers b) Ha) as (Hr1 & Hr2 & Hr3).
    unfold unsubscribe. cbn [subscribers async_subscribers].
    rewrite (remove_unknown sid _ Hs), Hrem. cbn [fst snd].
    unfold get_subscriber_count, in_use.
    cbn [subscribers async_subscribers].
    rewrite Hc1, Hc2, Hc3, Hr2.
    split; [lia|]. split; [lia|]. split; [apply orb_true_r|]. split; [reflexivity|].
    split; [intros [t|]; [rewrite Hr1|]; reflexivity|].
    split.
    { intros ev. rewrite !tasks_for_inner. cbn [subscribers async_subscribers].
      rewrite inner_of_restored. reflexivity. }
    split;
      [|rewrite ?(remove_unknown sid _ Hs), ?(remove_unknown sid _ Ha); reflexivity].
    rewrite ?(remove_unknown sid _ Hs), (remove_unknown sid _ Hr3). reflexivity.
  - (* synchronous callback *)
    destruct (remove_added sid cb et (subscribers b) Hs) as [_ Hrem].
    destruct (count_added sid cb et (subscribers b) Hs) as (Hc1 & Hc2 & Hc3).
    destruct (count_restored sid et (subscribers b) Hs) as (Hr1 & Hr2 & Hr3).
    unfold unsubscribe. cbn [subscribers async_subscribers].
    rewrite Hrem. cbn [fst snd].
    unfold get_subscriber_count, in_use.
    cbn [subscribers async_subscribers].
    rewrite Hc1, Hc2, Hc3, Hr2.
    split; [lia|]. split; [lia|]. split; [reflexivity|]. split; [reflexivity|].
    split; [intros [t|]; [rewrite Hr1|]; reflexivity|].
    split.
    { intros ev. rewrite !tasks_for_inner. cbn [subscribers async_subscribers].
      rewrite inner_of_restored. reflexivity. }
    split;
      [|rewrite ?(remove_unknown sid _ Hs), ?(remove_unknown sid _ Ha); reflexivity].
    rewrite (remove_unknown sid _ Hr3), ?(remove_unknown sid _ Ha). reflexivity.
Qed.

End Registry.

(** X13: subscribing a callback under an id not in use adds one to the
    subscriber count of its event type and to the total; unsubscribing
    that id then returns [True] and brings every count, and the work items
    queued for any event, back to what they were; a second [unsubscribe] of
    the id, or an [unsubscribe] of an id never registered, returns [False]
    and changes nothing. *)
Theorem subscribe_unsubscribe_roundtrip :
  forall (W : Type) (b : State W) (et : EventType) (cb : Callback W) (sid : string),
    in_use sid b = false ->
    let b1 := snd (subscribe et cb sid b) in
    let r := unsubscribe sid b1 in
    get_subscriber_count (Some et) b1 = S (get_subscriber_count (Some et) b)
    /\ get_subscriber_count None b1 = S (get_subscriber_count None b)
    /\ in_use sid b1 = true
    /\ fst r = true
    /\ (forall t, get_subscriber_count t (snd r) = get_subscriber_count t b)
    /\ (forall ev, tasks_for ev (snd r) = tasks_for ev b)
    /\ unsubscribe sid (snd r) = (false, snd r)
    /\ unsubscribe sid b = (false, b).
Proof. intros W b et cb sid. apply subscribe_roundtrip. Qed.

(** The recorder, subscribed to a fresh bus and unsubscribed again. *)
Lemma subscribe_unsubscribe_roundtrip_witness :
  let b := init (W := list EventData) 1000 1000 0 in
  let b1 := snd (subscribe ENV_STEP BusSamples.recorder "rec" b) in
  get_subscriber_count (Some ENV_STEP) b1 = 1%nat
  /\ fst (unsubscribe "rec" b1) = true
  /\ get_subscriber_count None (snd (unsubscribe "rec" b1)) = 0%nat.
Proof.
  cbv zeta.
  destruct (subscribe_unsubscribe_roundtrip (list EventData) (init 1000 1000 0)
              ENV_STEP BusSamples.recorder "rec" eq_refl)
    as (H1 & _ & _ & H4 & H5 & _).
  cbv zeta in H1, H4, H5.
  split; [rewrite H1; reflexivity|]. split; [exact H4|].
  rewrite (H5 None). reflexivity.
Defined.

Section Filters.

Context {W : Type}.

Lemma apply_filters_false_iff (fs : list Filter) (ev : EventData) :
  apply_filters fs ev = false <-> exists f, In f fs /\ f ev = Some false.
Proof.
  induction fs as [|f fs IH]; cbn [apply_filters].
  - split; [discriminate|intros (f & [] & _)].
  - destruct (f ev) as [[|]|] eqn:E.
    + rewrite IH. split.
      * intros (g & Hg & Hv). exists g. split; [right; exact Hg|exact Hv].
      * intros (g & [<-|Hg] & Hv); [congruence|]. exists g. auto.
    + split; [|reflexivity]. intros _. exists f. split; [left; reflexivity|exact E].
    + rewrite IH. split.
      * intros (g & Hg & Hv). exists g. split; [right; exact Hg|exact Hv].
      * intros (g & [<-|Hg] & Hv); [congruence|]. exists g. auto.
Qed.

Lemma publish_vetoed (ev : EventData) (now : R) (b : State W) :
  running b = true -> now - rate_window_start b < 1 ->
  (rate_counter b < rate_limit b)%Z ->
  apply_filters (Dict.values (filters b)) ev = false ->
  event_history (publish ev now b) = event_history b
  /\ executor (publish ev now b) = executor b
  /\ rate_counter (publish ev now b) = (rate_counter b + 1)%Z.
Proof.
  intros Hr Hw Hc Hf. unfold publish. rewrite Hr. cbn [negb].
  rewrite BusFacts.check_rate_limit_in_window by exact Hw.
  destruct (Z.leb_spec (rate_limit b) (rate_counter b)); [lia|].
  cbn [negb filters]. rewrite Hf. cbn. auto.
Qed.

Lemma filter_roundtrip (filter_id : string) (f : Filter) (b : State W) :
  Dict.mem String.eqb filter_id (filters b) = false ->
  remove_filter filter_id (add_filter filter_id f b) = (true, b)
  /\ remove_filter filter_id b = (false, b).
Proof.
  intros H. unfold remove_filter, add_filter. cbn [filters].
  assert (Hg : Dict.get String.eqb filter_id (filters b) = None).
  { unfold Dict.mem in H. destruct (Dict.get String.eqb filter_id (filters b));
      [discriminate|reflexivity]. }
  rewrite H, (DictFacts.set_fresh String.eqb) by exact Hg.
  rewrite (DictFacts.mem_added String.eqb String.eqb_eq).
  rewrite (DictFacts.del_added String.eqb String.eqb_eq) by exact Hg.
  cbn. split; [|reflexivity]. destruct b; reflexivity.
Qed.

End Filters.


Section History.

Context {W : Type}.

Lemma deque_append_bound {A : Type} (C : nat) (d : list A) (x : A) :
  (length d <= C)%nat -> (length (Py.deque_append C d x) <= C)%nat.
Proof.
  intros H. rewrite PyFacts.deque_append_last_n by exact H.
  rewrite PyFacts.last_n_length. lia.
Qed.

Lemma publish_history_bound (ev : EventData) (now : R) (b : State W) :
  (length (event_history b) <= max_history b)%nat ->
  (length (event_history (publish ev now b)) <= max_history b)%nat.
Proof.
  intros H. unfold publish.
  destruct (running b); cbn [negb]; [|exact H].
  destruct (check_rate_limit now b) as [ok [c ws]].
  destruct ok; cbn [negb]; [|exact H].
  destruct (apply_filters _ ev); cbn [negb]; [|exact H].
  cbn. apply deque_append_bound. exact H.
Qed.

Lemma publish_all_history_bound (calls : list (EventData * R)) (b : State W) :
  (length (event_history b) <= max_history b)%nat ->
  (length (event_history (publish_all calls b)) <= max_history b)%nat.
Proof.
  revert b. induction calls as [|c calls IH]; intros b H; [exact H|].
  unfold publish_all. cbn [fold_left]. fold (publish_all calls (publish (fst c) (snd c) b)).
  destruct (BusFacts.publish_preserves (fst c) (snd c) b) as (_ & _ & _ & _ & _ & Hm).
  rewrite <- Hm. apply IH. rewrite Hm. apply publish_history_bound. exact H.
Qed.

Lemma publish_all_history (calls : list (EventData * R)) (b : State W) :
  (length (event_history b) <= max_history b)%nat ->
  running b = true -> filters b = [] ->
  (0 <= rate_counter b)%Z ->
  (rate_counter b + Z.of_nat (length calls) <= rate_limit b)%Z ->
  event_history (publish_all calls b) =
  Py.last_n (max_history b) (event_history b ++ map fst calls).
Proof.
  revert b. induction calls as [|c calls IH]; intros b Hlen Hr Hf H0 Hl.
  - cbn [publish_all fold_left map]. rewrite app_nil_r. unfold Py.last_n.
    replace (length (event_history b) - max_history b)%nat with 0%nat by lia.
    reflexivity.
  - unfold publish_all. cbn [fold_left map].
    fold (publish_all calls (publish (fst c) (snd c) b)).
    cbn [length] in Hl.
    destruct (FanOut.publish_admitted (fst c) (snd c) b Hr Hf) as (_ & Hh & Hc); [lia|].
    destruct (BusFacts.publish_preserves (fst c) (snd c) b)
      as (_ & _ & Hf' & Hr' & Hl' & Hm).
    rewrite IH.
    + rewrite Hm, Hh, PyFacts.deque_append_last_n by exact Hlen.
      rewrite PyFacts.last_n_app, <- app_assoc. reflexivity.
    + rewrite Hm. apply publish_history_bound. exact Hlen.
    + congruence.
    + congruence.
    + lia.
    + rewrite Hl'. lia.
Qed.

End History.

(** X15: the event history never grows beyond [max_history], whatever is
    published; and when the published events are all admitted (bus
    running, no filter, within the rate limit) the history afterwards is
    the [max_history] most recent events, oldest first. *)
Theorem history_keeps_most_recent :
  forall (W : Type) (calls : list (EventData * R)) (b : State W),
    (length (event_history b) <= max_history b)%nat ->
    (length (event_history (publish_all calls b)) <= max_history b)%nat
    /\ (running b = true -> filters b = [] ->
        (0 <= rate_counter b)%Z ->
        (rate_counter b + Z.of_nat (length calls) <= rate_limit b)%Z ->
        event_history (publish_all calls b) =
        Py.last_n (max_history b) (event_history b ++ map fst calls)).
Proof.
  intros W calls b H. split.
  - apply publish_all_history_bound. exact H.
  - apply publish_all_history. exact H.
Qed.

(** Three events on the sample bus. *)
Lemma history_keeps_most_recent_witness :
  event_history (publish_all BusSamples.three_calls BusSamples.test_bus)
  = map fst BusSamples.three_calls.
Proof.
  destruct (history_keeps_most_recent (list EventData) BusSamples.three_calls
              BusSamples.test_bus) as [_ H].
  - cbn. lia.
  - rewrite H; [reflexivity|reflexivity|reflexivity|cbn; lia|cbn; lia].
Defined.

Section Shutdown.

Context {W : Type}.

Lemma publish_stopped (ev : EventData) (now : R) (b : State W) :
  running b = false -> publish ev now b = b.
Proof. intros H. unfold publish. rewrite H. reflexivity. Qed.

Lemma publish_all_stopped (calls : list (EventData * R)) (b : State W) :
  running b = false -> publish_all calls b = b.
Proof.
  intros H. induction calls as [|c calls IH]; [reflexivity|].
  unfold publish_all. cbn [fold_left]. rewrite publish_stopped by exact H. exact IH.
Qed.


(** *** The pool's order *)

Lemma insert_at_perm {A : Type} (n : nat) (x : A) (l : list A) :
  Permutation (x :: l) (insert_at n x l).
Proof.
  unfold insert_at. rewrite <- (firstn_skipn n l) at 1.
  apply Permutation_middle.
Qed.

Lemma arrange_perm {A : Type} (picks : list nat) (queue : list A) :
  Permutation queue (arrange picks queue).
Proof.
  revert picks. induction queue as [|t q IH]; intros picks; cbn [arrange].
  - constructor.
  - cbv zeta. rewrite <- insert_at_perm. apply perm_skip. apply IH.
Qed.

Lemma arrange_fifo {A : Type} (queue : list A) : arrange [] queue = queue.
Proof.
  induction queue as [|t q IH]; cbn [arrange tl hd]; [reflexivity|].
  cbv zeta. rewrite IH, Nat.Div0.mod_0_l. reflexivity.
Qed.

(** Every rearrangement of the queue is the order some picks give. *)
Lemma arrange_any {A : Type} (queue order : list A) :
  Permutation queue order -> exists picks, arrange picks queue = order.
Proof.
  revert order. induction queue as [|t q IH]; intros order HP.
  - apply Permutation_nil in HP. subst. exists []. reflexivity.
  - assert (Hin : In t order) by (eapply Permutation_in; [exact HP|left; reflexivity]).
    destruct (in_split _ _ Hin) as (l1 & l2 & ->).
    apply Permutation_cons_app_inv in HP.
    destruct (IH _ HP) as (picks & E).
    exists (length l1 :: picks). cbn [arrange tl hd]. cbv zeta. rewrite E.
    rewrite Nat.mod_small by (rewrite length_app; lia).
    unfold insert_at.
    rewrite firstn_app, firstn_all, Nat.sub_diag, skipn_app, skipn_all, Nat.sub_diag.
    cbn [firstn skipn]. rewrite app_nil_r. reflexivity.
Qed.

Lemma shutdown_delivers (view : W -> list EventData) (picks : list nat)
  (b : State W) (w : W) (pending : list EventData) :
  Deliveries view (executor b) pending ->
  Permutation (view w ++ pending) (view (snd (shutdown picks b w))).
Proof.
  intros HD. unfold shutdown. cbn [snd]. rewrite FanOut.run_tasks_invokes_all.
  destruct (FanOut.deliveries_permutation view _ _ (arrange_perm picks (executor b)) _ HD)
    as (evs' & HD' & HP').
  rewrite (FanOut.deliveries_view view _ _ HD'). apply Permutation_app_head. exact HP'.
Qed.

End Shutdown.


Section Window.

Context {W : Type}.

Lemma publish_new_window (ev : EventData) (now : R) (b : State W) :
  running b = true -> filters b = [] ->
  1 <= now - rate_window_start b -> (1 <= rate_limit b)%Z ->
  rate_counter (publish ev now b) = 1%Z
  /\ rate_window_start (publish ev now b) = now
  /\ executor (publish ev now b) = executor b ++ tasks_for ev b
  /\ event_history (publish ev now b) =
     Py.deque_append (max_history b) (event_history b) ev.
Proof.
  intros Hr Hf Hw Hl. unfold publish. rewrite Hr. cbn [negb].
  unfold check_rate_limit.
  rewrite (proj2 (PyFacts.leb_true_iff _ _) Hw).
  destruct (Z.leb_spec (rate_limit b) 0); [lia|].
  cbn [negb filters]. rewrite Hf. cbn. auto.
Qed.

Lemma publish_zero_limit (ev : EventData) (now : R) (b : State W) :
  (rate_limit b <= 0)%Z -> (0 <= rate_counter b)%Z ->
  event_history (publish ev now b) = event_history b
  /\ executor (publish ev now b) = executor b
  /\ rate_limit (publish ev now b) = rate_limit b
  /\ (0 <= rate_counter (publish ev now b))%Z.
Proof.
  intros Hl Hc. unfold publish.
  destruct (running b); cbn [negb]; [|auto].
  unfold check_rate_limit.
  destruct (Py.leb 1 (now - rate_window_start b)).
  - destruct (Z.leb_spec (rate_limit b) 0); [|lia]. cbn. repeat split; lia.
  - destruct (Z.leb_spec (rate_limit b) (rate_counter b)); [|lia]. cbn. auto.
Qed.

Lemma publish_all_zero_limit (calls : list (EventData * R)) (b : State W) :
  (rate_limit b <= 0)%Z -> (0 <= rate_counter b)%Z ->
  event_history (publish_all calls b) = event_history b
  /\ executor (publish_all calls b) = executor b.
Proof.
  revert b. induction calls as [|c calls IH]; intros b Hl Hc; [auto|].
  unfold publish_all. cbn [fold_left]. fold (publish_all calls (publish (fst c) (snd c) b)).
  destruct (publish_zero_limit (fst c) (snd c) b Hl Hc) as (Hh & He & Hl' & Hc').
  destruct (IH (publish (fst c) (snd c) b)) as [H1 H2]; [lia|exact Hc'|].
  rewrite H1, H2. auto.
Qed.

End Window.

(** X17: a [publish] that comes one second or more after the start of the
    current window opens a new window: on a running bus without filters
    and with a limit of at least 1 it is admitted whatever the counter
    was, the counter restarts at 1 and the window starts at the time of the
    call. *)
Theorem new_window_admits :
  forall (W : Type) (ev : EventData) (now : R) (b : State W),
    running b = true -> filters b = [] ->
    1 <= now - rate_window_start b -> (1 <= rate_limit b)%Z ->
    rate_counter (publish ev now b) = 1%Z
    /\ rate_window_start (publish ev now b) = now
    /\ executor (publish ev now b) = executor b ++ tasks_for ev b
    /\ event_history (publish ev now b) =
       Py.deque_append (max_history b) (event_history b) ev.
Proof. intros W. exact publish_new_window. Qed.

(** The bus limited to two events per second, after three calls in the
    first window and a fourth call two seconds later. *)
Lemma new_window_admits_witness :
  rate_counter
    (publish (BusSamples.step_event 2) 2
       (publish_all BusSamples.three_calls BusSamples.tight_bus)) = 1%Z.
Proof.
  set (b := publish_all BusSamples.three_calls BusSamples.tight_bus).
  assert (Hp : running b = true /\ filters b = [] /\ rate_limit b = 2%Z
               /\ rate_window_start b = 0).
  { destruct (BusFacts.publish_all_counter BusSamples.three_calls BusSamples.tight_bus)
      as (H1 & H2 & H3 & _).
    - reflexivity.
    - intros c Hin. cbn in Hin. destruct Hin as [<-|[<-|[<-|[]]]]; cbn; lra.
    - fold b in H1, H2, H3. split; [exact H1|]. split; [|split; [exact H2|exact H3]].
      subst b. clear.
      assert (forall calls (s : State (list EventData)),
                 filters (publish_all calls s) = filters s) as Hf.
      { induction calls as [|c calls IH]; intros s; [reflexivity|].
        unfold publish_all. cbn [fold_left].
        fold (publish_all calls (publish (fst c) (snd c) s)).
        rewrite IH. apply BusFacts.publish_preserves. }
      rewrite Hf. reflexivity. }
  destruct Hp as (Hr & Hf & Hl & Hw).
  destruct (new_window_admits (list EventData) (BusSamples.step_event 2) 2 b)
    as (H & _); [exact Hr|exact Hf|rewrite Hw; lra|rewrite Hl; lia|exact H].
Defined.

(** X18: a bus whose rate limit is zero or negative drops every event:
    whatever is published, at whatever times, the history and the pool's
    queue stay as they were. *)
Theorem zero_limit_drops_everything :
  forall (W : Type) (calls : list (EventData * R)) (b : State W),
    (rate_limit b <= 0)%Z -> (0 <= rate_counter b)%Z ->
    event_history (publish_all calls b) = event_history b
    /\ executor (publish_all calls b) = executor b.
Proof. intros W. exact publish_all_zero_limit. Qed.

(** A fresh bus with limit 0. *)
Lemma zero_limit_drops_everything_witness :
  event_history
    (publish_all BusSamples.three_calls
       (snd (subscribe ENV_STEP BusSamples.recorder "rec" (init 1000 0 0)))) = [].
Proof.
  destruct (zero_limit_drops_everything (list EventData) BusSamples.three_calls
              (snd (subscribe ENV_STEP BusSamples.recorder "rec" (init 1000 0 0))))
    as [H _]; [cbn; lia|cbn; lia|].
  rewrite H. reflexivity.
Defined.

End BusMoreFacts.

(** ** Decision tracker: counters, ids and queries *)

Module TrackerMoreFacts.
Import Tracker TrackerOps.

Lemma log_decision_cases (c : Call) (tr : State) :
  log_decision c tr =
  if raises c then
    (None, mkTracker (max_decisions tr) (decisions tr) (S (decision_count tr)))
  else
    (Some (make_id (S (decision_count tr)) (c_time_id c)),
     mkTracker (max_decisions tr)
       (Py.deque_append (max_decisions tr) (decisions tr)
          (record_of (S (decision_count tr)) c))
       (S (decision_count tr))).
Proof.
  unfold log_decision, raises, record_of.
  destruct (vf_preds (c_policy_output c)) as [[|v l]|]; reflexivity.
Qed.

Lemma last_n_all {A : Type} (C : nat) (l : list A) :
  (length l <= C)%nat -> Py.last_n C l = l.
Proof.
  intros H. unfold Py.last_n.
  replace (length l - C)%nat with 0%nat by lia. reflexivity.
Qed.

Lemma log_all_any (calls : list Call) (tr : State) :
  (length (decisions tr) <= max_decisions tr)%nat ->
  log_all calls tr =
  (outcomes_from (decision_count tr) calls,
   mkTracker (max_decisions tr)
     (Py.last_n (max_decisions tr)
        (decisions tr ++ stored_from (decision_count tr) calls))
     (decision_count tr + length calls)).
Proof.
  revert tr. induction calls as [|c rest IH]; intros tr H.
  - cbn [log_all outcomes_from stored_from length].
    rewrite app_nil_r, Nat.add_0_r, last_n_all by exact H.
    destruct tr; reflexivity.
  - cbn [log_all outcomes_from stored_from length].
    rewrite log_decision_cases. destruct (raises c).
    + rewrite IH by exact H. cbn [max_decisions decisions decision_count].
      f_equal. f_equal. lia.
    + rewrite IH.
      * cbn [max_decisions decisions decision_count].
        rewrite PyFacts.deque_append_last_n by exact H.
        rewrite PyFacts.last_n_app, <- app_assoc. cbn [app].
        f_equal. f_equal. lia.
      * cbn [max_decisions decisions].
        rewrite PyFacts.deque_append_last_n by exact H.
        rewrite PyFacts.last_n_length. lia.
Qed.

Lemma outcomes_from_length (n : nat) (calls : list Call) :
  length (outcomes_from n calls) = length calls.
Proof. revert n. induction calls; intros n; cbn; auto. Qed.

Lemma stored_from_count (n : nat) (calls : list Call) :
  length (stored_from n calls) =
  length (filter (fun c => negb (raises c)) calls).
Proof.
  revert n. induction calls as [|c rest IH]; intros n; [reflexivity|].
  cbn [stored_from filter]. destruct (raises c); cbn [negb length]; rewrite IH; reflexivity.
Qed.

Lemma in_stored_from (n : nat) (calls : list Call) (d : DecisionRecord) :
  In d (stored_from n calls) ->
  exists k t, (n < k <= n + length calls)%nat /\ decision_id d = make_id k t.
Proof.
  revert n. induction calls as [|c rest IH]; intros n; cbn [stored_from In length].
  - intros [].
  - destruct (raises c).
    + intros H. destruct (IH _ H) as (k & t & Hk & E). exists k, t. split; [lia|exact E].
    + intros [<-|H].
      * exists (S n), (c_time_id c). split; [lia|reflexivity].
      * destruct (IH _ H) as (k & t & Hk & E). exists k, t. split; [lia|exact E].
Qed.

Lemma stored_ids_distinct (n : nat) (calls : list Call) :
  NoDup (map decision_id (stored_from n calls)).
Proof.
  revert n. induction calls as [|c rest IH]; intros n; cbn [stored_from map].
  - constructor.
  - destruct (raises c); [apply IH|].
    cbn [map]. constructor; [|apply IH].
    intros Hin. apply in_map_iff in Hin. destruct Hin as (d & E & Hd).
    destruct (in_stored_from _ _ _ Hd) as (k & t & Hk & E').
    rewrite E' in E. cbn [record_of decision_id] in E.
    apply TrackerFacts.make_id_inj in E. lia.
Qed.

Lemma NoDup_skipn {A : Type} (k : nat) (l : list A) : NoDup l -> NoDup (skipn k l).
Proof.
  intros H. rewrite <- (firstn_skipn k l) in H.
  apply NoDup_app_remove_l in H. exact H.
Qed.

Lemma in_skipn {A : Type} (k : nat) (l : list A) (x : A) : In x (skipn k l) -> In x l.
Proof.
  intros H. rewrite <- (firstn_skipn k l). apply in_or_app. right. exact H.
Qed.

(** X19: every [log_decision] call takes a counter value, also one that
    raises because its [vf_preds] array is empty: after any run of calls
    the counter has moved up by the number of calls, while the buffer has
    received one record per call that returned, holds the most recent
    [max_decisions] of them and never exceeds [max_decisions]. *)
Theorem raising_calls_are_counted :
  forall (calls : list Call) (tr : State),
    (length (decisions tr) <= max_decisions tr)%nat ->
    let tr' := snd (log_all calls tr) in
    fst (log_all calls tr) = outcomes_from (decision_count tr) calls
    /\ decision_count tr' = (decision_count tr + length calls)%nat
    /\ max_decisions tr' = max_decisions tr
    /\ decisions tr' =
       Py.last_n (max_decisions tr)
         (decisions tr ++ stored_from (decision_count tr) calls)
    /\ length (stored_from (decision_count tr) calls) =
       length (filter (fun c => negb (raises c)) calls)
    /\ (length (decisions tr') <= max_decisions tr)%nat.
Proof.
  intros calls tr H. cbv zeta. rewrite log_all_any by exact H.
  cbn [fst snd decision_count max_decisions decisions].
  split; [reflexivity|]. split; [reflexivity|]. split; [reflexivity|].
  split; [reflexivity|]. split; [apply stored_from_count|].
  rewrite PyFacts.last_n_length. lia.
Qed.

(** One call that raises between two that return, capacity 5. *)
Lemma raising_calls_are_counted_witness :
  let calls := [TrackerSamples.plain_call 1;
                mkCall [] [] (mkPolicyOutput None (Some []) None) None 2 2;
                TrackerSamples.plain_call 3] in
  decision_count (snd (log_all calls (init 5))) = 3%nat
  /\ length (stored_from 0 calls) = 2%nat.
Proof.
  cbv zeta.
  destruct (raising_calls_are_counted
              [TrackerSamples.plain_call 1;
               mkCall [] [] (mkPolicyOutput None (Some []) None) None 2 2;
               TrackerSamples.plain_call 3] (init 5))
    as (_ & Hc & _ & _ & Hs & _).
  - cbn. lia.
  - split; [exact Hc|exact Hs].
Defined.

(** X20: on a tracker that starts empty, whatever calls are made (raising
    or not, with whatever clock readings), the records in the buffer have
    pairwise different ids, [get_decision_by_id] finds every one of them
    under its own id, and an id whose counter part is larger than the
    number of calls made so far is not found. *)
Theorem buffered_ids_unique :
  forall (C : nat) (calls : list Call),
    let tr := snd (log_all calls (init C)) in
    NoDup (map decision_id (decisions tr))
    /\ (forall d, In d (decisions tr) ->
                  get_decision_by_id (decision_id d) tr = Some d)
    /\ (forall k t, (length calls < k)%nat ->
                    get_decision_by_id (make_id k t) tr = None).
Proof.
  intros C calls. cbv zeta. rewrite log_all_any by (cbn; lia).
  cbn [snd init decisions decision_count max_decisions app].
  assert (Hnd : NoDup (map decision_id (Py.last_n C (stored_from 0 calls)))).
  { unfold Py.last_n. rewrite <- skipn_map. apply NoDup_skipn, stored_ids_distinct. }
  split; [exact Hnd|]. split.
  - intros d Hd. unfold get_decision_by_id. cbn [decisions].
    apply TrackerFacts.find_present; assumption.
  - intros k t Hk. unfold get_decision_by_id. cbn [decisions].
    apply TrackerFacts.find_absent. intros d Hd E.
    apply in_skipn in Hd. destruct (in_stored_from _ _ _ Hd) as (k' & t' & Hk' & E').
    rewrite E' in E. apply TrackerFacts.make_id_inj in E. lia.
Qed.

Lemma firstn_rev_last {A : Type} (n : nat) (l : list A) :
  firstn n (rev l) = rev (Py.last_n n l).
Proof. unfold Py.last_n. rewrite firstn_rev. reflexivity. Qed.

(** X21: for a limit that is not negative, [get_decision_history(limit)]
    returns the [limit] most recent records of the buffer, newest first
    (all of them without a limit), so never more than [limit]; and right
    after a call that returned, on a
    tracker of capacity at least 1, the record just logged is the first
    entry for any limit other than 0. *)
Theorem history_newest_first :
  forall (tr : State) (c : Call),
    (length (decisions tr) <= max_decisions tr)%nat ->
    (1 <= max_decisions tr)%nat ->
    raises c = false ->
    let tr' := snd (log_decision c tr) in
    (forall n, get_decision_history (Some n) tr = rev (Py.last_n n (decisions tr))
               /\ (length (get_decision_history (Some n) tr) <= n)%nat)
    /\ get_decision_history None tr = rev (decisions tr)
    /\ (forall limit, limit <> Some 0%nat ->
          hd_error (get_decision_history limit tr') =
          Some (record_of (S (decision_count tr)) c))
    /\ get_decision_history (Some 0%nat) tr' = [].
Proof.
  intros tr c Hlen Hcap Hr. cbv zeta. split; [|split; [reflexivity|split; [|reflexivity]]].
  - intros n. unfold get_decision_history. rewrite firstn_rev_last. split; [reflexivity|].
    rewrite length_rev, PyFacts.last_n_length. lia.
  - intros limit Hl. rewrite log_decision_cases, Hr. cbn [snd].
    unfold get_decision_history. cbn [decisions].
    rewrite PyFacts.deque_append_last_n by exact Hlen.
    set (r := record_of (S (decision_count tr)) c).
    assert (E : exists l, Py.last_n (max_decisions tr) (decisions tr ++ [r]) = l ++ [r]).
    { unfold Py.last_n. rewrite length_app. cbn [length].
      rewrite skipn_app.
      replace (length (decisions tr) + 1 - max_decisions tr - length (decisions tr))%nat
        with 0%nat by lia.
      cbn [skipn]. eexists. reflexivity. }
    destruct E as [l ->]. rewrite rev_app_distr. cbn [rev app].
    destruct limit as [[|n]|]; [congruence|reflexivity|reflexivity].
Qed.

(** One call on an empty tracker of capacity 5. *)
Lemma history_newest_first_witness :
  hd_error (get_decision_history None
              (snd (log_decision (TrackerSamples.plain_call 1) (init 5))))
  = Some (record_of 1 (TrackerSamples.plain_call 1)).
Proof.
  destruct (history_newest_first (init 5) (TrackerSamples.plain_call 1))
    as (_ & _ & H & _).
  - cbn. lia.
  - cbn. lia.
  - reflexivity.
  - apply H. discriminate.
Defined.

Lemma filter_rev {A : Type} (f : A -> bool) (l : list A) :
  filter f (rev l) = rev (filter f l).
Proof.
  induction l as [|x l IH]; [reflexivity|].
  cbn [rev filter]. rewrite filter_app, IH. cbn [filter].
  destruct (f x); [reflexivity|rewrite app_nil_r; reflexivity].
Qed.

(** X22: [get_recent_decisions(seconds)] returns exactly the records of
    the buffer whose timestamp is at least [now - seconds], in the order
    of [get_decision_history] (newest first); a longer window returns
    every record a shorter one does. *)
Theorem recent_decisions_window :
  forall (tr : State) (seconds seconds' now : R),
    get_recent_decisions seconds now tr =
      filter (fun d => Py.leb (now - seconds) (timestamp d))
        (get_decision_history None tr)
    /\ (forall d, In d (get_recent_decisions seconds now tr) <->
                  In d (decisions tr) /\ now - seconds <= timestamp d)
    /\ (seconds <= seconds' ->
        incl (get_recent_decisions seconds now tr)
             (get_recent_decisions seconds' now tr)).
Proof.
  intros tr seconds seconds' now.
  assert (Hin : forall s d, In d (get_recent_decisions s now tr) <->
                            In d (decisions tr) /\ now - s <= timestamp d).
  { intros s d. unfold get_recent_decisions. cbv zeta.
    rewrite <- in_rev, filter_In, PyFacts.leb_true_iff. reflexivity. }
  split; [|split].
  - unfold get_recent_decisions, get_decision_history. cbv zeta.
    rewrite filter_rev. reflexivity.
  - apply Hin.
  - intros Hs d Hd. apply Hin. apply Hin in Hd. destruct Hd as [H1 H2].
    split; [exact H1|lra].
Qed.

Lemma fold_min_le (l : list R) (x : R) :
  fold_left Py.min l x <= x
  /\ (forall y, In y l -> fold_left Py.min l x <= y)
  /\ (fold_left Py.min l x = x \/ In (fold_left Py.min l x) l).
Proof.
  revert x. induction l as [|y l IH]; intros x; cbn [fold_left In].
  - split; [lra|]. split; [intros y []|left; reflexivity].
  - destruct (IH (Py.min x y)) as (H1 & H2 & H3).
    assert (Hm : Py.min x y <= x /\ Py.min x y <= y /\ (Py.min x y = x \/ Py.min x y = y)).
    { unfold Py.min. destruct (Py.ltb y x) eqn:E.
      - apply PyFacts.ltb_true_iff in E. lra.
      - apply PyFacts.ltb_false_iff in E. lra. }
    destruct Hm as (Hx & Hy & Hc).
    split; [lra|]. split.
    + intros z [<-|Hz]; [lra|apply H2; exact Hz].
    + destruct H3 as [H3|H3]; [|right; right; exact H3].
      rewrite H3. destruct Hc as [Hc|Hc]; [left; exact Hc|right; left; symmetry; exact Hc].
Qed.

Lemma fold_max_ge (l : list R) (x : R) :
  x <= fold_left Py.max l x
  /\ (forall y, In y l -> y <= fold_left Py.max l x)
  /\ (fold_left Py.max l x = x \/ In (fold_left Py.max l x) l).
Proof.
  revert x. induction l as [|y l IH]; intros x; cbn [fold_left In].
  - split; [lra|]. split; [intros y []|left; reflexivity].
  - destruct (IH (Py.max x y)) as (H1 & H2 & H3).
    assert (Hm : x <= Py.max x y /\ y <= Py.max x y /\ (Py.max x y = x \/ Py.max x y = y)).
    { unfold Py.max. destruct (Py.ltb x y) eqn:E.
      - apply PyFacts.ltb_true_iff in E. lra.
      - apply PyFacts.ltb_false_iff in E. lra. }
    destruct Hm as (Hx & Hy & Hc).
    split; [lra|]. split.
    + intros z [<-|Hz]; [lra|apply H2; exact Hz].
    + destruct H3 as [H3|H3]; [|right; right; exact H3].
      rewrite H3. destruct Hc as [Hc|Hc]; [left; exact Hc|right; left; symmetry; exact Hc].
Qed.

(** X23: on a non-empty buffer [get_statistics] reports as [time_range]
    the earliest and the latest timestamp held in the buffer (whatever the
    order the records were logged in) and their difference, which is never
    negative, and as [buffer_size] the number of records held; on an empty
    buffer it reports zeros and no range, whatever the counter is. *)
Theorem statistics_time_range :
  forall tr : State,
    (decisions tr = [] ->
     get_statistics tr = mkStats 0 0 None None None)
    /\ (decisions tr <> [] ->
        exists t0 t1,
          time_range (get_statistics tr) = Some (t0, t1, t1 - t0)
          /\ In t0 (map timestamp (decisions tr))
          /\ In t1 (map timestamp (decisions tr))
          /\ (forall d, In d (decisions tr) -> t0 <= timestamp d <= t1)
          /\ 0 <= t1 - t0
          /\ buffer_size (get_statistics tr) = length (decisions tr)
          /\ total_decisions (get_statistics tr) = decision_count tr).
Proof.
  intros tr. unfold get_statistics. split.
  - intros ->. reflexivity.
  - intros Hne. destruct (decisions tr) as [|d0 ds]; [congruence|].
    cbv zeta. cbn [time_range buffer_size total_decisions map list_min list_max].
    destruct (fold_min_le (map timestamp ds) (timestamp d0)) as (A1 & A2 & A3).
    destruct (fold_max_ge (map timestamp ds) (timestamp d0)) as (B1 & B2 & B3).
    eexists. eexists. split; [reflexivity|].
    split; [destruct A3 as [->|A3]; [left; reflexivity|right; exact A3]|].
    split; [destruct B3 as [->|B3]; [left; reflexivity|right; exact B3]|].
    split.
    + intros d [<-|Hd]; [lra|].
      split; [apply A2|apply B2]; apply in_map; exact Hd.
    + split; [lra|]. split; reflexivity.
Qed.

End TrackerMoreFacts.

(** ** Decision tracker: eviction and the reported total *)

Module TrackerEviction.
Import Tracker TrackerOps.

Lemma ids_apart (l1 l2 : list DecisionRecord) (d d' : DecisionRecord) :
  NoDup (map decision_id (l1 ++ l2)) -> In d l1 -> In d' l2 ->
  decision_id d <> decision_id d'.
Proof.
  induction l1 as [|x l1 IH]; cbn [app map]; intros Hnd Hd Hd'; [destruct Hd|].
  inversion Hnd as [|? ? Hx Hrest]; subst.
  destruct Hd as [->|Hd]; [|apply IH; assumption].
  intros E. apply Hx. rewrite E. apply in_map. apply in_or_app. right. exact Hd'.
Qed.

Lemma calls_split (n : nat) (calls : list Call) :
  length calls =
  (length (stored_from n calls) + length (filter raises calls))%nat.
Proof.
  revert n. induction calls as [|c rest IH]; intros n; [reflexivity|].
  cbn [stored_from filter length]. destruct (raises c); cbn [length];
    rewrite (IH (S n)); lia.
Qed.

Lemma stored_returning (n : nat) (calls : list Call) :
  Forall well_formed calls -> stored_from n calls = records_from n calls.
Proof.
  revert n. induction calls as [|c rest IH]; intros n H; [reflexivity|].
  inversion H as [|? ? Hc Hrest]; subst. cbn [stored_from records_from].
  assert (E : raises c = false).
  { unfold raises. unfold well_formed in Hc.
    destruct (vf_preds (c_policy_output c)) as [[|x l]|]; congruence. }
  rewrite E, IH by exact Hrest. reflexivity.
Qed.

(** C6, as the code has it.  On a fresh tracker of capacity [C], after
    calls of which [C + K] returned ([K >= 1]; a call returns unless its
    [vf_preds] array is empty), the buffer holds exactly the [C] most
    recently logged records in logging order, the ids of the [K] oldest
    are no longer found by [get_decision_by_id] while every retained
    record is found under its id, and the counter is the number of calls,
    which is [C + K] when every call returned.  [get_statistics] reports
    the counter as [total_decisions] when [C >= 1]; with capacity 0 the
    buffer is empty, [get_statistics] takes its empty-buffer branch and
    reports 0: after one call on a tracker of capacity 0 the counter is 1
    and the reported total is 0. *)
Theorem eviction_and_reported_total :
  (forall (C K : nat) (calls : list Call),
      let tr := snd (log_all calls (init C)) in
      let logged := stored_from 0 calls in
      (1 <= K)%nat -> length logged = (C + K)%nat ->
      decisions tr = skipn K logged
      /\ length (decisions tr) = C
      /\ (forall d, In d (firstn K logged) ->
                    get_decision_by_id (decision_id d) tr = None)
      /\ (forall d, In d (skipn K logged) ->
                    get_decision_by_id (decision_id d) tr = Some d)
      /\ decision_count tr = length calls
      /\ length calls = (C + K + length (filter raises calls))%nat
      /\ (Forall well_formed calls ->
          decision_count tr = (C + K)%nat /\ logged = records_from 0 calls)
      /\ buffer_size (get_statistics tr) = C
      /\ total_decisions (get_statistics tr) =
         (if (C =? 0)%nat then 0 else length calls)%nat)
  /\ (let tr0 := snd (log_all [TrackerSamples.plain_call 0] (init 0)) in
      decision_count tr0 = 1%nat
      /\ total_decisions (get_statistics tr0) = 0%nat
      /\ total_decisions (get_statistics tr0) <> (0 + 1)%nat).
Proof.
  split.
  - intros C K calls. cbv zeta. intros HK Hlen.
    rewrite TrackerMoreFacts.log_all_any by (cbn; lia).
    cbn [snd init decisions decision_count max_decisions app Nat.add].
    set (logged := stored_from 0 calls) in *.
    assert (Hbuf : Py.last_n C logged = skipn K logged).
    { unfold Py.last_n. rewrite Hlen. f_equal. lia. }
    rewrite Hbuf.
    assert (HlenS : length (skipn K logged) = C) by (rewrite length_skipn; lia).
    pose proof (TrackerMoreFacts.stored_ids_distinct 0 calls) as Hnd.
    fold logged in Hnd.
    pose proof (calls_split 0 calls) as Hsplit. fold logged in Hsplit.
    split; [reflexivity|]. split; [exact HlenS|]. split.
    { intros d Hd. unfold get_decision_by_id. cbn [decisions].
      apply TrackerFacts.find_absent. intros d' Hd' E.
      rewrite <- (firstn_skipn K logged) in Hnd.
      exact (ids_apart _ _ d d' Hnd Hd Hd' (eq_sym E)). }
    split.
    { intros d Hd. unfold get_decision_by_id. cbn [decisions].
      apply TrackerFacts.find_present; [|exact Hd].
      rewrite <- skipn_map. apply TrackerMoreFacts.NoDup_skipn. exact Hnd. }
    split; [reflexivity|]. split; [lia|]. split.
    { intros Hwf. pose proof (stored_returning 0 calls Hwf) as E. fold logged in E.
      split; [|exact E].
      rewrite E, TrackerFacts.records_from_length in Hlen. exact Hlen. }
    unfold get_statistics. cbn [decisions decision_count].
    destruct (skipn K logged) as [|d l] eqn:E; cbn [length] in HlenS.
    + subst C. split; reflexivity.
    + cbn [buffer_size total_decisions]. split; [exact HlenS|].
      destruct (Nat.eqb_spec C 0); [lia|reflexivity].
  - cbv zeta. rewrite TrackerMoreFacts.log_all_any by (cbn; lia).
    cbn. split; [reflexivity|]. split; [reflexivity|discriminate].
Qed.

(** Capacity 2, three calls: the first record is gone, the last two are
    kept, the total is 3. *)
Lemma eviction_and_reported_total_witness :
  let calls := [TrackerSamples.plain_call 1; TrackerSamples.plain_call 2;
                TrackerSamples.plain_call 3] in
  let tr := snd (log_all calls (init 2)) in
  decisions tr = [record_of 2 (TrackerSamples.plain_call 2);
                  record_of 3 (TrackerSamples.plain_call 3)]
  /\ get_decision_by_id (make_id 1 1) tr = None
  /\ total_decisions (get_statistics tr) = 3%nat.
Proof.
  cbv zeta.
  destruct eviction_and_reported_total as [H _].
  destruct (H 2%nat 1%nat
              [TrackerSamples.plain_call 1; TrackerSamples.plain_call 2;
               TrackerSamples.plain_call 3])
    as (Hd & _ & Hgone & _ & _ & _ & _ & _ & Htot).
  - lia.
  - reflexivity.
  - cbv zeta in Hd, Hgone, Htot. split; [exact Hd|]. split; [|exact Htot].
    apply (Hgone (record_of 1 (TrackerSamples.plain_call 1))).
    left. reflexivity.
Defined.

End TrackerEviction.

(** ** Safety analyzer: the decisions read, the scores and the trend *)

Module SafetyMoreFacts.
Import Safety SafetyOps.

(** *** The lookback window *)

Lemma insert_in (d x : Tracker.DecisionRecord) (l : list Tracker.DecisionRecord) :
  In x (insert_by_time d l) <-> x = d \/ In x l.
Proof.
  induction l as [|y l IH]; cbn [insert_by_time In].
  - split; intros [H|H]; auto.
  - destruct (Py.ltb (Tracker.timestamp d) (Tracker.timestamp y)); cbn [In].
    + split; intros [H|H]; auto.
    + rewrite IH. split; intros H; intuition auto.
Qed.

Lemma insert_perm (d : Tracker.DecisionRecord) (l : list Tracker.DecisionRecord) :
  Permutation (insert_by_time d l) (d :: l).
Proof.
  induction l as [|y l IH]; cbn [insert_by_time]; [reflexivity|].
  destruct (Py.ltb (Tracker.timestamp d) (Tracker.timestamp y)); [reflexivity|].
  rewrite IH. apply perm_swap.
Qed.

Lemma insert_ascending (d : Tracker.DecisionRecord) (l : list Tracker.DecisionRecord) :
  ascending l -> ascending (insert_by_time d l).
Proof.
  induction l as [|y l IH]; cbn [insert_by_time ascending].
  - intros _. split; [intros x []|exact I].
  - intros [Hy Hl].
    destruct (Py.ltb (Tracker.timestamp d) (Tracker.timestamp y)) eqn:E; cbn [ascending].
    + apply PyFacts.ltb_true_iff in E. split; [|split; assumption].
      intros x [<-|Hx]; [lra|]. specialize (Hy x Hx). lra.
    + apply PyFacts.ltb_false_iff in E. split; [|apply IH; exact Hl].
      intros x Hx. apply insert_in in Hx. destruct Hx as [->|Hx]; [lra|apply Hy; exact Hx].
Qed.

Lemma sort_from (l acc : list Tracker.DecisionRecord) :
  ascending acc ->
  ascending (fold_left (fun a d => insert_by_time d a) l acc)
  /\ Permutation (fold_left (fun a d => insert_by_time d a) l acc) (l ++ acc).
Proof.
  revert acc. induction l as [|d l IH]; intros acc H; cbn [fold_left app].
  - split; [exact H|reflexivity].
  - destruct (IH (insert_by_time d acc) (insert_ascending d acc H)) as [H1 H2].
    split; [exact H1|]. rewrite H2, insert_perm. symmetry. apply Permutation_middle.
Qed.

Lemma relevant_spec (v : SafetyViolation) (tracker : Tracker.State) :
  ascending (get_relevant_decisions v tracker)
  /\ Permutation (get_relevant_decisions v tracker)
       (filter (in_lookback v) (Tracker.decisions tracker)).
Proof.
  unfold get_relevant_decisions, sort_by_time, Tracker.get_decision_history. cbv zeta.
  fold (in_lookback v).
  destruct (sort_from (filter (in_lookback v) (rev (Tracker.decisions tracker))) [] I)
    as [H1 H2].
  split; [exact H1|]. rewrite H2, app_nil_r, TrackerMoreFacts.filter_rev.
  symmetry. apply Permutation_rev.
Qed.

Lemma in_lookback_iff (v : SafetyViolation) (d : Tracker.DecisionRecord) :
  in_lookback v d = true <->
  timestamp v - 300 <= Tracker.timestamp d <= timestamp v.
Proof.
  unfold in_lookback, lookback_seconds.
  rewrite andb_true_iff, !PyFacts.leb_true_iff. reflexivity.
Qed.

Lemma in_relevant (v : SafetyViolation) (tracker : Tracker.State)
  (d : Tracker.DecisionRecord) :
  In d (get_relevant_decisions v tracker) <->
  In d (Tracker.decisions tracker)
  /\ timestamp v - 300 <= Tracker.timestamp d <= timestamp v.
Proof.
  destruct (relevant_spec v tracker) as [_ Hp].
  rewrite <- in_lookback_iff, <- filter_In. split; intros H.
  - eapply Permutation_in; [exact Hp|exact H].
  - eapply Permutation_in; [symmetry; exact Hp|exact H].
Qed.

(** X24: [_get_relevant_decisions] returns the records of the tracker's
    buffer whose timestamp lies in the 300 seconds up to the violation
    (both ends included), each as often as the buffer holds it, in the
    order of their timestamps, oldest first; a record after the violation
    is never among them. *)
Theorem relevant_decisions_sorted :
  forall (v : SafetyViolation) (tracker : Tracker.State),
    ascending (get_relevant_decisions v tracker)
    /\ Permutation (get_relevant_decisions v tracker)
         (filter (in_lookback v) (Tracker.decisions tracker))
    /\ (forall d, In d (get_relevant_decisions v tracker) <->
                  In d (Tracker.decisions tracker)
                  /\ timestamp v - 300 <= Tracker.timestamp d <= timestamp v)
    /\ (length (get_relevant_decisions v tracker)
        <= length (Tracker.decisions tracker))%nat.
Proof.
  intros v tracker. destruct (relevant_spec v tracker) as [H1 H2].
  split; [exact H1|]. split; [exact H2|]. split; [apply in_relevant|].
  rewrite (Permutation_length H2). apply filter_length_le.
Qed.

(** *** The controller's response time *)

Lemma response_loop_warned (l : list Tracker.DecisionRecord) (t0 : R)
  (a : option R) (tr : R) :
  response_loop l (Some t0) = (a, Some tr) ->
  a = Some t0 /\ exists d, In d l /\ tr = Tracker.timestamp d.
Proof.
  induction l as [|d l IH]; cbn [response_loop]; [discriminate|].
  destruct (match Tracker.reward d with Some r => Py.ltb r (-0.5) | None => false end).
  - destruct (Py.ltb 0.2 (Py.norm (Tracker.action d))).
    + intros E. injection E as <- <-. split; [reflexivity|].
      exists d. split; [left; reflexivity|reflexivity].
    + intros E. destruct (IH E) as (Ha & d' & Hd & Ht).
      split; [exact Ha|]. exists d'. split; [right; exact Hd|exact Ht].
  - intros E. destruct (IH E) as (Ha & d' & Hd & Ht).
    split; [exact Ha|]. exists d'. split; [right; exact Hd|exact Ht].
Qed.

Lemma response_loop_first (l : list Tracker.DecisionRecord) (a : option R) (tr : R) :
  response_loop l None = (a, Some tr) ->
  exists l1 d1 l2,
    l = (l1 ++ d1 :: l2)%list /\ a = Some (Tracker.timestamp d1)
    /\ (tr = Tracker.timestamp d1 \/ exists d2, In d2 l2 /\ tr = Tracker.timestamp d2).
Proof.
  induction l as [|d l IH]; cbn [response_loop]; [discriminate|].
  destruct (match Tracker.reward d with Some r => Py.ltb r (-0.5) | None => false end).
  - destruct (Py.ltb 0.2 (Py.norm (Tracker.action d))).
    + intros E. injection E as <- <-. exists [], d, l.
      split; [reflexivity|]. split; [reflexivity|left; reflexivity].
    + intros E. destruct (response_loop_warned _ _ _ _ E) as (Ha & d' & Hd & Ht).
      exists [], d, l. split; [reflexivity|]. split; [exact Ha|].
      right. exists d'. split; assumption.
  - intros E. destruct (IH E) as (l1 & d1 & l2 & -> & Ha & Ht).
    exists (d :: l1), d1, l2. split; [reflexivity|]. split; assumption.
Qed.

Lemma ascending_tail (l1 l2 : list Tracker.DecisionRecord) :
  ascending (l1 ++ l2) -> ascending l2.
Proof.
  induction l1 as [|x l1 IH]; cbn [app ascending]; [auto|].
  intros [_ H]. apply IH. exact H.
Qed.

Lemma response_bounds (v : SafetyViolation) (decisions : list Tracker.DecisionRecord)
  (lo hi : R) :
  ascending decisions ->
  (forall d, In d decisions -> lo <= Tracker.timestamp d <= hi) ->
  lo <= hi ->
  0 <= analyze_controller_response v decisions <= hi - lo.
Proof.
  intros Hs Hw Hlh. unfold analyze_controller_response.
  destruct decisions as [|d0 ds]; [lra|].
  destruct (response_loop (d0 :: ds) None) as [[tw|] [tr|]] eqn:E; try lra.
  destruct (response_loop_first _ _ _ E) as (l1 & d1 & l2 & El & Ha & Ht).
  injection Ha as ->. rewrite El in Hs, Hw.
  assert (H1 : In d1 (l1 ++ d1 :: l2)) by (apply in_or_app; right; left; reflexivity).
  pose proof (Hw d1 H1) as B1.
  destruct Ht as [->|(d2 & Hd2 & ->)]; [lra|].
  assert (H2 : In d2 (l1 ++ d1 :: l2)) by (apply in_or_app; right; right; exact Hd2).
  pose proof (Hw d2 H2) as B2.
  apply ascending_tail in Hs. cbn [ascending] in Hs. destruct Hs as [Hs _].
  specialize (Hs d2 Hd2). lra.
Qed.

(** X25: the controller response time that [analyze_violation] stores
    lies between 0 and 300 seconds: on decisions in the order of their
    timestamps [_analyze_controller_response] is never negative, and the
    decisions [_get_relevant_decisions] hands it all lie in the 300 second
    window; it is 0 when there are no decisions. *)
Theorem response_time_within_lookback :
  forall (v : SafetyViolation),
    (forall tracker,
        0 <= analyze_controller_response v (get_relevant_decisions v tracker) <= 300)
    /\ (forall tracker v',
          analyze_violation v tracker = Some v' ->
          0 <= controller_response_time v' <= 300)
    /\ (forall decisions,
          ascending decisions -> 0 <= analyze_controller_response v decisions)
    /\ analyze_controller_response v [] = 0.
Proof.
  intros v.
  assert (H : forall tracker,
             0 <= analyze_controller_response v (get_relevant_decisions v tracker) <= 300).
  { intros tracker.
    destruct (relevant_spec v tracker) as [Hs _].
    pose proof (response_bounds v (get_relevant_decisions v tracker)
                  (timestamp v - 300) (timestamp v) Hs) as B.
    replace (timestamp v - (timestamp v - 300)) with 300 in B by lra.
    apply B; [|lra]. intros d Hd. apply in_relevant in Hd. tauto. }
  split; [exact H|]. split; [|split; [|reflexivity]].
  - intros tracker v'. unfold analyze_violation. cbv zeta.
    destruct (identify_root_causes v (get_relevant_decisions v tracker)); [|discriminate].
    intros E. injection E as <-. cbn [controller_response_time]. apply H.
  - intros decisions Hs. unfold analyze_controller_response.
    destruct decisions as [|d0 ds]; [lra|].
    destruct (response_loop (d0 :: ds) None) as [[tw|] [tr|]] eqn:E; try lra.
    destruct (response_loop_first _ _ _ E) as (l1 & d1 & l2 & El & Ha & Ht).
    injection Ha as ->. rewrite El in Hs.
    destruct Ht as [->|(d2 & Hd2 & ->)]; [lra|].
    apply ascending_tail in Hs. cbn [ascending] in Hs. destruct Hs as [Hs _].
    specialize (Hs d2 Hd2). lra.
Qed.

(** *** Preventability *)

Lemma sum_bounds (l : list R) (a b : R) :
  (forall x, In x l -> a <= x <= b) ->
  a * INR (length l) <= Py.sum l <= b * INR (length l).
Proof.
  induction l as [|x l IH]; intros H.
  - rewrite PyFacts.sum_nil. cbn [length INR]. lra.
  - rewrite PyFacts.sum_cons. change (length (x :: l)) with (S (length l)).
    rewrite S_INR.
    assert (Hx : a <= x <= b) by (apply H; left; reflexivity).
    assert (Hl : a * INR (length l) <= Py.sum l <= b * INR (length l))
      by (apply IH; intros y Hy; apply H; right; exact Hy).
    lra.
Qed.

Lemma mean_bounds (l : list R) (a b : R) :
  l <> [] -> (forall x, In x l -> a <= x <= b) -> a <= Py.mean l <= b.
Proof.
  intros Hne H. unfold Py.mean.
  assert (Hn : 0 < INR (length l)).
  { destruct l as [|x l]; [congruence|]. apply lt_0_INR. cbn. lia. }
  destruct (sum_bounds l a b H) as [H1 H2].
  split.
  - apply Rmult_le_reg_r with (INR (length l)); [exact Hn|].
    unfold Rdiv. rewrite Rmult_assoc, Rinv_l by lra. lra.
  - apply Rmult_le_reg_r with (INR (length l)); [exact Hn|].
    unfold Rdiv. rewrite Rmult_assoc, Rinv_l by lra. lra.
Qed.

Lemma std_nonneg (l : list R) : 0 <= Py.std l.
Proof. unfold Py.std. apply sqrt_pos. Qed.

Lemma ratio_unit (a b : nat) : (a <= b)%nat -> (0 < b)%nat -> 0 <= INR a / INR b <= 1.
Proof.
  intros Hab Hb. apply lt_INR in Hb. apply le_INR in Hab. cbn [INR] in Hb.
  pose proof (pos_INR a) as Ha.
  split.
  - apply Rmult_le_reg_r with (INR b); [exact Hb|].
    unfold Rdiv. rewrite Rmult_assoc, Rinv_l by lra. lra.
  - apply Rmult_le_reg_r with (INR b); [exact Hb|].
    unfold Rdiv. rewrite Rmult_assoc, Rinv_l by lra. lra.
Qed.

(** X26: when the [action_confidence] scores of the last five decisions
    lie between 0 and 1, [_calculate_preventability] returns a value
    between 0 and 1; it returns 0 when there are no decisions. *)
Theorem preventability_in_unit_interval :
  forall (v : SafetyViolation) (decisions : list Tracker.DecisionRecord),
    (forall d c,
        In d (Py.last_n 5 decisions) ->
        Dict.get String.eqb "action_confidence"%string (Tracker.confidence_scores d)
          = Some c ->
        0 <= c <= 1) ->
    0 <= calculate_preventability v decisions <= 1
    /\ calculate_preventability v [] = 0.
Proof.
  intros v decisions H. split; [|reflexivity].
  unfold calculate_preventability. destruct decisions as [|d0 ds]; [lra|]. cbv zeta.
  match goal with
  | |- _ <= match ?L with _ => _ end <= _ =>
      assert (HF : forall x, In x L -> 0 <= x <= 1);
      [|destruct L as [|x0 l0];
        [lra|apply mean_bounds; [discriminate|exact HF]]]
  end.
  intros x Hx.
  apply in_app_or in Hx. destruct Hx as [Hx|Hx].
  { destruct (Py.ltb 0 (time_to_violation v)) eqn:E; [|destruct Hx].
    apply PyFacts.ltb_true_iff in E. destruct Hx as [<-|[]].
    rewrite PyFacts.min_is_Rmin. unfold Rmin.
    destruct (Rle_dec (time_to_violation v / 60) 1); lra. }
  apply in_app_or in Hx. destruct Hx as [Hx|Hx].
  { match type of Hx with
    | In _ (match ?C with _ => _ end) => destruct C as [|c0 cs] eqn:Ec
    end; [destruct Hx|].
    destruct Hx as [<-|[]]. apply mean_bounds; [discriminate|].
    intros c Hc. rewrite <- Ec in Hc. apply in_flat_map in Hc.
    destruct Hc as (d & Hd & Hc).
    destruct (Dict.get String.eqb "action_confidence"%string
                (Tracker.confidence_scores d)) as [c'|] eqn:Eg; [|destruct Hc].
    destruct Hc as [<-|[]]. exact (H d c' Hd Eg). }
  apply in_app_or in Hx. destruct Hx as [Hx|Hx].
  { destruct (3 <? length (d0 :: ds))%nat; [|destruct Hx].
    destruct Hx as [<-|[]].
    rewrite PyFacts.min_is_Rmin. unfold Rmin.
    match goal with |- context [Py.std ?l] => pose proof (std_nonneg l) as Hs end.
    match goal with |- context [Rle_dec ?a ?b] => destruct (Rle_dec a b) end; lra. }
  match type of Hx with
  | In _ (if (0 <? ?n)%nat then _ else _) => destruct (Nat.ltb_spec 0 n) as [Hn|Hn]
  end; [|destruct Hx].
  destruct Hx as [<-|[]]. apply ratio_unit; [apply filter_length_le|exact Hn].
Qed.

(** One decision without confidence scores: the default 0.5. *)
Lemma preventability_in_unit_interval_witness :
  0 <= calculate_preventability SafetySamples.plain_violation
         [Tracker.record_of 1 (TrackerSamples.plain_call 1)] <= 1.
Proof.
  apply (preventability_in_unit_interval SafetySamples.plain_violation
           [Tracker.record_of 1 (TrackerSamples.plain_call 1)]).
  intros d c [<-|[]] E. cbn in E. discriminate E.
Defined.

(** *** The safety score *)

Lemma penalty_from (vs : list SafetyViolation) (a : R) :
  fold_left (fun acc v => acc + penalty (severity v)) vs a = a + total_penalty vs.
Proof.
  unfold total_penalty. revert a. induction vs as [|v vs IH]; intros a; cbn [fold_left].
  - lra.
  - rewrite IH, (IH (0 + _)). lra.
Qed.

Lemma penalty_cons (v : SafetyViolation) (vs : list SafetyViolation) :
  total_penalty (v :: vs) = penalty (severity v) + total_penalty vs.
Proof. unfold total_penalty at 1. cbn [fold_left]. rewrite penalty_from. lra. Qed.

Lemma penalty_pos (s : ViolationSeverity) : 2 <= penalty s <= 20.
Proof. destruct s; cbn [penalty]; lra. Qed.

Lemma total_penalty_nonneg (vs : list SafetyViolation) : 0 <= total_penalty vs.
Proof.
  induction vs as [|v vs IH]; [unfold total_penalty; cbn; lra|].
  rewrite penalty_cons. pose proof (penalty_pos (severity v)). lra.
Qed.

Lemma total_penalty_app (vs ws : list SafetyViolation) :
  total_penalty (vs ++ ws) = total_penalty vs + total_penalty ws.
Proof.
  induction vs as [|v vs IH]; cbn [app].
  - unfold total_penalty at 2. cbn. lra.
  - rewrite !penalty_cons, IH. lra.
Qed.

Lemma total_penalty_perm (vs ws : list SafetyViolation) :
  Permutation vs ws -> total_penalty vs = total_penalty ws.
Proof.
  induction 1 as [|v vs ws _ IH|v w vs|vs ws us _ IH1 _ IH2].
  - reflexivity.
  - rewrite !penalty_cons, IH. reflexivity.
  - rewrite !penalty_cons. lra.
  - congruence.
Qed.

Lemma score_eq (vs : list SafetyViolation) (d : R) :
  calculate_safety_score vs d =
  if Py.leb d 0 then 100 else Rmax 0 (100 - total_penalty vs / Rmax d 1).
Proof.
  unfold calculate_safety_score. destruct (Py.leb d 0); [reflexivity|].
  cbv zeta. rewrite !PyFacts.max_is_Rmax. reflexivity.
Qed.

Lemma quotient_mono (p q m n : R) :
  0 <= p <= q -> 1 <= n <= m -> p / m <= q / n.
Proof.
  intros [Hp Hq] [Hn Hm]. unfold Rdiv.
  assert (0 < / m) by (apply Rinv_0_lt_compat; lra).
  assert (/ m <= / n) by (apply Rinv_le_contravar; lra).
  apply Rmult_le_compat; lra.
Qed.

(** X27: [_calculate_safety_score] always lies between 0 and 100 and is
    100 without violations; further violations never raise it, the order
    of the violations does not matter, and over a longer period (of
    positive length) the same violations never score lower.  A period of
    at most an hour is not normalised: the penalties count in full. *)
Theorem safety_score_range :
  forall (vs ws : list SafetyViolation) (d d' : R),
    0 <= calculate_safety_score vs d <= 100
    /\ calculate_safety_score [] d = 100
    /\ calculate_safety_score (vs ++ ws) d <= calculate_safety_score vs d
    /\ (Permutation vs ws -> calculate_safety_score vs d = calculate_safety_score ws d)
    /\ (0 < d <= d' -> calculate_safety_score vs d <= calculate_safety_score vs d')
    /\ (0 < d <= 1 -> calculate_safety_score vs d = Rmax 0 (100 - total_penalty vs)).
Proof.
  intros vs ws d d'. rewrite !score_eq.
  pose proof (total_penalty_nonneg vs) as Hv.
  pose proof (total_penalty_nonneg ws) as Hw.
  assert (Hm : forall x, 1 <= Rmax x 1) by (intros x; apply Rmax_r).
  assert (Hq : forall p x, 0 <= p -> 0 <= p / Rmax x 1).
  { intros p x Hp. pose proof (Hm x). unfold Rdiv.
    apply Rmult_le_pos; [exact Hp|]. left. apply Rinv_0_lt_compat. lra. }
  split; [|split; [|split; [|split; [|split]]]].
  - destruct (Py.leb d 0); [lra|]. pose proof (Hq _ d Hv).
    split; [apply Rmax_l|]. apply Rmax_lub; lra.
  - destruct (Py.leb d 0); [reflexivity|].
    unfold total_penalty. cbn [fold_left]. unfold Rdiv. rewrite Rmult_0_l, Rminus_0_r.
    apply Rmax_right. lra.
  - destruct (Py.leb d 0); [lra|]. rewrite total_penalty_app.
    apply Rle_max_compat_l.
    assert (total_penalty vs / Rmax d 1 <= (total_penalty vs + total_penalty ws) / Rmax d 1).
    { apply quotient_mono; [lra|]. pose proof (Hm d). lra. }
    lra.
  - intros Hp. rewrite (total_penalty_perm _ _ Hp). reflexivity.
  - intros [H0 Hd].
    destruct (Py.leb d 0) eqn:E; [apply PyFacts.leb_true_iff in E; lra|].
    destruct (Py.leb d' 0) eqn:E'; [apply PyFacts.leb_true_iff in E'; lra|].
    apply Rle_max_compat_l.
    assert (total_penalty vs / Rmax d' 1 <= total_penalty vs / Rmax d 1).
    { apply quotient_mono; [lra|]. split; [apply Hm|].
      apply Rle_max_compat_r. exact Hd. }
    lra.
  - intros [H0 Hd].
    destruct (Py.leb d 0) eqn:E; [apply PyFacts.leb_true_iff in E; lra|].
    rewrite (Rmax_right d 1) by exact Hd. unfold Rdiv. rewrite Rinv_1, Rmult_1_r.
    reflexivity.
Qed.

(** *** The trend *)

Lemma ratio_below (a b : nat) :
  (0 < b)%nat -> (INR a / INR b < 0.8 <-> (5 * a < 4 * b)%nat).
Proof.
  intros Hb. apply lt_INR in Hb. cbn [INR] in Hb.
  assert (E : INR a / INR b < 0.8 <-> 5 * INR a < 4 * INR b).
  { split; intros H.
    - apply Rmult_lt_compat_r with (r := INR b) in H; [|exact Hb].
      unfold Rdiv in H. rewrite Rmult_assoc, Rinv_l in H by lra. lra.
    - apply Rmult_lt_reg_r with (INR b); [exact Hb|].
      unfold Rdiv. rewrite Rmult_assoc, Rinv_l by lra. lra. }
  rewrite E. replace 5 with (INR 5) by (cbn; lra). replace 4 with (INR 4) by (cbn; lra).
  rewrite <- !mult_INR. split; [apply INR_lt|apply lt_INR].
Qed.

(** X28: [_analyze_safety_trend] reports "improving" exactly when the
    earlier half window holds violations and the recent one fewer than
    four fifths as many, and then always with confidence 0.9 (the formula
    for it never comes out below 0.9); every confidence it reports lies
    above 0.7 and at most at 1, a confidence of 1 comes only with
    "stable", and without any stored violation the result is "stable"
    with confidence 1. *)
Theorem safety_trend_confidence :
  forall (end_time : R) (an : State),
    let r := analyze_safety_trend end_time an in
    let recent := length (recent_violations end_time an) in
    let previous := length (previous_violations end_time an) in
    (fst r = "stable"%string \/ fst r = "degrading"%string \/ fst r = "improving"%string)
    /\ 0.7 < snd r <= 1
    /\ (fst r = "improving"%string <->
        (0 < previous)%nat /\ (5 * recent < 4 * previous)%nat)
    /\ (fst r = "improving"%string -> snd r = 0.9)
    /\ (snd r = 1 -> fst r = "stable"%string)
    /\ (violations an = [] -> r = ("stable"%string, 1)).
Proof.
  intros end_time an. cbv zeta. unfold analyze_safety_trend. cbv zeta.
  set (rc := length (recent_violations end_time an)).
  set (pc := length (previous_violations end_time an)).
  assert (Hempty : violations an = [] -> rc = 0%nat /\ pc = 0%nat).
  { intros E. subst rc pc. unfold recent_violations, previous_violations.
    rewrite E. split; reflexivity. }
  destruct (Nat.eqb_spec pc 0) as [Hp|Hp].
  - destruct (Nat.eqb_spec rc 0) as [Hr|Hr]; cbn [fst snd].
    + split; [auto|]. split; [lra|]. split; [split; [discriminate|lia]|].
      split; [discriminate|]. split; reflexivity.
    + split; [auto|]. split; [lra|]. split; [split; [discriminate|lia]|].
      split; [discriminate|]. split; [lra|].
      intros E. destruct (Hempty E). contradiction.
  - assert (Hpos : (0 < pc)%nat) by lia.
    pose proof (ratio_below rc pc Hpos) as Hb.
    destruct (Py.ltb (INR rc / INR pc) 0.8) eqn:E1.
    + apply PyFacts.ltb_true_iff in E1. cbn [fst snd].
      assert (Hmin : Py.min 0.9 (1 - INR rc / INR pc + 0.8) = 0.9).
      { rewrite PyFacts.min_is_Rmin. apply Rmin_left. lra. }
      rewrite Hmin.
      split; [auto|]. split; [lra|]. split; [split; [intros _; split; [lia|tauto]|reflexivity]|].
      split; [reflexivity|]. split; [lra|].
      intros E. destruct (Hempty E). contradiction.
    + apply PyFacts.ltb_false_iff in E1.
      destruct (Py.ltb 1.2 (INR rc / INR pc)) eqn:E2; cbn [fst snd].
      * apply PyFacts.ltb_true_iff in E2.
        assert (Hmin : 0.7 < Py.min 0.9 (INR rc / INR pc - 1.2 + 0.7) <= 0.9).
        { rewrite PyFacts.min_is_Rmin. unfold Rmin.
          destruct (Rle_dec 0.9 (INR rc / INR pc - 1.2 + 0.7)); lra. }
        split; [auto|]. split; [lra|].
        split; [split; [discriminate|intros [_ H]; apply Hb in H; lra]|].
        split; [discriminate|]. split; [lra|].
        intros E. destruct (Hempty E). contradiction.
      * split; [auto|]. split; [lra|].
        split; [split; [discriminate|intros [_ H]; apply Hb in H; lra]|].
        split; [discriminate|]. split; [lra|].
        intros E. destruct (Hempty E). contradiction.
Qed.

End SafetyMoreFacts.

(** ** Pattern analyzer: what the detectors return *)

Module PatternMoreFacts.
Import Pattern PatternOps.

Lemma pattern_id_counter (prefix : string) (n m : nat) (t u : R) :
  make_id prefix n t = make_id prefix m u -> n = m.
Proof.
  unfold make_id. intros E.
  induction prefix as [|c prefix IH].
  - cbn [String.append] in E. injection E as E.
    apply TrackerFacts.str_nat_inj.
    apply TrackerFacts.digits_prefix_unique in E; [exact E| |];
      apply TrackerFacts.string_of_uint_digits.
  - cbn [String.append] in E. injection E as E. apply IH. exact E.
Qed.

Lemma slice_last_length {A : Type} (n : Z) (l : list A) :
  (length (slice_last n l) <= length l)%nat.
Proof.
  unfold slice_last. destruct (n =? 0)%Z; [lia|].
  destruct (0 <? n)%Z.
  - rewrite PyFacts.last_n_length. lia.
  - rewrite length_skipn. lia.
Qed.

Section Detectors.

Variable linregress : list R -> list R -> Linregress.
Variable norm_sf : R -> R.
Variable format_float : nat -> R -> string.

Lemma anomaly_loop_shape (metric_name : string) (n : nat) (now : R)
  (zs vs : list R) (i count : nat) (p : BehaviorPattern) :
  In p (fst (anomaly_loop norm_sf format_float metric_name n now i zs vs count)) ->
  pattern_type p = ANOMALY /\ severity p <> BENIGN
  /\ 2.5 < effect_size p /\ 0.5 < confidence_score p <= 1
  /\ affected_metrics p = [metric_name] /\ timestamp p = now
  /\ decision_count p = 1%nat
  /\ (exists k, (count <= k)%nat /\ pattern_id p = make_id "anomaly" k now)
  /\ (exists j, (i <= j < i + length zs)%nat
               /\ episode_range p = ((Z.of_nat n - 10 + Z.of_nat j)%Z,
                                      (Z.of_nat n - 10 + Z.of_nat j)%Z)).
Proof.
  revert vs i count. induction zs as [|z zs IH]; intros vs i count;
    cbn [anomaly_loop]; [intros []|].
  destruct vs as [|v vs]; [intros []|].
  assert (Hrest : forall c,
             In p (fst (anomaly_loop norm_sf format_float metric_name n now (S i) zs vs c)) ->
             (count <= c)%nat ->
             pattern_type p = ANOMALY /\ severity p <> BENIGN
             /\ 2.5 < effect_size p /\ 0.5 < confidence_score p <= 1
             /\ affected_metrics p = [metric_name] /\ timestamp p = now
             /\ decision_count p = 1%nat
             /\ (exists k, (count <= k)%nat /\ pattern_id p = make_id "anomaly" k now)
             /\ (exists j, (i <= j < i + length (z :: zs))%nat
                  /\ episode_range p = ((Z.of_nat n - 10 + Z.of_nat j)%Z,
                                         (Z.of_nat n - 10 + Z.of_nat j)%Z))).
  { intros c Hp Hc. destruct (IH _ _ _ Hp) as (H1 & H2 & H3 & H4 & H5 & H6 & H7 & H8 & H9).
    repeat (split; [assumption|]). split.
    - destruct H8 as (k & Hk & E). exists k. split; [lia|exact E].
    - destruct H9 as (j & Hj & E). exists j. cbn [length]. split; [lia|exact E]. }
  destruct (Py.ltb anomaly_threshold z) eqn:Ez.
  - destruct (anomaly_loop norm_sf format_float metric_name n now (S i) zs vs (S count))
      as [rest count'] eqn:El.
    cbn [fst]. intros [<-|Hp].
    + apply PyFacts.ltb_true_iff in Ez. unfold anomaly_threshold in Ez.
      cbn [pattern_type severity effect_size confidence_score affected_metrics
             timestamp decision_count pattern_id episode_range].
      split; [reflexivity|]. split.
      { unfold classify_anomaly_severity.
        destruct (Py.ltb 4 z); [discriminate|].
        destruct (Py.ltb 3 z); [discriminate|].
        destruct (Py.ltb 2.5 z) eqn:E; [discriminate|].
        apply PyFacts.ltb_false_iff in E. lra. }
      split; [exact Ez|]. split.
      { rewrite PyFacts.min_is_Rmin. unfold Rmin. destruct (Rle_dec (z / 5) 1); lra. }
      split; [reflexivity|]. split; [reflexivity|]. split; [reflexivity|]. split.
      * exists count. split; [lia|reflexivity].
      * exists i. cbn [length]. split; [lia|reflexivity].
    + apply (Hrest (S count)); [rewrite El; exact Hp|lia].
  - intros Hp. apply (Hrest count); [exact Hp|lia].
Qed.

Lemma anomaly_loop_length (metric_name : string) (n : nat) (now : R)
  (zs vs : list R) (i count : nat) :
  (length (fst (anomaly_loop norm_sf format_float metric_name n now i zs vs count))
   <= length zs)%nat.
Proof.
  revert vs i count. induction zs as [|z zs IH]; intros vs i count;
    cbn [anomaly_loop length]; [cbn; lia|].
  destruct vs as [|v vs]; [cbn; lia|].
  destruct (Py.ltb anomaly_threshold z).
  - specialize (IH vs (S i) (S count)).
    destruct (anomaly_loop norm_sf format_float metric_name n now (S i) zs vs (S count)).
    cbn [fst length] in *. lia.
  - specialize (IH vs (S i) count). lia.
Qed.

Lemma anomaly_loop_ids (metric_name : string) (n : nat) (now : R)
  (zs vs : list R) (i count : nat) :
  NoDup (map pattern_id
           (fst (anomaly_loop norm_sf format_float metric_name n now i zs vs count))).
Proof.
  revert vs i count. induction zs as [|z zs IH]; intros vs i count;
    cbn [anomaly_loop]; [constructor|].
  destruct vs as [|v vs]; [constructor|].
  destruct (Py.ltb anomaly_threshold z); [|apply IH].
  pose proof (IH vs (S i) (S count)) as Hnd.
  pose proof (fun p => anomaly_loop_shape metric_name n now zs vs (S i) (S count) p) as Hs.
  destruct (anomaly_loop norm_sf format_float metric_name n now (S i) zs vs (S count))
    as [rest count'].
  cbn [fst map pattern_id] in *. constructor; [|exact Hnd].
  intros Hin. apply in_map_iff in Hin. destruct Hin as (p & E & Hp).
  destruct (Hs p Hp) as (_ & _ & _ & _ & _ & _ & _ & (k & Hk & E') & _).
  rewrite E' in E. apply pattern_id_counter in E. lia.
Qed.

(** A field of the metrics has a value in every record. *)
Lemma field_has_value (metric_name : string) (m : PerformanceMetrics) :
  In metric_name metric_fields -> metric_value metric_name m <> None.
Proof.
  intros H. unfold metric_fields in H. cbn [In] in H.
  repeat (destruct H as [<-|H]; [cbn; discriminate|]). destruct H.
Qed.

Lemma field_values (metric_name : string) (ms : list PerformanceMetrics) :
  In metric_name metric_fields ->
  length
    (flat_map (fun m => match metric_value metric_name m with Some x => [x] | None => [] end)
       ms) = length ms.
Proof.
  intros H. induction ms as [|m ms IH]; [reflexivity|].
  cbn [flat_map]. rewrite length_app, IH.
  pose proof (field_has_value metric_name m H) as Hv.
  destruct (metric_value metric_name m); [reflexivity|congruence].
Qed.

Lemma detect_anomalies_shape (metric_name : string) (lookback : Z) (now : R)
  (an : State) (p : BehaviorPattern) :
  In p (fst (detect_anomalies norm_sf format_float metric_name lookback now an)) ->
  pattern_type p = ANOMALY /\ severity p <> BENIGN
  /\ 2.5 < effect_size p /\ 0.5 < confidence_score p <= 1
  /\ affected_metrics p = [metric_name] /\ timestamp p = now.
Proof.
  unfold detect_anomalies. cbv zeta.
  destruct (length (slice_last lookback (performance_history an)) <? 20)%nat; [intros []|].
  match goal with |- context [match ?V with [] => _ | _ :: _ => _ end] =>
    destruct V as [|x0 xs] eqn:Ev end; [intros []|].
  destruct (Py.eqb _ 0); [intros []|].
  match goal with |- context [anomaly_loop ?a ?b ?c ?d ?e ?f ?g ?h ?k] =>
    pose proof (anomaly_loop_shape c d e g h f k p) as Hs;
    destruct (anomaly_loop a b c d e f g h k) as [anoms cnt]
  end.
  cbn [fst] in *. intros Hp. destruct (Hs Hp) as (H1 & H2 & H3 & H4 & H5 & H6 & _).
  repeat (split; [assumption|]). exact H6.
Qed.

Lemma detect_anomalies_few (metric_name : string) (lookback : Z) (now : R) (an : State) :
  (length (fst (detect_anomalies norm_sf format_float metric_name lookback now an))
   <= 10)%nat
  /\ NoDup (map pattern_id
              (fst (detect_anomalies norm_sf format_float metric_name lookback now an))).
Proof.
  unfold detect_anomalies. cbv zeta.
  destruct (length (slice_last lookback (performance_history an)) <? 20)%nat;
    [cbn; split; [lia|constructor]|].
  match goal with |- context [match ?V with [] => _ | _ :: _ => _ end] =>
    destruct V as [|x0 xs] eqn:Ev end; [cbn; split; [lia|constructor]|].
  destruct (Py.eqb _ 0); [cbn; split; [lia|constructor]|].
  match goal with |- context [anomaly_loop ?a ?b ?c ?d ?e ?f ?g ?h ?k] =>
    pose proof (anomaly_loop_length c d e g h f k) as Hl;
    pose proof (anomaly_loop_ids c d e g h f k) as Hn;
    destruct (anomaly_loop a b c d e f g h k) as [anoms cnt]
  end.
  cbn [fst] in *. split; [|exact Hn].
  rewrite length_map, PyFacts.last_n_length in Hl. lia.
Qed.

Lemma detect_anomalies_nothing (metric_name : string) (lookback : Z) (now : R)
  (an : State) :
  (length (performance_history an) < 20)%nat ->
  detect_anomalies norm_sf format_float metric_name lookback now an = ([], an).
Proof.
  intros H. unfold detect_anomalies. cbv zeta.
  destruct (Nat.ltb_spec (length (slice_last lookback (performance_history an))) 20)
    as [Hl|Hl]; [reflexivity|].
  pose proof (slice_last_length lookback (performance_history an)). lia.
Qed.

(** For a field of the metrics the baseline is taken over all the records
    of the window but the last ten. *)
Lemma detect_anomalies_window (metric_name : string) (lookback : Z) (now : R)
  (an : State) :
  In metric_name metric_fields ->
  let window := slice_last lookback (performance_history an) in
  let values :=
    flat_map (fun m => match metric_value metric_name m with Some x => [x] | None => [] end)
      window in
  length values = length window
  /\ ((20 <= length window)%nat ->
      Py.std (all_but_last_10 values) <> 0 ->
      length (all_but_last_10 values) = (length window - 10)%nat
      /\ pattern_count (snd (detect_anomalies norm_sf format_float metric_name lookback
                                now an)) =
         (pattern_count an
          + length (filter (fun x =>
                Py.ltb anomaly_threshold
                  (Rabs ((x - Py.mean (all_but_last_10 values))
                         / Py.std (all_but_last_10 values))))
              (Py.last_n 10 values)))%nat).
Proof.
  intros Hf. cbv zeta.
  pose proof (field_values metric_name (slice_last lookback (performance_history an)) Hf)
    as Hlen.
  split; [exact Hlen|]. intros H20 Hstd.
  split.
  { unfold all_but_last_10. rewrite length_firstn, Hlen. lia. }
  unfold detect_anomalies. cbv zeta.
  destruct (Nat.ltb_spec (length (slice_last lookback (performance_history an))) 20)
    as [Hl|_]; [lia|].
  set (values := flat_map _ _) in *.
  destruct values as [|x0 xs] eqn:Ev; [cbn [length] in Hlen; lia|].
  rewrite <- Ev in *. clear Ev x0 xs.
  destruct (Py.eqb (Py.std (all_but_last_10 values)) 0) eqn:E0;
    [apply PyFacts.eqb_true_iff in E0; contradiction|].
  set (mu := Py.mean (all_but_last_10 values)).
  set (sd := Py.std (all_but_last_10 values)).
  generalize (Py.last_n 10 values) as recent.
  generalize (length (slice_last lookback (performance_history an))) as n.
  generalize (pattern_count an) as count. generalize 0%nat as i.
  intros i count n recent. revert i count.
  induction recent as [|x recent IH]; intros i count; cbn [map anomaly_loop filter].
  - cbn. lia.
  - destruct (Py.ltb anomaly_threshold (Rabs ((x - mu) / sd))).
    + specialize (IH (S i) (S count)).
      destruct (anomaly_loop norm_sf format_float metric_name n now (S i)
                  (map (fun x1 => Rabs ((x1 - mu) / sd)) recent) recent (S count))
        as [rest count'].
      cbn [snd pattern_count length] in *. lia.
    + apply IH.
Qed.

Lemma detect_trend_shape (count : nat) (now : R) (values : list R)
  (metric_name : string) (p : BehaviorPattern) :
  detect_trend linregress format_float count now values metric_name = Some p ->
  let lr := linregress (map INR (seq 0 (length values))) values in
  (10 <= length values)%nat
  /\ statistical_significance p = pvalue lr /\ pvalue lr <= 0.05
  /\ trend_slope p = Some (slope lr)
  /\ (pattern_type p = STABILITY ->
      Rabs (slope lr) < 2 * stderr lr /\ severity p = BENIGN
      /\ recommendations p = [] /\ 0 <= effect_size p < 2)
  /\ (pattern_type p = IMPROVEMENT \/ pattern_type p = CONVERGENCE -> 0 < slope lr)
  /\ (pattern_type p = REGRESSION \/ pattern_type p = DIVERGENCE -> slope lr <= 0)
  /\ (pattern_type p <> STABILITY ->
      2 * stderr lr <= Rabs (slope lr)
      /\ length (recommendations p) = 3%nat
      /\ (effect_size p = 0 \/ 2 <= effect_size p))
  /\ (contains "reward" metric_name || contains "consistency" metric_name = true ->
      pattern_type p = STABILITY \/ pattern_type p = IMPROVEMENT
      \/ pattern_type p = REGRESSION)
  /\ (contains "reward" metric_name || contains "consistency" metric_name = false ->
      pattern_type p = STABILITY \/ pattern_type p = CONVERGENCE
      \/ pattern_type p = DIVERGENCE).
Proof.
  unfold detect_trend. cbv zeta.
  destruct (Nat.ltb_spec (length values) 10) as [Hl|Hl]; [discriminate|].
  set (lr := linregress (map INR (seq 0 (length values))) values).
  destruct (Py.ltb trend_significance_threshold (pvalue lr)) eqn:Ep; [discriminate|].
  apply PyFacts.ltb_false_iff in Ep. unfold trend_significance_threshold in Ep.
  destruct (Py.ltb (Rabs (slope lr)) (stderr lr * 2)) eqn:Es.
  - apply PyFacts.ltb_true_iff in Es.
    intros E. injection E as <-.
    cbn [pattern_type severity statistical_significance trend_slope recommendations
           effect_size generate_trend_recommendations].
    pose proof (Rabs_pos (slope lr)) as Ha.
    assert (Hpos : 0 < stderr lr) by lra.
    destruct (Py.ltb 0 (stderr lr)) eqn:E0;
      [|apply PyFacts.ltb_false_iff in E0; lra].
    assert (Hq : 0 <= Rabs (slope lr) / stderr lr < 2).
    { split.
      - apply Rmult_le_reg_r with (stderr lr); [exact Hpos|].
        unfold Rdiv. rewrite Rmult_assoc, Rinv_l by lra. lra.
      - apply Rmult_lt_reg_r with (stderr lr); [exact Hpos|].
        unfold Rdiv. rewrite Rmult_assoc, Rinv_l by lra. lra. }
    split; [exact Hl|]. split; [reflexivity|]. split; [exact Ep|]. split; [reflexivity|].
    split; [intros _; split; [lra|split; [reflexivity|split; [reflexivity|exact Hq]]]|].
    split; [intros [H|H]; discriminate H|].
    split; [intros [H|H]; discriminate H|].
    split; [intros H; congruence|].
    split; intros _; left; reflexivity.
  - apply PyFacts.ltb_false_iff in Es.
    assert (Hq : (if Py.ltb 0 (stderr lr) then Rabs (slope lr) / stderr lr else 0) = 0
                 \/ 2 <= (if Py.ltb 0 (stderr lr) then Rabs (slope lr) / stderr lr else 0)).
    { destruct (Py.ltb 0 (stderr lr)) eqn:E0; [|left; reflexivity].
      apply PyFacts.ltb_true_iff in E0. right.
      apply Rmult_le_reg_r with (stderr lr); [exact E0|].
      unfold Rdiv. rewrite Rmult_assoc, Rinv_l by lra. lra. }
    destruct (Py.ltb 0 (slope lr)) eqn:E1.
    + apply PyFacts.ltb_true_iff in E1.
      destruct (contains "reward" metric_name || contains "consistency" metric_name);
        intros E; injection E as <-;
        cbn [pattern_type severity statistical_significance trend_slope recommendations
               effect_size generate_trend_recommendations length];
        (split; [exact Hl|]); (split; [reflexivity|]); (split; [exact Ep|]);
        (split; [reflexivity|]);
        (split; [intros H; discriminate H|]);
        (split; [intros _; exact E1|]);
        (split; [intros [H|H]; discriminate H|]);
        (split; [intros _; split; [lra|split; [reflexivity|exact Hq]]|]);
        split; intros H; try discriminate H; auto.
    + apply PyFacts.ltb_false_iff in E1.
      destruct (contains "reward" metric_name || contains "consistency" metric_name);
        intros E; injection E as <-;
        cbn [pattern_type severity statistical_significance trend_slope recommendations
               effect_size generate_trend_recommendations length];
        (split; [exact Hl|]); (split; [reflexivity|]); (split; [exact Ep|]);
        (split; [reflexivity|]);
        (split; [intros H; discriminate H|]);
        (split; [intros [H|H]; discriminate H|]);
        (split; [intros _; lra|]);
        (split; [intros _; split; [lra|split; [reflexivity|exact Hq]]|]);
        split; intros H; try discriminate H; auto.
Qed.

End Detectors.

(** X29: for a metric name that is a field of [PerformanceMetrics],
    [detect_anomalies] returns at most ten patterns, with pairwise
    different ids; each has type ANOMALY, a severity other than BENIGN, an
    effect size (its z-score) above 2.5, a confidence above 0.5 and at
    most 1, and names the metric; when the window holds at least 20
    records and the baseline (all values of the window but the last ten)
    has a non-zero deviation, it returns one pattern for each of the last
    ten values whose z-score against the baseline is above 2.5.  With
    fewer than 20 records in the performance history it returns nothing
    and leaves the analyzer as it was, whatever the name. *)
Theorem anomalies_are_significant :
  forall (norm_sf : R -> R) (format_float : nat -> R -> string)
         (metric_name : string) (lookback : Z) (now : R) (an : State),
    let res := detect_anomalies norm_sf format_float metric_name lookback now an in
    let window := slice_last lookback (performance_history an) in
    let values :=
      flat_map
        (fun m => match metric_value metric_name m with Some x => [x] | None => [] end)
        window in
    ((length (performance_history an) < 20)%nat -> res = ([], an))
    /\ (In metric_name metric_fields ->
        (length (fst res) <= 10)%nat
        /\ NoDup (map pattern_id (fst res))
        /\ (forall p, In p (fst res) ->
              pattern_type p = ANOMALY /\ severity p <> BENIGN
              /\ 2.5 < effect_size p /\ 0.5 < confidence_score p <= 1
              /\ affected_metrics p = [metric_name] /\ timestamp p = now)
        /\ length values = length window
        /\ ((20 <= length window)%nat ->
            Py.std (all_but_last_10 values) <> 0 ->
            length (fst res) =
            length (filter (fun x =>
                      Py.ltb anomaly_threshold
                        (Rabs ((x - Py.mean (all_but_last_10 values))
                               / Py.std (all_but_last_10 values))))
                      (Py.last_n 10 values)))).
Proof.
  intros norm_sf format_float metric_name lookback now an. cbv zeta.
  split; [apply detect_anomalies_nothing|].
  intros Hf.
  destruct (detect_anomalies_few norm_sf format_float metric_name lookback now an)
    as [H1 H2].
  split; [exact H1|]. split; [exact H2|].
  split; [intros p; apply detect_anomalies_shape|].
  destruct (detect_anomalies_window norm_sf format_float metric_name lookback now an Hf)
    as [Hlen Hcount].
  split; [exact Hlen|]. intros H20 Hstd.
  destruct (Hcount H20 Hstd) as [_ Hc].
  destruct (PatternFacts.detect_anomalies_keeps_history norm_sf format_float
              metric_name lookback now an) as [_ Hk].
  cbv zeta in Hk. lia.
Qed.

(** X30: a pattern [_detect_trend] returns rests on at least ten values
    and a p-value of at most 0.05.  It is a STABILITY pattern (benign,
    without recommendations, effect size below 2) when the slope is within
    two standard errors of zero; otherwise a rising one (IMPROVEMENT or
    CONVERGENCE) has a positive slope and a falling one (REGRESSION or
    DIVERGENCE) a slope of at most zero, with three recommendations and an
    effect size of at least 2 (or 0 when the standard error is not
    positive).  Only metrics named after "reward" or "consistency" give
    IMPROVEMENT or REGRESSION; all others give CONVERGENCE or DIVERGENCE. *)
Theorem trend_classification :
  forall (linregress : list R -> list R -> Linregress)
         (format_float : nat -> R -> string)
         (count : nat) (now : R) (values : list R) (metric_name : string)
         (p : BehaviorPattern),
    detect_trend linregress format_float count now values metric_name = Some p ->
    let lr := linregress (map INR (seq 0 (length values))) values in
    (10 <= length values)%nat
    /\ statistical_significance p = pvalue lr /\ pvalue lr <= 0.05
    /\ trend_slope p = Some (slope lr)
    /\ (pattern_type p = STABILITY ->
        Rabs (slope lr) < 2 * stderr lr /\ severity p = BENIGN
        /\ recommendations p = [] /\ 0 <= effect_size p < 2)
    /\ (pattern_type p = IMPROVEMENT \/ pattern_type p = CONVERGENCE -> 0 < slope lr)
    /\ (pattern_type p = REGRESSION \/ pattern_type p = DIVERGENCE -> slope lr <= 0)
    /\ (pattern_type p <> STABILITY ->
        2 * stderr lr <= Rabs (slope lr)
        /\ length (recommendations p) = 3%nat
        /\ (effect_size p = 0 \/ 2 <= effect_size p))
    /\ (contains "reward" metric_name || contains "consistency" metric_name = true ->
        pattern_type p = STABILITY \/ pattern_type p = IMPROVEMENT
        \/ pattern_type p = REGRESSION)
    /\ (contains "reward" metric_name || contains "consistency" metric_name = false ->
        pattern_type p = STABILITY \/ pattern_type p = CONVERGENCE
        \/ pattern_type p = DIVERGENCE).
Proof.
  intros linregress format_float count now values metric_name p H.
  exact (detect_trend_shape linregress format_float count now values metric_name p H).
Qed.

(** The rising series is reported as an improvement of the reward. *)
Lemma trend_classification_witness :
  exists p,
    detect_trend MoreSamples.ramp_fit MoreSamples.no_format 0 0 MoreSamples.ramp "reward"
      = Some p
    /\ pattern_type p = IMPROVEMENT /\ trend_slope p = Some 1.
Proof.
  destruct (detect_trend MoreSamples.ramp_fit MoreSamples.no_format 0 0
              MoreSamples.ramp "reward") as [p|] eqn:E.
  - exists p. split; [reflexivity|].
    destruct (trend_classification _ _ _ _ _ _ p E)
      as (_ & _ & _ & Hs & Hst & _ & Hre & _ & Hr & _).
    cbn [MoreSamples.ramp_fit slope stderr] in *.
    split; [|exact Hs].
    destruct (Hr eq_refl) as [H|[H|H]].
    + destruct (Hst H) as [Ha _]. rewrite Rabs_R1 in Ha. lra.
    + exact H.
    + assert (1 <= 0) by (apply Hre; left; exact H). lra.
  - exfalso. unfold detect_trend, MoreSamples.ramp, MoreSamples.ramp_fit in E.
    cbv zeta in E. rewrite length_map, length_seq in E.
    change (10 <? 10)%nat with false in E. cbn [pvalue] in E.
    unfold trend_significance_threshold in E.
    rewrite (proj2 (PyFacts.ltb_false_iff 0.05 0)) in E by lra.
    repeat match type of E with
           | context [if ?c then _ else _] => destruct c
           end; discriminate E.
Defined.

End PatternMoreFacts.
